(** * GB50497Validator: the sensor-layout validator of the excavation
      monitoring application, embedded from [GB50497Validator.js].

    The embedding follows the source method by method.  The mutable
    [results] object that every check receives is threaded explicitly
    (each check maps a report to a report); a [TypeError] raised by a
    property access on [undefined] is a [Throw] completion.

    JavaScript numbers that measure something (dimensions, coordinates,
    distances, densities) are kept abstract behind the class [JSNumber],
    so that what holds of every arithmetic is proved once; its instance
    [float], IEEE binary64 as the engine computes, runs the validator on
    concrete inputs and carries the properties that depend on the
    arithmetic.  Those rest on the specification of the primitive floats
    ([SpecFloat]): the order of the comparisons, and the monotonicity of
    the rounded quotient, square, sum and square root, proved on the real
    numbers that mantissas and exponents denote.  Array lengths and counters are [nat]; the safety
    level, produced by [parseInt], is a [Z] (the NaN that [parseInt] gives
    for a field without digits resolves no requirement set, like any
    integer other than 1, 2 and 3, and is not modelled apart).

    The table [layoutRequirements] of the constructor is read by no
    method and is left out, as are the unused locals [area] and
    [pitCenter]. *)

From Stdlib Require Import String Ascii List Bool Arith ZArith QArith Lia.
From Stdlib Require Import Reals Lra.
From Stdlib Require Import Floats.
From Stdlib Require Import Permutation.
Import ListNotations.

Local Open Scope string_scope.
Local Open Scope list_scope.
Local Open Scope nat_scope.

(** ** Numbers *)

Class JSNumber (num : Type) : Type := {
  lit : Q -> num;                    (* a numeric literal *)
  nadd : num -> num -> num;
  nsub : num -> num -> num;
  nmul : num -> num -> num;
  ndiv : num -> num -> num;
  nneg : num -> num;
  Math_abs : num -> num;
  Math_sqrt : num -> num;
  nltb : num -> num -> bool;         (* a < b *)
  nleb : num -> num -> bool;         (* a <= b *)
  Math_max2 : num -> num -> num      (* Math.max(a, b) *)
}.

Declare Scope js_scope.
Delimit Scope js_scope with js.
Infix "+" := nadd : js_scope.
Infix "-" := nsub : js_scope.
Infix "*" := nmul : js_scope.
Infix "/" := ndiv : js_scope.
Notation "- a" := (nneg a) : js_scope.
Notation "a <? b" := (nltb a b) : js_scope.
Notation "a >? b" := (nltb b a) : js_scope.
Notation "a <=? b" := (nleb a b) : js_scope.
Notation "a >=? b" := (nleb b a) : js_scope.

(** [x ** 2], taken as the rounded product [x * x]. *)
Definition sq {num} `{JSNumber num} (a : num) : num := (a * a)%js.

(** An array length or a counter used in an arithmetic expression. *)
Definition of_nat {num} `{JSNumber num} (n : nat) : num :=
  lit (inject_Z (Z.of_nat n)).

(** [Math.max(first, ...rest)]: ECMAScript folds the arguments from the
    left, starting from -Infinity, which the first argument replaces. *)
Definition Math_max {num} `{JSNumber num} (first : num) (rest : list num) : num :=
  fold_left Math_max2 rest first.

(** [Math.max(...xs, last)] *)
Definition Math_max_spread {num} `{JSNumber num} (xs : list num) (last : num) : num :=
  match xs ++ [last] with
  | [] => last
  | a :: rest => Math_max a rest
  end.

(** *** IEEE binary64 *)

Definition float_of_Z (z : Z) : float :=
  match z with
  | Z0 => PrimFloat.zero
  | Zpos _ => PrimFloat.of_uint63 (Uint63.of_Z z)
  | Zneg p => PrimFloat.opp (PrimFloat.of_uint63 (Uint63.of_Z (Zpos p)))
  end.

(** A decimal literal [n/d] is the double nearest to the quotient: both
    integers are exact, and the division rounds once. *)
Definition float_lit (q : Q) : float :=
  PrimFloat.div (float_of_Z (Qnum q)) (float_of_Z (Zpos (Qden q))).

(** NaN is contagious; of two equal arguments (the zeros of either sign
    included) the one without the sign bit wins. *)
Definition float_max2 (a b : float) : float :=
  if PrimFloat.is_nan a || PrimFloat.is_nan b then PrimFloat.nan
  else if PrimFloat.ltb a b then b
  else if PrimFloat.ltb b a then a
  else if PrimFloat.get_sign a then b else a.

#[export] Instance float_JSNumber : JSNumber float := {|
  lit := float_lit;
  nadd := PrimFloat.add;
  nsub := PrimFloat.sub;
  nmul := PrimFloat.mul;
  ndiv := PrimFloat.div;
  nneg := PrimFloat.opp;
  Math_abs := PrimFloat.abs;
  Math_sqrt := PrimFloat.sqrt;
  nltb := PrimFloat.ltb;
  nleb := PrimFloat.leb;
  Math_max2 := float_max2
|}.

(** *** The order of binary64 numbers

    [SFcompare], which specifies the comparisons of the primitive floats,
    orders the numbers (every value but NaN) as these keys are ordered
    lexicographically: the sign class first, then the exponent, then the
    mantissa. *)

Definition order_key (f : spec_float) : Z * Z * Z :=
  match f with
  | S754_infinity true => (-2, 0, 0)%Z
  | S754_finite true m e => (-1, - e, Zneg m)%Z
  | S754_zero _ => (0, 0, 0)%Z
  | S754_nan => (0, 0, 0)%Z
  | S754_finite false m e => (1, e, Zpos m)%Z
  | S754_infinity false => (2, 0, 0)%Z
  end.

Definition key_lt (k1 k2 : Z * Z * Z) : Prop :=
  let '(a1, b1, c1) := k1 in
  let '(a2, b2, c2) := k2 in
  (a1 < a2 \/ (a1 = a2 /\ (b1 < b2 \/ (b1 = b2 /\ c1 < c2))))%Z.

Definition key_le (k1 k2 : Z * Z * Z) : Prop :=
  let '(a1, b1, c1) := k1 in
  let '(a2, b2, c2) := k2 in
  (a1 < a2 \/ (a1 = a2 /\ (b1 < b2 \/ (b1 = b2 /\ c1 <= c2))))%Z.

Definition is_number (f : spec_float) : Prop := f <> S754_nan.

(** A double that is not NaN, and the two comparisons as propositions. *)
Definition number (x : float) : Prop := PrimFloat.is_nan x = false.
Definition fle (x y : float) : Prop := PrimFloat.leb x y = true.
Definition flt (x y : float) : Prop := PrimFloat.ltb x y = true.

(** *** The values of binary64 numbers

    The rounding of the primitive operations is specified on integer
    mantissas and exponents ([SpecFloat]); its properties are stated on
    the real numbers these denote. *)

(** Powers of two, as reals. *)
Definition pow2 (e : Z) : R := powerRZ 2 e.

(** A real [x] located with respect to the integer [m] and the step [P]:
    at [m * P], or strictly between [m * P] and [(m + 1) * P], below, at
    or above the middle. *)
Definition located (m : Z) (P : R) (l : location) (x : R) : Prop :=
  match l with
  | loc_Exact => x = IZR m * P
  | loc_Inexact Lt => IZR m * P < x < (IZR m + / 2) * P
  | loc_Inexact Eq => x = (IZR m + / 2) * P
  | loc_Inexact Gt => (IZR m + / 2) * P < x < (IZR m + 1) * P
  end%R.

(** The first half of [binary_round_aux]: the shift to the exponent of
    the format and the rounding of the mantissa to nearest, ties to
    even. *)
Definition round_mantissa (m e : Z) (l : location) : Z * Z :=
  let '(mrs, c) := shr_fexp prec emax m e l in
  (round_nearest_even (shr_m mrs) (loc_of_shr_record mrs), c).

(** The second half of [binary_round_aux]: the shift that a carry of the
    rounding may need, and the overflow to infinity. *)
Definition finish_round (sx : bool) (kc : Z * Z) : spec_float :=
  let '(k, c) := kc in
  let '(mrs, e) := shr_fexp prec emax k c loc_Exact in
  match shr_m mrs with
  | Z0 => S754_zero sx
  | Zpos m => if (e <=? emax - prec)%Z then S754_finite sx m e else S754_infinity sx
  | Zneg _ => S754_nan
  end.

(** ** Objects used as tables *)

(** The names every object literal inherits from [Object.prototype]. *)
Definition Object_prototype : list string :=
  [ "constructor"; "__defineGetter__"; "__defineSetter__"; "hasOwnProperty";
    "__lookupGetter__"; "__lookupSetter__"; "isPrototypeOf";
    "propertyIsEnumerable"; "toString"; "valueOf"; "__proto__";
    "toLocaleString" ].

(** The outcome of [o[k]] on an object literal [o]. *)
Inductive property (A : Type) : Type :=
| Own (a : A)            (* a property of the literal itself *)
| Inherited (k : string) (* Object.prototype[k]: a built-in function or object *)
| Undefined.
Arguments Own {A} a.
Arguments Inherited {A} k.
Arguments Undefined {A}.

Fixpoint own {A : Type} (o : list (string * A)) (k : string) : option A :=
  match o with
  | [] => None
  | (k', a) :: o' => if String.eqb k k' then Some a else own o' k
  end.

Definition get {A : Type} (o : list (string * A)) (k : string) : property A :=
  match own o k with
  | Some a => Own a
  | None => if existsb (String.eqb k) Object_prototype then Inherited k else Undefined
  end.

(** [o[k] = v]: an existing property keeps its place, a new one goes last.
    The keys written by the validator are categories of the requirement
    table. *)
Fixpoint set {A : Type} (o : list (string * A)) (k : string) (v : A) : list (string * A) :=
  match o with
  | [] => [(k, v)]
  | (k', a) :: o' => if String.eqb k k' then (k', v) :: o' else (k', a) :: set o' k v
  end.

(** An object whose keys are the decimal numerals ["1"], ["2"], ...,
    read with an integer key.  No name of [Object.prototype] is a numeral. *)
Fixpoint get_level {A : Type} (o : list (Z * A)) (k : Z) : option A :=
  match o with
  | [] => None
  | (k', a) :: o' => if Z.eqb k k' then Some a else get_level o' k
  end.

(** ** Completions *)

Inductive exn : Type := TypeError.

Inductive completion (A : Type) : Type :=
| Return (a : A)
| Throw (e : exn).
Arguments Return {A} a.
Arguments Throw {A} e.

(** ** The static tables (constructor of [GB50497Validator]) *)

Record RequirementSet : Type := {
  required : list string;
  recommended : list string;
  optional : list string
}.

Definition monitoringRequirements : list (string * list (Z * RequirementSet)) :=
  [ ("soil",
     [ (1%Z, {| required := [ "horizontal-displacement"; "vertical-displacement";
                              "deep-horizontal"; "support-force"; "water-level";
                              "ground-settlement" ];
                recommended := [ "anchor-force" ];
                optional := [ "wall-internal-force"; "pore-pressure"; "soil-pressure" ] |});
       (2%Z, {| required := [ "horizontal-displacement"; "vertical-displacement";
                              "deep-horizontal"; "support-force"; "water-level";
                              "ground-settlement" ];
                recommended := [ "anchor-force" ];
                optional := [ "wall-internal-force"; "pore-pressure" ] |});
       (3%Z, {| required := [ "horizontal-displacement"; "vertical-displacement";
                              "water-level" ];
                recommended := [ "deep-horizontal"; "support-force"; "ground-settlement" ];
                optional := [ "anchor-force" ] |}) ]);
    ("rock",
     [ (1%Z, {| required := [ "horizontal-displacement"; "vertical-displacement";
                              "anchor-force"; "ground-settlement" ];
                recommended := [ "water-level" ];
                optional := [] |});
       (2%Z, {| required := [ "horizontal-displacement"; "ground-settlement" ];
                recommended := [ "vertical-displacement"; "anchor-force"; "water-level" ];
                optional := [] |});
       (3%Z, {| required := [ "horizontal-displacement" ];
                recommended := [ "ground-settlement" ];
                optional := [ "vertical-displacement"; "anchor-force" ] |}) ]);
    ("soil-rock",
     [ (1%Z, {| required := [ "horizontal-displacement"; "vertical-displacement";
                              "deep-horizontal"; "support-force"; "anchor-force";
                              "water-level"; "ground-settlement" ];
                recommended := [];
                optional := [ "wall-internal-force"; "pore-pressure" ] |});
       (2%Z, {| required := [ "horizontal-displacement"; "vertical-displacement";
                              "deep-horizontal"; "support-force"; "water-level";
                              "ground-settlement" ];
                recommended := [ "anchor-force" ];
                optional := [] |});
       (3%Z, {| required := [ "horizontal-displacement"; "vertical-displacement";
                              "water-level" ];
                recommended := [ "deep-horizontal"; "support-force"; "ground-settlement" ];
                optional := [ "anchor-force" ] |}) ]) ].

Definition names : list (string * string) :=
  [ ("horizontal-displacement", "围护墙顶部水平位移");
    ("vertical-displacement", "围护墙顶部竖向位移");
    ("deep-horizontal", "深层水平位移");
    ("support-force", "支撑轴力");
    ("anchor-force", "锚杆轴力");
    ("water-level", "地下水位");
    ("ground-settlement", "周边地表竖向位移") ].

Definition minimums : list (string * Z) :=
  [ ("horizontal-displacement", 8%Z);
    ("vertical-displacement", 8%Z);
    ("deep-horizontal", 4%Z);
    ("support-force", 4%Z);
    ("anchor-force", 2%Z);
    ("water-level", 2%Z);
    ("ground-settlement", 6%Z) ].

Definition baseDensity : list (Z * Q) :=
  [ (1%Z, 0.8%Q); (2%Z, 0.6%Q); (3%Z, 0.4%Q) ].

(** ** Data model *)

Section Validator.

Context {num : Type} {N : JSNumber num}.

Record Vector3 : Type := { pos_x : num; pos_y : num; pos_z : num }.

(** A placed sensor as [getSensors] hands it over ([type], [position], [id]). *)
Record PlacedSensor : Type := {
  sensor_type : string;
  position : Vector3;
  sensor_id : nat
}.

Record Dimensions : Type := { length : num; width : num; depth : num }.

Record PitConfiguration : Type := {
  type : string;
  safetyLevel : Z;
  dimensions : Dimensions
}.

(** The values interpolated into a message. *)
Inductive value : Type :=
| VString (s : string)
| VInt (n : Z)
| VNum (v : num)
| VBuiltin (k : string).   (* Object.prototype[k] *)

(** A message is kept as the pieces of its template literal, in order; a
    plain string literal is a single [Lit]. *)
Inductive piece : Type :=
| Lit (s : string)
| Subst (v : value).

Definition message : Type := list piece.

Record Distribution : Type := {
  north : nat; south : nat; east : nat; west : nat;
  corners : nat; middle : nat
}.

Record WallDisplacement : Type := {
  wd_total : nat;
  wd_distribution : Distribution
}.

Record DeepHorizontal : Type := {
  dh_total : nat;
  dh_distribution : Distribution
}.

Record GroundSettlement : Type := {
  gs_total : nat;
  gs_range : num
}.

(** [layoutResults], filled in by the three layout checks. *)
Record LayoutResults : Type := {
  wallDisplacement : option WallDisplacement;
  deepHorizontal : option DeepHorizontal;
  groundSettlement : option GroundSettlement
}.

Record Quantity : Type := {
  q_total : nat;
  q_density : num;
  q_recommended : num;
  q_adequate : bool
}.

Record Coverage : Type := {
  r_total : nat;
  r_outside : nat;
  r_maxDistance : num;
  r_recommendedMaxDistance : num
}.

(** [results.compliance]: [None] is an absent field. *)
Record Compliance : Type := {
  c_required : option (list (string * nat));
  c_recommended : option (list (string * nat));
  c_layout : option LayoutResults;
  c_quantity : option Quantity;
  c_range : option Coverage
}.

Record ValidationReport : Type := {
  isValid : bool;
  errors : list message;
  warnings : list message;
  suggestions : list message;
  compliance : Compliance
}.

(** *** Updates of [results] *)

Definition push_error (m : message) (r : ValidationReport) : ValidationReport :=
  {| isValid := isValid r; errors := errors r ++ [m]; warnings := warnings r;
     suggestions := suggestions r; compliance := compliance r |}.

Definition push_warning (m : message) (r : ValidationReport) : ValidationReport :=
  {| isValid := isValid r; errors := errors r; warnings := warnings r ++ [m];
     suggestions := suggestions r; compliance := compliance r |}.

Definition push_suggestion (m : message) (r : ValidationReport) : ValidationReport :=
  {| isValid := isValid r; errors := errors r; warnings := warnings r;
     suggestions := suggestions r ++ [m]; compliance := compliance r |}.

Definition set_isValid (b : bool) (r : ValidationReport) : ValidationReport :=
  {| isValid := b; errors := errors r; warnings := warnings r;
     suggestions := suggestions r; compliance := compliance r |}.

Definition set_compliance (c : Compliance) (r : ValidationReport) : ValidationReport :=
  {| isValid := isValid r; errors := errors r; warnings := warnings r;
     suggestions := suggestions r; compliance := c |}.

Definition set_required (v : list (string * nat)) (c : Compliance) : Compliance :=
  {| c_required := Some v; c_recommended := c_recommended c; c_layout := c_layout c;
     c_quantity := c_quantity c; c_range := c_range c |}.

Definition set_recommended (v : list (string * nat)) (c : Compliance) : Compliance :=
  {| c_required := c_required c; c_recommended := Some v; c_layout := c_layout c;
     c_quantity := c_quantity c; c_range := c_range c |}.

Definition set_layout (v : LayoutResults) (c : Compliance) : Compliance :=
  {| c_required := c_required c; c_recommended := c_recommended c; c_layout := Some v;
     c_quantity := c_quantity c; c_range := c_range c |}.

Definition set_quantity (v : Quantity) (c : Compliance) : Compliance :=
  {| c_required := c_required c; c_recommended := c_recommended c; c_layout := c_layout c;
     c_quantity := Some v; c_range := c_range c |}.

Definition set_range (v : Coverage) (c : Compliance) : Compliance :=
  {| c_required := c_required c; c_recommended := c_recommended c; c_layout := c_layout c;
     c_quantity := c_quantity c; c_range := Some v |}.

(** ** Helper methods *)

(** [names[type] || type]: every own name is a non-empty string, and a
    built-in is truthy. *)
Definition getSensorTypeName (type : string) : value :=
  match get names type with
  | Own n => VString n
  | Inherited k => VBuiltin k
  | Undefined => VString type
  end.

(** [minimums[type] || 1]: every own minimum is non-zero. *)
Definition getMinimumSensorCount (type : string) : value :=
  match get minimums type with
  | Own n => VInt n
  | Inherited k => VBuiltin k
  | Undefined => VInt 1
  end.

(** [count < v] for a value [getMinimumSensorCount] returns: a built-in
    converts to NaN, and no comparison with NaN holds. *)
Definition lt_count (count : nat) (v : value) : bool :=
  match v with
  | VInt m => (Z.of_nat count <? m)%Z
  | _ => false
  end.

(** [baseDensity[safetyLevel] || 0.5]: the three densities are non-zero. *)
Definition calculateRecommendedDensity (config : PitConfiguration) : num :=
  match get_level baseDensity (safetyLevel config) with
  | Some d => lit d
  | None => lit 0.5
  end.

(** The distance of a sensor from the pit centre in the horizontal plane:
    [Math.sqrt(s.position.x ** 2 + s.position.z ** 2)]. *)
Definition radial (s : PlacedSensor) : num :=
  Math_sqrt (sq (pos_x (position s)) + sq (pos_z (position s)))%js.

(** The four tests of the side classification, in the order the source
    tries them. *)
Definition near_east (length width : num) (s : PlacedSensor) : bool :=
  (Math_abs (pos_x (position s) - length / lit 2) <? lit 2)%js.
Definition near_west (length width : num) (s : PlacedSensor) : bool :=
  (Math_abs (pos_x (position s) + length / lit 2) <? lit 2)%js.
Definition near_north (length width : num) (s : PlacedSensor) : bool :=
  (Math_abs (pos_z (position s) - width / lit 2) <? lit 2)%js.
Definition near_south (length width : num) (s : PlacedSensor) : bool :=
  (Math_abs (pos_z (position s) + width / lit 2) <? lit 2)%js.

Definition incr_east (d : Distribution) : Distribution :=
  {| north := north d; south := south d; east := S (east d); west := west d;
     corners := corners d; middle := middle d |}.
Definition incr_west (d : Distribution) : Distribution :=
  {| north := north d; south := south d; east := east d; west := S (west d);
     corners := corners d; middle := middle d |}.
Definition incr_north (d : Distribution) : Distribution :=
  {| north := S (north d); south := south d; east := east d; west := west d;
     corners := corners d; middle := middle d |}.
Definition incr_south (d : Distribution) : Distribution :=
  {| north := north d; south := S (south d); east := east d; west := west d;
     corners := corners d; middle := middle d |}.
Definition incr_corners (d : Distribution) : Distribution :=
  {| north := north d; south := south d; east := east d; west := west d;
     corners := S (corners d); middle := middle d |}.
Definition incr_middle (d : Distribution) : Distribution :=
  {| north := north d; south := south d; east := east d; west := west d;
     corners := corners d; middle := S (middle d) |}.

(** The body of the [forEach] of [analyzeSensorDistribution]. *)
Definition analyze_step (length width : num) (distribution : Distribution)
    (sensor : PlacedSensor) : Distribution :=
  let x := pos_x (position sensor) in
  let z := pos_z (position sensor) in
  let distribution :=
    if near_east length width sensor then incr_east distribution
    else if near_west length width sensor then incr_west distribution
    else if near_north length width sensor then incr_north distribution
    else if near_south length width sensor then incr_south distribution
    else distribution in
  let isCorner :=
    ((Math_abs (Math_abs x - length / lit 2) <? lit 3)
     && (Math_abs (Math_abs z - width / lit 2) <? lit 3))%js in
  let isMiddle :=
    ((Math_abs x <? length / lit 4) || (Math_abs z <? width / lit 4))%js in
  let distribution := if isCorner then incr_corners distribution else distribution in
  if isMiddle then incr_middle distribution else distribution.

Definition analyzeSensorDistribution (sensors : list PlacedSensor)
    (length width : num) : Distribution :=
  fold_left (analyze_step length width) sensors
    {| north := 0; south := 0; east := 0; west := 0; corners := 0; middle := 0 |}.

(** *** identifyCriticalPositions *)

Record Side : Type := { side_name : string; side_sensors : list PlacedSensor }.

(** [sides[i].sensors.push(sensor)] *)
Fixpoint push_side (i : nat) (sensor : PlacedSensor) (sides : list Side) : list Side :=
  match sides, i with
  | [], _ => []
  | sd :: rest, O =>
      {| side_name := side_name sd; side_sensors := side_sensors sd ++ [sensor] |} :: rest
  | sd :: rest, S j => sd :: push_side j sensor rest
  end.

(** The body of the [forEach] that assigns the sensors to the sides. *)
Definition assign_step (length width : num) (sides : list Side)
    (sensor : PlacedSensor) : list Side :=
  if near_east length width sensor then push_side 0 sensor sides
  else if near_west length width sensor then push_side 1 sensor sides
  else if near_north length width sensor then push_side 2 sensor sides
  else if near_south length width sensor then push_side 3 sensor sides
  else sides.

Definition assign_sides (sensors : list PlacedSensor) (length width : num) : list Side :=
  fold_left (assign_step length width) sensors
    [ {| side_name := "east"; side_sensors := [] |};
      {| side_name := "west"; side_sensors := [] |};
      {| side_name := "north"; side_sensors := [] |};
      {| side_name := "south"; side_sensors := [] |} ].

Definition pit_corners (length width : num) : list (num * num) :=
  [ (length / lit 2, width / lit 2); (- length / lit 2, width / lit 2);
    (- length / lit 2, - width / lit 2); (length / lit 2, - width / lit 2) ]%js.

Definition hasCornerSensor (sensors : list PlacedSensor) (corner : num * num) : bool :=
  existsb (fun sensor =>
             let distance :=
               Math_sqrt (sq (pos_x (position sensor) - fst corner)
                          + sq (pos_z (position sensor) - snd corner))%js in
             (distance <? lit 5)%js) sensors.

Record CriticalPositions : Type := { missingMiddle : nat; missingCorner : nat }.

Definition identifyCriticalPositions (sensors : list PlacedSensor)
    (length width : num) : CriticalPositions :=
  let sides := assign_sides sensors length width in
  let missingMiddle :=
    fold_left (fun missingMiddle side =>
                 if List.length (side_sensors side) <? 3 then S missingMiddle
                 else missingMiddle) sides 0 in
  let missingCorner :=
    fold_left (fun missingCorner corner =>
                 if negb (hasCornerSensor sensors corner) then S missingCorner
                 else missingCorner) (pit_corners length width) 0 in
  {| missingMiddle := missingMiddle; missingCorner := missingCorner |}.

Definition calculateMonitoringRange (sensors : list PlacedSensor)
    (length width : num) : num :=
  let pitBoundary := (Math_max2 length width / lit 2)%js in
  Math_max_spread (map (fun sensor => (radial sensor - pitBoundary)%js) sensors) (lit 0).

(** ** The checks *)

(** The body of the [forEach] of [checkRequiredSensors]. *)
Definition required_step (sensorTypes : list string)
    (acc : ValidationReport * list (string * nat)) (type : string)
    : ValidationReport * list (string * nat) :=
  let (results, compliance) := acc in
  let count := List.length (filter (fun t => String.eqb t type) sensorTypes) in
  let compliance := set compliance type count in
  if count =? 0 then
    (push_error [Lit "缺少必测项目："; Subst (getSensorTypeName type)] results, compliance)
  else if lt_count count (getMinimumSensorCount type) then
    (push_warning [Subst (getSensorTypeName type); Lit "数量不足，建议增加至";
                   Subst (getMinimumSensorCount type); Lit "个以上"] results, compliance)
  else (results, compliance).

Definition checkRequiredSensors (requiredTypes : list string)
    (sensors : list PlacedSensor) (results : ValidationReport)
    : ValidationReport * list (string * nat) :=
  let sensorTypes := map sensor_type sensors in
  fold_left (required_step sensorTypes) requiredTypes (results, []).

(** The body of the [forEach] of [checkRecommendedSensors]. *)
Definition recommended_step (sensorTypes : list string)
    (acc : ValidationReport * list (string * nat)) (type : string)
    : ValidationReport * list (string * nat) :=
  let (results, compliance) := acc in
  let count := List.length (filter (fun t => String.eqb t type) sensorTypes) in
  let compliance := set compliance type count in
  if count =? 0 then
    (push_suggestion [Lit "建议增加："; Subst (getSensorTypeName type)] results, compliance)
  else (results, compliance).

Definition checkRecommendedSensors (recommendedTypes : list string)
    (sensors : list PlacedSensor) (results : ValidationReport)
    : ValidationReport * list (string * nat) :=
  let sensorTypes := map sensor_type sensors in
  fold_left (recommended_step sensorTypes) recommendedTypes (results, []).

Definition set_wallDisplacement (v : WallDisplacement) (l : LayoutResults) : LayoutResults :=
  {| wallDisplacement := Some v; deepHorizontal := deepHorizontal l;
     groundSettlement := groundSettlement l |}.
Definition set_deepHorizontal (v : DeepHorizontal) (l : LayoutResults) : LayoutResults :=
  {| wallDisplacement := wallDisplacement l; deepHorizontal := Some v;
     groundSettlement := groundSettlement l |}.
Definition set_groundSettlement (v : GroundSettlement) (l : LayoutResults) : LayoutResults :=
  {| wallDisplacement := wallDisplacement l; deepHorizontal := deepHorizontal l;
     groundSettlement := Some v |}.

Definition is_wall (s : PlacedSensor) : bool :=
  String.eqb (sensor_type s) "horizontal-displacement"
  || String.eqb (sensor_type s) "vertical-displacement".

Definition checkWallDisplacementLayout (sensors : list PlacedSensor)
    (length width : num) (results : ValidationReport) (layoutResults : LayoutResults)
    : ValidationReport * LayoutResults :=
  let wallSensors := filter is_wall sensors in
  let layoutResults :=
    set_wallDisplacement
      {| wd_total := List.length wallSensors;
         wd_distribution := analyzeSensorDistribution wallSensors length width |}
      layoutResults in
  let results :=
    if List.length wallSensors <? 12 then
      push_warning [Lit "围护墙位移监测点数量偏少，建议每边至少布置3个监测点"] results
    else results in
  let criticalPositions := identifyCriticalPositions wallSensors length width in
  let results :=
    if 0 <? missingMiddle criticalPositions then
      push_warning [Lit "有"; Subst (VInt (Z.of_nat (missingMiddle criticalPositions)));
                    Lit "边缺少中部监测点"] results
    else results in
  let results :=
    if 0 <? missingCorner criticalPositions then
      push_warning [Lit "有"; Subst (VInt (Z.of_nat (missingCorner criticalPositions)));
                    Lit "个阳角缺少监测点"] results
    else results in
  (results, layoutResults).

Definition checkDeepHorizontalLayout (sensors : list PlacedSensor)
    (length width : num) (results : ValidationReport) (layoutResults : LayoutResults)
    : ValidationReport * LayoutResults :=
  let deepSensors := filter (fun s => String.eqb (sensor_type s) "deep-horizontal") sensors in
  let layoutResults :=
    set_deepHorizontal
      {| dh_total := List.length deepSensors;
         dh_distribution := analyzeSensorDistribution deepSensors length width |}
      layoutResults in
  let maxEdgeLength := Math_max2 length width in
  let recommendedCount := if (maxEdgeLength >? lit 50)%js then 6 else 4 in
  let results :=
    if List.length deepSensors <? recommendedCount then
      push_warning [Lit "深层水平位移监测点建议增加至";
                    Subst (VInt (Z.of_nat recommendedCount)); Lit "个"] results
    else results in
  (results, layoutResults).

Definition checkGroundSettlementLayout (sensors : list PlacedSensor)
    (length width depth : num) (results : ValidationReport) (layoutResults : LayoutResults)
    : ValidationReport * LayoutResults :=
  let settlementSensors :=
    filter (fun s => String.eqb (sensor_type s) "ground-settlement") sensors in
  let actualRange := calculateMonitoringRange settlementSensors length width in
  let layoutResults :=
    set_groundSettlement
      {| gs_total := List.length settlementSensors; gs_range := actualRange |}
      layoutResults in
  let requiredRange := (depth * lit 2)%js in
  let results :=
    if (actualRange <? requiredRange)%js then
      push_warning [Lit "地表沉降监测范围不足，建议扩大至基坑边线外";
                    Subst (VNum requiredRange); Lit "m"] results
    else results in
  let results :=
    if List.length settlementSensors <? 8 then
      push_warning [Lit "周边地表沉降监测点数量偏少，建议在重要保护对象周边加密布置"] results
    else results in
  (results, layoutResults).

Definition checkSensorLayout (config : PitConfiguration) (sensors : list PlacedSensor)
    (results : ValidationReport) : ValidationReport * LayoutResults :=
  let length := length (dimensions config) in
  let width := width (dimensions config) in
  let depth := depth (dimensions config) in
  let layoutResults :=
    {| wallDisplacement := None; deepHorizontal := None; groundSettlement := None |} in
  let (results, layoutResults) :=
    checkWallDisplacementLayout sensors length width results layoutResults in
  let (results, layoutResults) :=
    checkDeepHorizontalLayout sensors length width results layoutResults in
  checkGroundSettlementLayout sensors length width depth results layoutResults.

(** [results] is a parameter the method never uses. *)
Definition checkSensorQuantity (config : PitConfiguration) (sensors : list PlacedSensor)
    (results : ValidationReport) : Quantity :=
  let length := length (dimensions config) in
  let width := width (dimensions config) in
  let perimeter := (lit 2 * (length + width))%js in
  let recommendedDensity := calculateRecommendedDensity config in
  let actualDensity := (of_nat (List.length sensors) / perimeter)%js in
  {| q_total := List.length sensors;
     q_density := actualDensity;
     q_recommended := recommendedDensity;
     q_adequate := (actualDensity >=? recommendedDensity * lit 0.8)%js |}.

Definition checkMonitoringRange (config : PitConfiguration) (sensors : list PlacedSensor)
    (results : ValidationReport) : ValidationReport * Coverage :=
  let length := length (dimensions config) in
  let width := width (dimensions config) in
  let maxDistance := (Math_max2 length width * lit 1.5)%js in
  let outsideSensors :=
    filter (fun sensor =>
              let distance := radial sensor in
              (distance >? Math_max2 length width / lit 2)%js) sensors in
  let coverage :=
    {| r_total := List.length sensors;
       r_outside := List.length outsideSensors;
       r_maxDistance := Math_max_spread (map radial sensors) (lit 0);
       r_recommendedMaxDistance := maxDistance |} in
  let results :=
    if (of_nat (r_outside coverage) <? of_nat (List.length sensors) * lit 0.3)%js then
      push_warning [Lit "建议在基坑周边环境中布置更多监测点"] results
    else results in
  (results, coverage).

Definition checkMonitoringNecessity (config : PitConfiguration)
    (results : ValidationReport) : ValidationReport :=
  let depth := depth (dimensions config) in
  if (safetyLevel config <=? 2)%Z then
    push_suggestion [Lit "该基坑属于一、二级基坑，必须实施监测"] results
  else if (depth >=? lit 5)%js then
    push_suggestion [Lit "基坑开挖深度≥5m，应实施监测"] results
  else
    push_suggestion [Lit "基坑开挖深度<5m且为三级基坑，可根据现场情况决定是否监测"] results.

(** ** validateLayout *)

(** [this.monitoringRequirements[config.type][config.safetyLevel]]: reading
    a property of [undefined] throws; a built-in inherited from
    [Object.prototype] has no property named by an integer. *)
Definition lookup_requirements (config : PitConfiguration)
    : completion (option RequirementSet) :=
  match get monitoringRequirements (type config) with
  | Undefined => Throw TypeError
  | Inherited _ => Return None
  | Own levels => Return (get_level levels (safetyLevel config))
  end.

Definition empty_compliance : Compliance :=
  {| c_required := None; c_recommended := None; c_layout := None;
     c_quantity := None; c_range := None |}.

Definition initial_results : ValidationReport :=
  {| isValid := true; errors := []; warnings := []; suggestions := [];
     compliance := empty_compliance |}.

(** The statements of [validateLayout] once the requirements are found. *)
Definition run_checks (requirements : RequirementSet) (config : PitConfiguration)
    (sensors : list PlacedSensor) (results : ValidationReport) : ValidationReport :=
  let (results, v) := checkRequiredSensors (required requirements) sensors results in
  let results := set_compliance (set_required v (compliance results)) results in
  let (results, v) := checkRecommendedSensors (recommended requirements) sensors results in
  let results := set_compliance (set_recommended v (compliance results)) results in
  let (results, v) := checkSensorLayout config sensors results in
  let results := set_compliance (set_layout v (compliance results)) results in
  let v := checkSensorQuantity config sensors results in
  let results := set_compliance (set_quantity v (compliance results)) results in
  let (results, v) := checkMonitoringRange config sensors results in
  let results := set_compliance (set_range v (compliance results)) results in
  let results := checkMonitoringNecessity config results in
  set_isValid (List.length (errors results) =? 0) results.

Definition validateLayout (config : PitConfiguration) (sensors : list PlacedSensor)
    : completion ValidationReport :=
  let results := initial_results in
  match lookup_requirements config with
  | Throw e => Throw e
  | Return None =>
      let results :=
        push_error [Lit "未找到"; Subst (VString (type config)); Lit "类型";
                    Subst (VInt (safetyLevel config)); Lit "级基坑的监测要求"] results in
      Return (set_isValid false results)
  | Return (Some requirements) =>
      Return (run_checks requirements config sensors results)
  end.

(** ** The specification's vocabulary

    These definitions follow the words of the specification; the theorems
    below compare them with the methods embedded above. *)

(** The count of a category in the sensor list. *)
Definition count_of (sensors : list PlacedSensor) (category : string) : nat :=
  count_occ string_dec (map sensor_type sensors) category.

(** The static minimum count of a category. *)
Definition static_minimum (category : string) : Z :=
  if String.eqb category "horizontal-displacement" then 8
  else if String.eqb category "vertical-displacement" then 8
  else if String.eqb category "deep-horizontal" then 4
  else if String.eqb category "support-force" then 4
  else if String.eqb category "anchor-force" then 2
  else if String.eqb category "water-level" then 2
  else if String.eqb category "ground-settlement" then 6
  else 1.

(** The fixed set of sensor categories. *)
Definition SensorCategory : list string :=
  [ "horizontal-displacement"; "vertical-displacement"; "deep-horizontal";
    "support-force"; "anchor-force"; "water-level"; "ground-settlement";
    "wall-internal-force"; "pore-pressure"; "soil-pressure" ].

Definition missing_required (category : string) : message :=
  [Lit "缺少必测项目："; Subst (getSensorTypeName category)].

Definition insufficient_count (category : string) : message :=
  [Subst (getSensorTypeName category); Lit "数量不足，建议增加至";
   Subst (VInt (static_minimum category)); Lit "个以上"].

Definition consider_adding (category : string) : message :=
  [Lit "建议增加："; Subst (getSensorTypeName category)].

(** A required category with no sensor. *)
Definition absent (sensors : list PlacedSensor) (category : string) : bool :=
  count_of sensors category =? 0.

(** A required category present, with fewer sensors than its minimum. *)
Definition below_minimum (sensors : list PlacedSensor) (category : string) : bool :=
  (0 <? count_of sensors category)
  && (Z.of_nat (count_of sensors category) <? static_minimum category)%Z.

(** The three monitoring-necessity suggestions. *)
Definition mandatory_monitoring : message :=
  [Lit "该基坑属于一、二级基坑，必须实施监测"].
Definition should_monitor : message :=
  [Lit "基坑开挖深度≥5m，应实施监测"].
Definition discretionary_monitoring : message :=
  [Lit "基坑开挖深度<5m且为三级基坑，可根据现场情况决定是否监测"].

Definition necessity_suggestion (config : PitConfiguration) : message :=
  if (safetyLevel config <=? 2)%Z then mandatory_monitoring
  else if (depth (dimensions config) >=? lit 5)%js then should_monitor
  else discretionary_monitoring.

Definition is_necessity (m : message) : bool :=
  match m with
  | [Lit s] =>
      String.eqb s "该基坑属于一、二级基坑，必须实施监测"
      || String.eqb s "基坑开挖深度≥5m，应实施监测"
      || String.eqb s "基坑开挖深度<5m且为三级基坑，可根据现场情况决定是否监测"
  | _ => false
  end.

(** How many necessity suggestions a list of suggestions holds. *)
Definition necessity_count (l : list message) : nat :=
  List.length (filter is_necessity l).

(** The recommended density of a safety level. *)
Definition recommended_density (level : Z) : num :=
  if (level =? 1)%Z then lit 0.8
  else if (level =? 2)%Z then lit 0.6
  else if (level =? 3)%Z then lit 0.4
  else lit 0.5.

Definition perimeter (config : PitConfiguration) : num :=
  (lit 2 * (length (dimensions config) + width (dimensions config)))%js.

(** A sensor lies outside when its horizontal distance from the pit centre
    exceeds half of the larger dimension. *)
Definition outside (config : PitConfiguration) (s : PlacedSensor) : bool :=
  (radial s >?
   Math_max2 (length (dimensions config)) (width (dimensions config)) / lit 2)%js.

Definition peripheral_coverage : message :=
  [Lit "建议在基坑周边环境中布置更多监测点"].

(** The sides of the pit, and the side a sensor is classified to: the
    first, in the order east, west, north, south, whose test it passes. *)
Inductive side : Type := East | West | North | South.

Definition side_eqb (a b : side) : bool :=
  match a, b with
  | East, East | West, West | North, North | South, South => true
  | _, _ => false
  end.

Definition side_of (length width : num) (s : PlacedSensor) : option side :=
  if near_east length width s then Some East
  else if near_west length width s then Some West
  else if near_north length width s then Some North
  else if near_south length width s then Some South
  else None.

Definition on_side (length width : num) (sd : side) (s : PlacedSensor) : bool :=
  match side_of length width s with
  | Some sd' => side_eqb sd sd'
  | None => false
  end.

(** The sensors classified to a side, and their number. *)
Definition classified (length width : num) (sensors : list PlacedSensor) (sd : side)
    : list PlacedSensor :=
  filter (on_side length width sd) sensors.

Definition tally (length width : num) (sensors : list PlacedSensor) (sd : side) : nat :=
  List.length (classified length width sensors sd).

(** The number of sides, of the four, with fewer than 3 classified sensors. *)
Definition sides_lacking (length width : num) (sensors : list PlacedSensor) : nat :=
  List.length (filter (fun sd => tally length width sensors sd <? 3)
                 [East; West; North; South]).

(** The number of corners, of the four, with no sensor within 5 units. *)
Definition corners_lacking (length width : num) (sensors : list PlacedSensor) : nat :=
  List.length (filter (fun corner => negb (hasCornerSensor sensors corner))
                 (pit_corners length width)).

Definition too_few_wall_sensors : message :=
  [Lit "围护墙位移监测点数量偏少，建议每边至少布置3个监测点"].
Definition sides_warning (n : nat) : message :=
  [Lit "有"; Subst (VInt (Z.of_nat n)); Lit "边缺少中部监测点"].
Definition corners_warning (n : nat) : message :=
  [Lit "有"; Subst (VInt (Z.of_nat n)); Lit "个阳角缺少监测点"].

(** A report extended by messages, and nothing else changed. *)
Definition extend (E W S : list message) (r : ValidationReport) : ValidationReport :=
  {| isValid := isValid r; errors := errors r ++ E; warnings := warnings r ++ W;
     suggestions := suggestions r ++ S; compliance := compliance r |}.

(** A key that is not a name of [Object.prototype]. *)
Definition not_inherited (k : string) : bool :=
  negb (existsb (String.eqb k) Object_prototype).

(** The warnings of the three layout checks. *)
Definition wall_warnings (length width : num) (sensors : list PlacedSensor)
    : list message :=
  let wall := filter is_wall sensors in
  (if List.length wall <? 12 then [too_few_wall_sensors] else [])
  ++ (if 0 <? sides_lacking length width wall
      then [sides_warning (sides_lacking length width wall)] else [])
  ++ (if 0 <? corners_lacking length width wall
      then [corners_warning (corners_lacking length width wall)] else []).

Definition deep_warnings (length width : num) (sensors : list PlacedSensor)
    : list message :=
  let deep := filter (fun s => String.eqb (sensor_type s) "deep-horizontal") sensors in
  let recommendedCount := if (Math_max2 length width >? lit 50)%js then 6 else 4 in
  if List.length deep <? recommendedCount then
    [[Lit "深层水平位移监测点建议增加至"; Subst (VInt (Z.of_nat recommendedCount)); Lit "个"]]
  else [].

Definition settlement_warnings (length width depth : num) (sensors : list PlacedSensor)
    : list message :=
  let settlement :=
    filter (fun s => String.eqb (sensor_type s) "ground-settlement") sensors in
  (if (calculateMonitoringRange settlement length width <? depth * lit 2)%js then
     [[Lit "地表沉降监测范围不足，建议扩大至基坑边线外"; Subst (VNum (depth * lit 2)%js);
       Lit "m"]]
   else [])
  ++ (if List.length settlement <? 8 then
        [[Lit "周边地表沉降监测点数量偏少，建议在重要保护对象周边加密布置"]]
      else []).

Definition layout_warnings (config : PitConfiguration) (sensors : list PlacedSensor)
    : list message :=
  wall_warnings (length (dimensions config)) (width (dimensions config)) sensors
  ++ deep_warnings (length (dimensions config)) (width (dimensions config)) sensors
  ++ settlement_warnings (length (dimensions config)) (width (dimensions config))
       (depth (dimensions config)) sensors.

(** The warning of the range-coverage check: fewer outside sensors than
    30% of all sensors. *)
Definition range_warnings (config : PitConfiguration) (sensors : list PlacedSensor)
    : list message :=
  if (of_nat (List.length (filter (outside config) sensors))
      <? of_nat (List.length sensors) * lit 0.3)%js
  then [peripheral_coverage] else [].

(** The four sides, as [identifyCriticalPositions] lays them out. *)
Definition mk_sides (e w n s : list PlacedSensor) : list Side :=
  [ {| side_name := "east"; side_sensors := e |};
    {| side_name := "west"; side_sensors := w |};
    {| side_name := "north"; side_sensors := n |};
    {| side_name := "south"; side_sensors := s |} ].

(** The record of counts the presence checks return: one entry per
    category, in the order of first appearance. *)
Definition category_counts (types : list string) (sensors : list PlacedSensor)
    : list (string * nat) :=
  fold_left (fun compliance t => set compliance t (count_of sensors t)) types [].

(** The monotonicity the specification states for the density: with the
    sensor count and the safety level fixed, a strictly larger perimeter
    gives a strictly smaller density. *)
Definition density_strictly_decreasing : Prop :=
  forall (c1 c2 : PitConfiguration) (s1 s2 : list PlacedSensor) (r : ValidationReport),
    List.length s1 = List.length s2 ->
    safetyLevel c1 = safetyLevel c2 ->
    (perimeter c1 <? perimeter c2)%js = true ->
    (q_density (checkSensorQuantity c2 s2 r) <? q_density (checkSensorQuantity c1 s1 r))%js
    = true.

(** Every requirement set of the table. *)
Definition all_requirements : list RequirementSet :=
  flat_map (fun entry => map snd (snd entry)) monitoringRequirements.


(** ** The sensor store of [ExcavationMonitoringSystem]

    Of the monitoring system only the state the validator is fed from is
    embedded: [this.config] and the array [this.sensors].  The meshes, the
    groups and the scene of the 3D view are left out, and with them the
    [mesh] field of a stored sensor. *)

Record SensorStore : Type := {
  st_config : option PitConfiguration;    (* this.config, null at construction *)
  st_sensors : list PlacedSensor          (* this.sensors *)
}.

Definition updateParameters (config : PitConfiguration) (st : SensorStore) : SensorStore :=
  {| st_config := Some config; st_sensors := st_sensors st |}.

(** Reading [this.config.dimensions] throws while [this.config] is null.
    The [switch] compares the type with [===]; the cases "water-level" and
    [default] both accept. *)
Definition isValidSensorPosition (type : string) (position : Vector3)
    (st : SensorStore) : completion bool :=
  match st_config st with
  | None => Throw TypeError
  | Some config =>
      let length := length (dimensions config) in
      let width := width (dimensions config) in
      let maxDistance := (Math_max2 length width * lit 2)%js in
      let distance :=
        Math_sqrt (pos_x position * pos_x position + pos_z position * pos_z position)%js in
      if (distance >? maxDistance)%js then Return false
      else if String.eqb type "horizontal-displacement"
              || String.eqb type "vertical-displacement" then
        Return (Math_abs (pos_y position - lit 1) <? lit 2)%js
      else if String.eqb type "ground-settlement" then
        Return (Math_abs (pos_y position) <? lit 1)%js
      else Return true
  end.

(** The result, and the store after the call. *)
Definition placeSensor (type : string) (position : Vector3) (st : SensorStore)
    : completion (bool * SensorStore) :=
  match isValidSensorPosition type position st with
  | Throw e => Throw e
  | Return false => Return (false, st)
  | Return true =>
      Return (true,
              {| st_config := st_config st;
                 st_sensors :=
                   st_sensors st
                   ++ [ {| sensor_type := type; position := position;
                           sensor_id := List.length (st_sensors st) |} ] |})
  end.

(** [this.sensors.forEach((s, i) => s.id = i)] *)
Fixpoint renumber (i : nat) (sensors : list PlacedSensor) : list PlacedSensor :=
  match sensors with
  | [] => []
  | s :: rest =>
      {| sensor_type := sensor_type s; position := position s; sensor_id := i |}
      :: renumber (S i) rest
  end.

(** [index] is the integer the list of placed sensors hands to its delete
    buttons; [splice(index, 1)] removes that element. *)
Definition removeSensor (index : Z) (st : SensorStore) : SensorStore :=
  if ((0 <=? index)%Z && (index <? Z.of_nat (List.length (st_sensors st)))%Z)%bool then
    let i := Z.to_nat index in
    let spliced := firstn i (st_sensors st) ++ skipn (S i) (st_sensors st) in
    {| st_config := st_config st; st_sensors := renumber 0 spliced |}
  else st.

Definition clearAllSensors (st : SensorStore) : SensorStore :=
  {| st_config := st_config st; st_sensors := [] |}.

Definition getSensors (st : SensorStore) : list PlacedSensor :=
  map (fun sensor =>
         {| sensor_type := sensor_type sensor; position := position sensor;
            sensor_id := sensor_id sensor |}) (st_sensors st).

(** ** The validation panel of [App]

    [container.innerHTML] is kept as the sequence of its
    [validation-result] blocks, each with the messages of its list. *)

Inductive block : Type :=
| Success                               (* validation-success *)
| ErrorList (items : list message)      (* validation-error *)
| WarningList (items : list message).   (* validation-warning *)

(** An array is truthy, so [results.warnings || []] is [results.warnings]. *)
Definition displayValidationResults (results : ValidationReport) : list block :=
  if isValid results then [Success]
  else
    let warnings := warnings results in
    let errors := errors results in
    let html := [] in
    let html := if 0 <? List.length errors then html ++ [ErrorList errors] else html in
    let html := if 0 <? List.length warnings then html ++ [WarningList warnings] else html in
    html.

(** [validateSensorLayout], with the configuration the form fields give
    taken as an argument. *)
Definition validateSensorLayout (config : PitConfiguration) (st : SensorStore)
    : completion (list block) :=
  let sensors := getSensors st in
  match validateLayout config sensors with
  | Throw e => Throw e
  | Return validationResults => Return (displayValidationResults validationResults)
  end.

(** ** Further vocabulary *)

(** The sensors of a store carry their positions in the array as ids. *)
Definition well_numbered (st : SensorStore) : Prop :=
  map sensor_id (st_sensors st) = seq 0 (List.length (st_sensors st)).

(** What a stored sensor is apart from its id. *)
Definition placement (s : PlacedSensor) : string * Vector3 :=
  (sensor_type s, position s).

(** The two tests [analyzeSensorDistribution] makes besides the sides. *)
Definition isCorner (length width : num) (s : PlacedSensor) : bool :=
  ((Math_abs (Math_abs (pos_x (position s)) - length / lit 2) <? lit 3)
   && (Math_abs (Math_abs (pos_z (position s)) - width / lit 2) <? lit 3))%js.

Definition isMiddle (length width : num) (s : PlacedSensor) : bool :=
  ((Math_abs (pos_x (position s)) <? length / lit 4)
   || (Math_abs (pos_z (position s)) <? width / lit 4))%js.

(** The test [hasCornerSensor] makes on one sensor. *)
Definition near_corner (corner : num * num) (s : PlacedSensor) : bool :=
  (Math_sqrt (sq (pos_x (position s) - fst corner) + sq (pos_z (position s) - snd corner))
   <? lit 5)%js.

Definition settlement_range_warning (depth : num) : message :=
  [Lit "地表沉降监测范围不足，建议扩大至基坑边线外"; Subst (VNum (depth * lit 2)%js); Lit "m"].

Definition settlement_density_warning : message :=
  [Lit "周边地表沉降监测点数量偏少，建议在重要保护对象周边加密布置"].

(** No string occurs twice. *)
Fixpoint distinct (l : list string) : bool :=
  match l with
  | [] => true
  | a :: rest => negb (existsb (String.eqb a) rest) && distinct rest
  end.

(** Every string of the first list occurs in the second. *)
Definition included (l l' : list string) : bool :=
  forallb (fun a => existsb (String.eqb a) l') l.

(** The three compositions of the requirement table. *)
Definition compositions : list string := [ "soil"; "rock"; "soil-rock" ].

(** The report of the guard of [validateLayout]. *)
Definition requirement_not_found (config : PitConfiguration) : ValidationReport :=
  {| isValid := false;
     errors := [[Lit "未找到"; Subst (VString (type config)); Lit "类型";
                 Subst (VInt (safetyLevel config)); Lit "级基坑的监测要求"]];
     warnings := []; suggestions := [];
     compliance := empty_compliance |}.

(** No sensor of a store lies further from the centre than
    [isValidSensorPosition] admits for the configuration. *)
Definition within_reach (config : PitConfiguration) (sensors : list PlacedSensor) : Prop :=
  forall s, In s sensors ->
    (radial s >? Math_max2 (length (dimensions config)) (width (dimensions config))
                 * lit 2)%js = false.

(** The requirement set of a composition and a level, if the table has
    one. *)
Definition resolve (composition : string) (level : Z) : option RequirementSet :=
  match own monitoringRequirements composition with
  | Some levels => get_level levels level
  | None => None
  end.

(** What the validator reads of a sensor: its type and its two horizontal
    coordinates. *)
Definition plan (s : PlacedSensor) : string * num * num :=
  (sensor_type s, pos_x (position s), pos_z (position s)).

(** Shorthands for the inputs of the examples. *)
Definition pit (composition : string) (level : Z) (length width depth : num)
    : PitConfiguration :=
  {| type := composition; safetyLevel := level;
     dimensions := {| length := length; width := width; depth := depth |} |}.

Definition sensor_at (type : string) (x y z : num) (id : nat) : PlacedSensor :=
  {| sensor_type := type; position := {| pos_x := x; pos_y := y; pos_z := z |};
     sensor_id := id |}.

Definition deep_horizontal_warning (recommendedCount : nat) : message :=
  [Lit "深层水平位移监测点建议增加至"; Subst (VInt (Z.of_nat recommendedCount)); Lit "个"].

(** Case analysis on the four side tests of a sensor. *)
Ltac side_cases length width s :=
  destruct (near_east length width s), (near_west length width s),
    (near_north length width s), (near_south length width s).

(** ** Lemmas on reports *)

Lemma extend_nil (r : ValidationReport) : extend [] [] [] r = r.
Proof. destruct r; unfold extend; simpl; now rewrite !app_nil_r. Qed.

Lemma extend_extend (E1 W1 S1 E2 W2 S2 : list message) (r : ValidationReport) :
  extend E2 W2 S2 (extend E1 W1 S1 r) = extend (E1 ++ E2) (W1 ++ W2) (S1 ++ S2) r.
Proof. unfold extend; simpl; now rewrite !app_assoc. Qed.

Lemma push_error_extend (m : message) (r : ValidationReport) :
  push_error m r = extend [m] [] [] r.
Proof. unfold push_error, extend; now rewrite !app_nil_r. Qed.

Lemma push_warning_extend (m : message) (r : ValidationReport) :
  push_warning m r = extend [] [m] [] r.
Proof. unfold push_warning, extend; now rewrite !app_nil_r. Qed.

Lemma push_suggestion_extend (m : message) (r : ValidationReport) :
  push_suggestion m r = extend [] [] [m] r.
Proof. unfold push_suggestion, extend; now rewrite !app_nil_r. Qed.

(** A conditional push appends the one-or-zero element list. *)
Lemma cond_warning_extend (b : bool) (m : message) (r : ValidationReport) :
  (if b then push_warning m r else r) = extend [] (if b then [m] else []) [] r.
Proof. destruct b; [apply push_warning_extend | now rewrite extend_nil]. Qed.

Create Rewrite HintDb report.
#[local] Hint Rewrite cond_warning_extend extend_extend : report.

(** ** The presence and count checks *)

Lemma filter_length_count_of (sensors : list PlacedSensor) (category : string) :
  List.length (filter (fun t => String.eqb t category) (map sensor_type sensors))
  = count_of sensors category.
Proof.
  unfold count_of.
  induction sensors as [|s sensors IH]; simpl; [reflexivity|].
  destruct (String.eqb_spec (sensor_type s) category) as [e|ne];
    destruct (string_dec (sensor_type s) category) as [e'|ne'];
    simpl; congruence.
Qed.

Lemma getMinimumSensorCount_static (category : string) :
  not_inherited category = true ->
  getMinimumSensorCount category = VInt (static_minimum category).
Proof.
  unfold not_inherited, getMinimumSensorCount, static_minimum, get, minimums.
  intros H. apply negb_true_iff in H. cbn [own].
  repeat (destruct (String.eqb category _); [reflexivity|]).
  now rewrite H.
Qed.

Lemma required_step_extend (sensors : list PlacedSensor)
    (r : ValidationReport) (comp : list (string * nat)) (category : string) :
  not_inherited category = true ->
  fst (required_step (map sensor_type sensors) (r, comp) category)
  = extend (if absent sensors category then [missing_required category] else [])
           (if below_minimum sensors category then [insufficient_count category] else [])
           [] r.
Proof.
  intros H. unfold required_step, absent, below_minimum.
  rewrite filter_length_count_of, (getMinimumSensorCount_static _ H).
  unfold lt_count.
  destruct (Nat.eqb_spec (count_of sensors category) 0) as [e|ne].
  - rewrite e. simpl. apply push_error_extend.
  - assert (Hp : (0 <? count_of sensors category) = true)
      by (apply Nat.ltb_lt; lia).
    rewrite Hp. simpl.
    destruct (Z.of_nat (count_of sensors category) <? static_minimum category)%Z.
    + simpl. apply push_warning_extend.
    + simpl. now rewrite extend_nil.
Qed.

Lemma fold_required_extend (sensors : list PlacedSensor) (types : list string) :
  forallb not_inherited types = true ->
  forall (r : ValidationReport) (comp : list (string * nat)),
    fst (fold_left (required_step (map sensor_type sensors)) types (r, comp))
    = extend (map missing_required (filter (absent sensors) types))
             (map insufficient_count (filter (below_minimum sensors) types))
             [] r.
Proof.
  induction types as [|t types IH]; intros H r comp.
  - simpl. now rewrite extend_nil.
  - simpl in H. apply andb_true_iff in H as [Ht Hts].
    cbn [fold_left].
    destruct (required_step (map sensor_type sensors) (r, comp) t) as [r1 comp1] eqn:E.
    rewrite (IH Hts r1 comp1).
    replace r1 with (fst (required_step (map sensor_type sensors) (r, comp) t))
      by now rewrite E.
    rewrite (required_step_extend _ _ _ _ Ht), extend_extend.
    cbn [filter map].
    destruct (absent sensors t), (below_minimum sensors t); reflexivity.
Qed.

Lemma recommended_step_extend (sensors : list PlacedSensor)
    (r : ValidationReport) (comp : list (string * nat)) (category : string) :
  fst (recommended_step (map sensor_type sensors) (r, comp) category)
  = extend [] [] (if absent sensors category then [consider_adding category] else []) r.
Proof.
  unfold recommended_step, absent.
  rewrite filter_length_count_of.
  destruct (count_of sensors category =? 0); simpl.
  - apply push_suggestion_extend.
  - now rewrite extend_nil.
Qed.

Lemma fold_recommended_extend (sensors : list PlacedSensor) (types : list string) :
  forall (r : ValidationReport) (comp : list (string * nat)),
    fst (fold_left (recommended_step (map sensor_type sensors)) types (r, comp))
    = extend [] [] (map consider_adding (filter (absent sensors) types)) r.
Proof.
  induction types as [|t types IH]; intros r comp.
  - simpl. now rewrite extend_nil.
  - cbn [fold_left].
    destruct (recommended_step (map sensor_type sensors) (r, comp) t) as [r1 comp1] eqn:E.
    rewrite (IH r1 comp1).
    replace r1 with (fst (recommended_step (map sensor_type sensors) (r, comp) t))
      by now rewrite E.
    rewrite recommended_step_extend, extend_extend.
    cbn [filter map].
    destruct (absent sensors t); reflexivity.
Qed.

(** The requirement sets a configuration can resolve to are those of the
    table, and their categories are never names of [Object.prototype]. *)
Lemma lookup_requirements_table (config : PitConfiguration) (req : RequirementSet) :
  lookup_requirements config = Return (Some req) -> In req all_requirements.
Proof.
  unfold lookup_requirements, get, monitoringRequirements. cbn [own].
  repeat (destruct (String.eqb (type config) _);
          [ cbn [get_level];
            repeat (destruct (Z.eqb (safetyLevel config) _);
                    [ intros [= <-]; cbv [all_requirements monitoringRequirements flat_map map snd app];
                      simpl; tauto | ]);
            discriminate | ]).
  destruct (existsb _ _); discriminate.
Qed.

Lemma table_categories_own :
  forallb (fun req => forallb not_inherited (required req)
                      && forallb not_inherited (recommended req)
                      && negb (List.length (required req) =? 0))
    all_requirements = true.
Proof. vm_compute. reflexivity. Qed.

Lemma resolved_categories (config : PitConfiguration) (req : RequirementSet) :
  lookup_requirements config = Return (Some req) ->
  forallb not_inherited (required req) = true
  /\ forallb not_inherited (recommended req) = true
  /\ required req <> [].
Proof.
  intros H. apply lookup_requirements_table in H.
  pose proof table_categories_own as T.
  rewrite forallb_forall in T. specialize (T _ H).
  apply andb_true_iff in T as [T T3]. apply andb_true_iff in T as [T1 T2].
  repeat split; trivial.
  intros e. rewrite e in T3. discriminate.
Qed.

(** ** The side classification *)

Lemma fold_assign_step (length width : num) (sensors : list PlacedSensor) :
  forall e w n s : list PlacedSensor,
    fold_left (assign_step length width) sensors (mk_sides e w n s)
    = mk_sides (e ++ classified length width sensors East)
               (w ++ classified length width sensors West)
               (n ++ classified length width sensors North)
               (s ++ classified length width sensors South).
Proof.
  induction sensors as [|a sensors IH]; intros e w n s.
  - unfold classified; simpl. now rewrite !app_nil_r.
  - cbn [fold_left]. unfold assign_step at 2, classified, on_side, side_of.
    cbn [filter].
    destruct (near_east length width a); [|destruct (near_west length width a);
      [|destruct (near_north length width a); [|destruct (near_south length width a)]]];
      cbn [push_side mk_sides side_name side_sensors side_eqb];
      fold (mk_sides (e ++ [a]) w n s); fold (mk_sides e (w ++ [a]) n s);
      fold (mk_sides e w (n ++ [a]) s); fold (mk_sides e w n (s ++ [a]));
      fold (mk_sides e w n s);
      rewrite IH; unfold classified, on_side, side_of;
      now rewrite <- ?app_assoc.
Qed.

Lemma assign_sides_classified (length width : num) (sensors : list PlacedSensor) :
  assign_sides sensors length width
  = mk_sides (classified length width sensors East)
             (classified length width sensors West)
             (classified length width sensors North)
             (classified length width sensors South).
Proof. unfold assign_sides. apply (fold_assign_step length width sensors [] [] [] []). Qed.

Lemma fold_left_count {A : Type} (p : A -> bool) (l : list A) :
  forall n : nat,
    fold_left (fun k a => if p a then S k else k) l n = n + List.length (filter p l).
Proof.
  induction l as [|a l IH]; intros n; cbn [fold_left filter].
  - simpl. lia.
  - rewrite IH. destruct (p a); simpl; lia.
Qed.

Lemma missingMiddle_sides_lacking (length width : num) (sensors : list PlacedSensor) :
  missingMiddle (identifyCriticalPositions sensors length width)
  = sides_lacking length width sensors.
Proof.
  unfold identifyCriticalPositions, sides_lacking. cbn [missingMiddle].
  rewrite assign_sides_classified.
  rewrite (fold_left_count (fun side => List.length (side_sensors side) <? 3)).
  unfold mk_sides, tally. cbn [filter side_sensors].
  repeat match goal with |- context [if ?b then _ else _] => destruct b end;
    reflexivity.
Qed.

Lemma missingCorner_corners_lacking (length width : num) (sensors : list PlacedSensor) :
  missingCorner (identifyCriticalPositions sensors length width)
  = corners_lacking length width sensors.
Proof.
  unfold identifyCriticalPositions, corners_lacking. cbn [missingCorner].
  now rewrite (fold_left_count (fun corner => negb (hasCornerSensor sensors corner))).
Qed.

(** ** The layout, range and necessity checks extend the report *)

Lemma checkWallDisplacementLayout_extend (sensors : list PlacedSensor)
    (length width : num) (r : ValidationReport) (lr : LayoutResults) :
  fst (checkWallDisplacementLayout sensors length width r lr)
  = extend [] (wall_warnings length width sensors) [] r.
Proof.
  unfold checkWallDisplacementLayout, wall_warnings. cbn [fst].
  rewrite missingMiddle_sides_lacking, missingCorner_corners_lacking.
  autorewrite with report. reflexivity.
Qed.

Lemma checkDeepHorizontalLayout_extend (sensors : list PlacedSensor)
    (length width : num) (r : ValidationReport) (lr : LayoutResults) :
  fst (checkDeepHorizontalLayout sensors length width r lr)
  = extend [] (deep_warnings length width sensors) [] r.
Proof.
  unfold checkDeepHorizontalLayout, deep_warnings. cbn [fst].
  now rewrite cond_warning_extend.
Qed.

Lemma checkGroundSettlementLayout_extend (sensors : list PlacedSensor)
    (length width depth : num) (r : ValidationReport) (lr : LayoutResults) :
  fst (checkGroundSettlementLayout sensors length width depth r lr)
  = extend [] (settlement_warnings length width depth sensors) [] r.
Proof.
  unfold checkGroundSettlementLayout, settlement_warnings. cbn [fst].
  autorewrite with report. reflexivity.
Qed.

Lemma checkSensorLayout_extend (config : PitConfiguration)
    (sensors : list PlacedSensor) (r : ValidationReport) :
  fst (checkSensorLayout config sensors r) = extend [] (layout_warnings config sensors) [] r.
Proof.
  unfold checkSensorLayout, layout_warnings.
  match goal with |- context [checkWallDisplacementLayout ?s ?l ?w ?r0 ?lr] =>
    pose proof (checkWallDisplacementLayout_extend s l w r0 lr) as H1;
    destruct (checkWallDisplacementLayout s l w r0 lr) as [r1 lr1] end.
  match goal with |- context [checkDeepHorizontalLayout ?s ?l ?w ?r0 ?lr] =>
    pose proof (checkDeepHorizontalLayout_extend s l w r0 lr) as H2;
    destruct (checkDeepHorizontalLayout s l w r0 lr) as [r2 lr2] end.
  rewrite checkGroundSettlementLayout_extend.
  cbn [fst] in H1, H2. subst r2 r1.
  rewrite !extend_extend. reflexivity.
Qed.

Lemma checkMonitoringRange_extend (config : PitConfiguration)
    (sensors : list PlacedSensor) (r : ValidationReport) :
  fst (checkMonitoringRange config sensors r) = extend [] (range_warnings config sensors) [] r.
Proof.
  unfold checkMonitoringRange, range_warnings. cbn [fst r_outside].
  now rewrite cond_warning_extend.
Qed.

Lemma checkMonitoringNecessity_extend (config : PitConfiguration) (r : ValidationReport) :
  checkMonitoringNecessity config r = extend [] [] [necessity_suggestion config] r.
Proof.
  unfold checkMonitoringNecessity, necessity_suggestion.
  destruct (safetyLevel config <=? 2)%Z;
    [|destruct (nleb (lit 5) (depth (dimensions config)))];
    apply push_suggestion_extend.
Qed.

(** ** The report of a resolved run *)

Lemma checkRequiredSensors_extend (types : list string) (sensors : list PlacedSensor)
    (r : ValidationReport) :
  forallb not_inherited types = true ->
  fst (checkRequiredSensors types sensors r)
  = extend (map missing_required (filter (absent sensors) types))
           (map insufficient_count (filter (below_minimum sensors) types)) [] r.
Proof. intros H. unfold checkRequiredSensors. now apply fold_required_extend. Qed.

Lemma checkRecommendedSensors_extend (types : list string) (sensors : list PlacedSensor)
    (r : ValidationReport) :
  fst (checkRecommendedSensors types sensors r)
  = extend [] [] (map consider_adding (filter (absent sensors) types)) r.
Proof. unfold checkRecommendedSensors. apply fold_recommended_extend. Qed.

(** The lists of the report of a run whose requirements were found: every
    message comes from the presence and count checks, the layout checks,
    the range check or the necessity advice. *)
Lemma run_checks_lists (req : RequirementSet) (config : PitConfiguration)
    (sensors : list PlacedSensor) :
  forallb not_inherited (required req) = true ->
  let r := run_checks req config sensors initial_results in
  errors r = map missing_required (filter (absent sensors) (required req))
  /\ warnings r
     = map insufficient_count (filter (below_minimum sensors) (required req))
       ++ layout_warnings config sensors ++ range_warnings config sensors
  /\ suggestions r
     = map consider_adding (filter (absent sensors) (recommended req))
       ++ [necessity_suggestion config]
  /\ isValid r = (List.length (errors r) =? 0).
Proof.
  intros H. unfold run_checks.
  pose proof (checkRequiredSensors_extend (required req) sensors initial_results H) as H1.
  destruct (checkRequiredSensors (required req) sensors initial_results) as [r1 v1].
  cbn [fst] in H1. subst r1.
  match goal with |- context [checkRecommendedSensors ?t ?s ?r0] =>
    pose proof (checkRecommendedSensors_extend t s r0) as H2;
    destruct (checkRecommendedSensors t s r0) as [r2 v2] end.
  cbn [fst] in H2. subst r2.
  match goal with |- context [checkSensorLayout ?c ?s ?r0] =>
    pose proof (checkSensorLayout_extend c s r0) as H3;
    destruct (checkSensorLayout c s r0) as [r3 v3] end.
  cbn [fst] in H3. subst r3.
  match goal with |- context [checkMonitoringRange ?c ?s ?r0] =>
    pose proof (checkMonitoringRange_extend c s r0) as H4;
    destruct (checkMonitoringRange c s r0) as [r4 v4] end.
  cbn [fst] in H4. subst r4.
  rewrite checkMonitoringNecessity_extend.
  cbn -[layout_warnings range_warnings necessity_suggestion absent below_minimum
        missing_required insufficient_count consider_adding Nat.eqb List.length].
  rewrite !app_nil_r, <- ?app_assoc.
  repeat split; reflexivity.
Qed.

(** What the checks return does not depend on the report they extend. *)
Lemma snd_fold_required (sensors : list PlacedSensor) (types : list string) :
  forall (r : ValidationReport) (comp : list (string * nat)),
    snd (fold_left (required_step (map sensor_type sensors)) types (r, comp))
    = fold_left (fun compliance t => set compliance t (count_of sensors t)) types comp.
Proof.
  induction types as [|t types IH]; intros r comp; [reflexivity|].
  cbn [fold_left]. unfold required_step at 2.
  rewrite filter_length_count_of.
  destruct (count_of sensors t =? 0);
    [|destruct (lt_count (count_of sensors t) (getMinimumSensorCount t))];
    apply IH.
Qed.

Lemma snd_fold_recommended (sensors : list PlacedSensor) (types : list string) :
  forall (r : ValidationReport) (comp : list (string * nat)),
    snd (fold_left (recommended_step (map sensor_type sensors)) types (r, comp))
    = fold_left (fun compliance t => set compliance t (count_of sensors t)) types comp.
Proof.
  induction types as [|t types IH]; intros r comp; [reflexivity|].
  cbn [fold_left]. unfold recommended_step at 2.
  rewrite filter_length_count_of.
  destruct (count_of sensors t =? 0); apply IH.
Qed.

Lemma snd_checkSensorLayout (config : PitConfiguration) (sensors : list PlacedSensor)
    (r r' : ValidationReport) :
  snd (checkSensorLayout config sensors r) = snd (checkSensorLayout config sensors r').
Proof. reflexivity. Qed.

Lemma snd_checkMonitoringRange (config : PitConfiguration) (sensors : list PlacedSensor)
    (r r' : ValidationReport) :
  snd (checkMonitoringRange config sensors r) = snd (checkMonitoringRange config sensors r').
Proof. reflexivity. Qed.

(** The compliance record of a resolved run has all five fields. *)
Lemma run_checks_compliance (req : RequirementSet) (config : PitConfiguration)
    (sensors : list PlacedSensor) (r0 : ValidationReport) :
  compliance (run_checks req config sensors r0)
  = {| c_required := Some (category_counts (required req) sensors);
       c_recommended := Some (category_counts (recommended req) sensors);
       c_layout := Some (snd (checkSensorLayout config sensors r0));
       c_quantity := Some (checkSensorQuantity config sensors r0);
       c_range := Some (snd (checkMonitoringRange config sensors r0)) |}.
Proof.
  unfold run_checks, category_counts.
  rewrite <- (snd_fold_required sensors (required req) r0 []).
  fold (checkRequiredSensors (required req) sensors r0).
  destruct (checkRequiredSensors (required req) sensors r0) as [r1 v1].
  match goal with |- context [checkRecommendedSensors ?t ?s ?r] =>
    rewrite <- (snd_fold_recommended sensors (recommended req) r []);
    fold (checkRecommendedSensors t s r);
    destruct (checkRecommendedSensors t s r) as [r2 v2] eqn:E2 end.
  match goal with |- context [let (_, _) := checkSensorLayout ?c ?s ?r in _] =>
    rewrite (snd_checkSensorLayout c s r0 r);
    pose proof (checkSensorLayout_extend c s r) as H3;
    destruct (checkSensorLayout c s r) as [r3 v3] end.
  match goal with |- context [let (_, _) := checkMonitoringRange ?c ?s ?r in _] =>
    rewrite (snd_checkMonitoringRange c s r0 r);
    pose proof (checkMonitoringRange_extend c s r) as H4;
    destruct (checkMonitoringRange c s r) as [r4 v4] end.
  cbn [fst] in H3, H4. subst r3 r4.
  rewrite checkMonitoringNecessity_extend.
  pose proof (checkRecommendedSensors_extend (recommended req) sensors
                (set_compliance (set_required v1 (compliance r1)) r1)) as H2.
  rewrite E2 in H2. cbn [fst] in H2. subst r2.
  reflexivity.
Qed.

(** ** validateLayout: which calls return *)

Lemma validateLayout_throws_iff (config : PitConfiguration) (sensors : list PlacedSensor) :
  validateLayout config sensors = Throw TypeError
  <-> get monitoringRequirements (type config) = Undefined.
Proof.
  unfold validateLayout, lookup_requirements.
  destruct (get monitoringRequirements (type config)) as [levels|k|].
  - destruct (get_level levels (safetyLevel config)); split; discriminate.
  - split; discriminate.
  - split; reflexivity.
Qed.

Lemma validateLayout_resolved (config : PitConfiguration) (req : RequirementSet)
    (sensors : list PlacedSensor) :
  lookup_requirements config = Return (Some req) ->
  validateLayout config sensors = Return (run_checks req config sensors initial_results).
Proof. intros H. unfold validateLayout. now rewrite H. Qed.

(** The guard of [validateLayout] does what it is written for whenever the
    first property access yields an object: one error, an invalid report,
    no compliance field. *)
Lemma validateLayout_requirement_not_found (config : PitConfiguration)
    (sensors : list PlacedSensor) :
  lookup_requirements config = Return None ->
  validateLayout config sensors
  = Return {| isValid := false;
              errors := [[Lit "未找到"; Subst (VString (type config)); Lit "类型";
                          Subst (VInt (safetyLevel config)); Lit "级基坑的监测要求"]];
              warnings := []; suggestions := [];
              compliance := empty_compliance |}.
Proof. intros H. unfold validateLayout. now rewrite H. Qed.

Lemma unknown_level_not_found (config : PitConfiguration) :
  (type config = "soil" \/ type config = "rock" \/ type config = "soil-rock") ->
  (safetyLevel config < 1 \/ 3 < safetyLevel config)%Z ->
  lookup_requirements config = Return None.
Proof.
  intros Ht Hl. unfold lookup_requirements.
  assert (E1 : (safetyLevel config =? 1)%Z = false) by (apply Z.eqb_neq; lia).
  assert (E2 : (safetyLevel config =? 2)%Z = false) by (apply Z.eqb_neq; lia).
  assert (E3 : (safetyLevel config =? 3)%Z = false) by (apply Z.eqb_neq; lia).
  destruct Ht as [-> | [-> | ->]]; cbn; now rewrite E1, E2, E3.
Qed.

(** ** The claims *)

(** C1 (the code departs from the claim): with the composition "unknown",
    which is no key of the requirement table and no name inherited from
    Object.prototype, [this.monitoringRequirements[config.type]] is
    undefined and reading its property [config.safetyLevel] throws a
    TypeError: no report is returned, whatever the safety level, the
    dimensions and the sensors.  The guard that follows would have
    produced the single error. *)
Theorem validateLayout_unknown_composition_throws
    (level : Z) (d : Dimensions) (sensors : list PlacedSensor) :
  validateLayout {| type := "unknown"; safetyLevel := level; dimensions := d |} sensors
  = Throw TypeError.
Proof. reflexivity. Qed.

(** C2: in every report [validateLayout] returns, on the early return for
    an unresolved requirement as well, [isValid] is true exactly when the
    list of errors is empty; warnings and suggestions play no part. *)
Theorem isValid_iff_no_errors (config : PitConfiguration)
    (sensors : list PlacedSensor) (r : ValidationReport) :
  validateLayout config sensors = Return r ->
  isValid r = (List.length (errors r) =? 0).
Proof.
  unfold validateLayout.
  destruct (lookup_requirements config) as [[req|]|e]; intros [= <-].
  - unfold run_checks.
    destruct (checkRequiredSensors _ _ _) as [r1 v1].
    destruct (checkRecommendedSensors _ _ _) as [r2 v2].
    destruct (checkSensorLayout _ _ _) as [r3 v3].
    destruct (checkMonitoringRange _ _ _) as [r4 v4].
    reflexivity.
  - reflexivity.
Qed.

(** C3: for a configuration whose requirements resolve and a sensor list
    with no sensor of any required category, the report has one
    missing-category error per required category, in the order of the
    requirement set, and nothing else among its errors; it is invalid. *)
Theorem one_error_per_missing_category (config : PitConfiguration)
    (req : RequirementSet) (sensors : list PlacedSensor) :
  lookup_requirements config = Return (Some req) ->
  (forall category, In category (required req) -> count_of sensors category = 0) ->
  exists r,
    validateLayout config sensors = Return r
    /\ errors r = map missing_required (required req)
    /\ List.length (errors r) = List.length (required req)
    /\ isValid r = false.
Proof.
  intros H Hz.
  destruct (resolved_categories _ _ H) as (Hreq & _ & Hne).
  exists (run_checks req config sensors initial_results).
  destruct (run_checks_lists req config sensors Hreq) as (He & _ & _ & Hv).
  assert (Hf : filter (absent sensors) (required req) = required req).
  { apply forallb_filter_id. apply forallb_forall. intros t Ht.
    unfold absent. now rewrite (Hz t Ht). }
  rewrite Hf in He.
  split; [now apply validateLayout_resolved|].
  split; [exact He|].
  split; [now rewrite He, length_map|].
  rewrite Hv, He, length_map.
  destruct (required req); [congruence|reflexivity].
Qed.

(** C4: for a configuration whose requirements resolve, the check of the
    required categories appends one missing-category error for each
    required category without a sensor and one insufficient-count warning
    for each required category present below its static minimum (never
    both for one category), the check of the recommended categories
    appends one suggestion for each recommended category without a
    sensor, all in the order of the requirement set, and nothing else
    changes in the report; the minimum count of each of the ten
    categories is the static one (8, 8, 4, 4, 2, 2, 6, and 1 for the
    categories not listed). *)
Theorem presence_and_count_checker (config : PitConfiguration)
    (req : RequirementSet) (sensors : list PlacedSensor) (results : ValidationReport) :
  lookup_requirements config = Return (Some req) ->
  fst (checkRequiredSensors (required req) sensors results)
  = extend (map missing_required (filter (absent sensors) (required req)))
           (map insufficient_count (filter (below_minimum sensors) (required req)))
           [] results
  /\ fst (checkRecommendedSensors (recommended req) sensors results)
     = extend [] [] (map consider_adding (filter (absent sensors) (recommended req)))
              results
  /\ (forall category,
        absent sensors category = true -> below_minimum sensors category = false)
  /\ (forall category,
        In category SensorCategory ->
        getMinimumSensorCount category = VInt (static_minimum category))
  /\ map static_minimum SensorCategory = [8; 8; 4; 4; 2; 2; 6; 1; 1; 1]%Z.
Proof.
  intros H. destruct (resolved_categories _ _ H) as (Hreq & _ & _).
  split; [now apply checkRequiredSensors_extend|].
  split; [apply checkRecommendedSensors_extend|].
  split.
  { intros t Ht. unfold absent in Ht. unfold below_minimum.
    apply Nat.eqb_eq in Ht. now rewrite Ht. }
  split; [|reflexivity].
  intros t Ht. apply getMinimumSensorCount_static.
  unfold SensorCategory in Ht. cbn [In] in Ht.
  repeat (destruct Ht as [<- | Ht]; [reflexivity|]). contradiction.
Qed.

Lemma necessity_suggestion_is_necessity (config : PitConfiguration) :
  is_necessity (necessity_suggestion config) = true.
Proof.
  unfold necessity_suggestion.
  destruct (safetyLevel config <=? 2)%Z;
    [|destruct (nleb (lit 5) (depth (dimensions config)))]; reflexivity.
Qed.

Lemma no_necessity_among_consider_adding (types : list string) :
  filter is_necessity (map consider_adding types) = [].
Proof. induction types as [|t types IH]; [reflexivity|exact IH]. Qed.

(** C5 (amended): in every run whose requirements resolve, the report
    holds exactly one of the three necessity suggestions, the last of its
    suggestions, whatever the other checks produced: the mandatory one
    when the safety level is at most 2, otherwise the should-monitor one
    when the depth is at least 5, otherwise the discretionary one. *)
Theorem one_necessity_suggestion (config : PitConfiguration)
    (req : RequirementSet) (sensors : list PlacedSensor) :
  lookup_requirements config = Return (Some req) ->
  exists r,
    validateLayout config sensors = Return r
    /\ suggestions r
       = map consider_adding (filter (absent sensors) (recommended req))
         ++ [necessity_suggestion config]
    /\ necessity_count (suggestions r) = 1
    /\ necessity_suggestion config
       = if (safetyLevel config <=? 2)%Z then mandatory_monitoring
         else if (depth (dimensions config) >=? lit 5)%js then should_monitor
         else discretionary_monitoring.
Proof.
  intros H. destruct (resolved_categories _ _ H) as (Hreq & _ & _).
  exists (run_checks req config sensors initial_results).
  destruct (run_checks_lists req config sensors Hreq) as (_ & _ & Hs & _).
  split; [now apply validateLayout_resolved|].
  split; [exact Hs|].
  split; [|reflexivity].
  rewrite Hs. unfold necessity_count.
  rewrite filter_app, no_necessity_among_consider_adding.
  cbn [filter app]. now rewrite necessity_suggestion_is_necessity.
Qed.

Lemma calculateRecommendedDensity_level (config : PitConfiguration) :
  calculateRecommendedDensity config = recommended_density (safetyLevel config).
Proof.
  unfold calculateRecommendedDensity, recommended_density, baseDensity.
  cbn [get_level].
  repeat (destruct (Z.eqb (safetyLevel config) _); [reflexivity|]).
  reflexivity.
Qed.

(** C6: the quantity checker returns the sensor count, the density
    count / (2 * (length + width)), the recommended density of the safety
    level (0.8, 0.6, 0.4, and 0.5 for any other level) and
    adequate = (density >= recommended * 0.8); in a run whose requirements
    resolve this record is the [quantity] field of [compliance], and every
    message of the report comes from another check. *)
Theorem quantity_checker (config : PitConfiguration) (req : RequirementSet)
    (sensors : list PlacedSensor) (results : ValidationReport) :
  lookup_requirements config = Return (Some req) ->
  let density := (of_nat (List.length sensors) / perimeter config)%js in
  checkSensorQuantity config sensors results
  = {| q_total := List.length sensors;
       q_density := density;
       q_recommended := recommended_density (safetyLevel config);
       q_adequate := (density >=? recommended_density (safetyLevel config) * lit 0.8)%js |}
  /\ exists r,
       validateLayout config sensors = Return r
       /\ c_quantity (compliance r) = Some (checkSensorQuantity config sensors results)
       /\ errors r = map missing_required (filter (absent sensors) (required req))
       /\ warnings r
          = map insufficient_count (filter (below_minimum sensors) (required req))
            ++ layout_warnings config sensors ++ range_warnings config sensors
       /\ suggestions r
          = map consider_adding (filter (absent sensors) (recommended req))
            ++ [necessity_suggestion config].
Proof.
  intros H density. split.
  - unfold checkSensorQuantity. now rewrite calculateRecommendedDensity_level.
  - destruct (resolved_categories _ _ H) as (Hreq & _ & _).
    exists (run_checks req config sensors initial_results).
    destruct (run_checks_lists req config sensors Hreq) as (He & Hw & Hs & _).
    split; [now apply validateLayout_resolved|].
    split; [now rewrite run_checks_compliance|].
    auto.
Qed.

Lemma on_side_priority (length width : num) (s : PlacedSensor) :
  on_side length width East s = near_east length width s
  /\ on_side length width West s
     = negb (near_east length width s) && near_west length width s
  /\ on_side length width North s
     = negb (near_east length width s) && negb (near_west length width s)
       && near_north length width s
  /\ on_side length width South s
     = negb (near_east length width s) && negb (near_west length width s)
       && negb (near_north length width s) && near_south length width s.
Proof.
  unfold on_side, side_of. side_cases length width s; repeat split.
Qed.

Lemma analyze_step_tallies (length width : num) (d : Distribution) (s : PlacedSensor) :
  let d' := analyze_step length width d s in
  east d' = east d + (if on_side length width East s then 1 else 0)
  /\ west d' = west d + (if on_side length width West s then 1 else 0)
  /\ north d' = north d + (if on_side length width North s then 1 else 0)
  /\ south d' = south d + (if on_side length width South s then 1 else 0).
Proof.
  unfold analyze_step, on_side, side_of.
  side_cases length width s;
    repeat match goal with |- context [if ?b then incr_corners _ else _] => destruct b end;
    repeat match goal with |- context [if ?b then incr_middle _ else _] => destruct b end;
    cbn; repeat split; lia.
Qed.

Lemma fold_analyze_step_tallies (length width : num) (sensors : list PlacedSensor) :
  forall d : Distribution,
    let d' := fold_left (analyze_step length width) sensors d in
    east d' = east d + tally length width sensors East
    /\ west d' = west d + tally length width sensors West
    /\ north d' = north d + tally length width sensors North
    /\ south d' = south d + tally length width sensors South.
Proof.
  unfold tally, classified.
  induction sensors as [|a sensors IH]; intros d.
  - cbn. repeat split; lia.
  - cbn [fold_left filter].
    destruct (IH (analyze_step length width d a)) as (He & Hw & Hn & Hs).
    destruct (analyze_step_tallies length width d a) as (He' & Hw' & Hn' & Hs').
    cbv zeta in *. rewrite He, Hw, Hn, Hs, He', Hw', Hn', Hs'.
    destruct (on_side length width East a), (on_side length width West a),
      (on_side length width North a), (on_side length width South a);
      cbn [List.length]; repeat split; lia.
Qed.

(** The record and the warning of the range check, whatever the
    arithmetic, with the distance, the radius and the thirty percent
    written out. *)
Lemma checkMonitoringRange_coverage (config : PitConfiguration)
    (sensors : list PlacedSensor) (results : ValidationReport) :
  let larger := Math_max2 (length (dimensions config)) (width (dimensions config)) in
  let distance := fun s : PlacedSensor =>
    Math_sqrt (pos_x (position s) * pos_x (position s)
               + pos_z (position s) * pos_z (position s))%js in
  let outside := filter (fun s => (distance s >? larger / lit 2)%js) sensors in
  let coverage := snd (checkMonitoringRange config sensors results) in
  r_total coverage = List.length sensors
  /\ r_outside coverage = List.length outside
  /\ r_maxDistance coverage
     = match sensors with
       | [] => lit 0
       | s :: rest => fold_left Math_max2 (map distance rest ++ [lit 0]) (distance s)
       end
  /\ r_recommendedMaxDistance coverage = (larger * lit 1.5)%js
  /\ fst (checkMonitoringRange config sensors results)
     = extend []
         (if (of_nat (List.length outside) <? of_nat (List.length sensors) * lit 0.3)%js
          then [peripheral_coverage] else [])
         [] results
  /\ (forall req,
        lookup_requirements config = Return (Some req) ->
        exists r,
          validateLayout config sensors = Return r
          /\ c_range (compliance r) = Some coverage).
Proof.
  cbv zeta.
  split; [reflexivity|]. split; [reflexivity|].
  split; [destruct sensors; reflexivity|].
  split; [reflexivity|].
  split; [apply checkMonitoringRange_extend|].
  intros req H. exists (run_checks req config sensors initial_results).
  split; [now apply validateLayout_resolved|].
  now rewrite run_checks_compliance.
Qed.

(** The sides lacking sensors, counted on the four lists of classified
    sensors. *)
Lemma sides_lacking_classified (length width : num) (sensors : list PlacedSensor) :
  sides_lacking length width sensors
  = List.length
      (filter (fun on_side => List.length on_side <? 3)
         [ filter (fun s => near_east length width s) sensors;
           filter (fun s => negb (near_east length width s) && near_west length width s)
             sensors;
           filter (fun s => negb (near_east length width s)
                            && negb (near_west length width s)
                            && near_north length width s) sensors;
           filter (fun s => negb (near_east length width s)
                            && negb (near_west length width s)
                            && negb (near_north length width s)
                            && near_south length width s) sensors ]).
Proof.
  unfold sides_lacking, tally, classified.
  rewrite <- (filter_ext (on_side length width East)
                (fun s => near_east length width s))
    by (intros s; apply on_side_priority).
  rewrite <- (filter_ext (on_side length width West)
                (fun s => negb (near_east length width s) && near_west length width s))
    by (intros s; apply on_side_priority).
  rewrite <- (filter_ext (on_side length width North)
                (fun s => negb (near_east length width s)
                          && negb (near_west length width s)
                          && near_north length width s))
    by (intros s; apply on_side_priority).
  rewrite <- (filter_ext (on_side length width South)
                (fun s => negb (near_east length width s)
                          && negb (near_west length width s)
                          && negb (near_north length width s)
                          && near_south length width s))
    by (intros s; apply on_side_priority).
  cbn [filter].
  destruct (List.length (filter (on_side length width East) sensors) <? 3),
    (List.length (filter (on_side length width West) sensors) <? 3),
    (List.length (filter (on_side length width North) sensors) <? 3),
    (List.length (filter (on_side length width South) sensors) <? 3); reflexivity.
Qed.

(** C9: the wall-displacement layout check looks at the horizontal- and
    vertical-displacement sensors only and appends, in this order and
    nothing else: the general warning exactly when they are fewer than 12;
    a warning carrying the number of sides, of the four, with fewer than 3
    classified sensors, exactly when that number is positive; a warning
    carrying the number of corners, of the four, with no such sensor
    within 5 units, exactly when that number is positive.  A sensor is
    classified to the first side whose edge its coordinate is within 2
    of: x of +length/2 (east) or of -length/2 (west), z of +width/2
    (north) or of -width/2 (south); the corners are
    (+-length/2, +-width/2) and the distance to a corner is the
    horizontal one. *)
Theorem wall_displacement_layout_warnings (sensors : list PlacedSensor)
    (length width : num) (results : ValidationReport) (layoutResults : LayoutResults) :
  let wall :=
    filter (fun s => String.eqb (sensor_type s) "horizontal-displacement"
                     || String.eqb (sensor_type s) "vertical-displacement") sensors in
  let x := fun s : PlacedSensor => pos_x (position s) in
  let z := fun s : PlacedSensor => pos_z (position s) in
  let east := fun s => (Math_abs (x s - length / lit 2) <? lit 2)%js in
  let west := fun s => (Math_abs (x s + length / lit 2) <? lit 2)%js in
  let north := fun s => (Math_abs (z s - width / lit 2) <? lit 2)%js in
  let south := fun s => (Math_abs (z s + width / lit 2) <? lit 2)%js in
  let classified :=
    [ filter east wall;
      filter (fun s => negb (east s) && west s) wall;
      filter (fun s => negb (east s) && negb (west s) && north s) wall;
      filter (fun s => negb (east s) && negb (west s) && negb (north s) && south s) wall ] in
  let sides := List.length (filter (fun on_side => List.length on_side <? 3) classified) in
  let corner_positions :=
    [ (length / lit 2, width / lit 2); (- length / lit 2, width / lit 2);
      (- length / lit 2, - width / lit 2); (length / lit 2, - width / lit 2) ]%js in
  let within_5 := fun (corner : num * num) (s : PlacedSensor) =>
    (Math_sqrt ((x s - fst corner) * (x s - fst corner)
                + (z s - snd corner) * (z s - snd corner)) <? lit 5)%js in
  let corners :=
    List.length (filter (fun corner => negb (existsb (within_5 corner) wall))
                   corner_positions) in
  fst (checkWallDisplacementLayout sensors length width results layoutResults)
  = extend []
      ((if List.length wall <? 12 then [too_few_wall_sensors] else [])
       ++ (if 0 <? sides then [sides_warning sides] else [])
       ++ (if 0 <? corners then [corners_warning corners] else []))
      [] results
  /\ sides <= 4 /\ corners <= 4.
Proof.
  cbv zeta. split.
  - rewrite checkWallDisplacementLayout_extend. unfold wall_warnings.
    rewrite sides_lacking_classified. reflexivity.
  - split; (etransitivity; [apply filter_length_le|]); cbn; lia.
Qed.

(** The classification as filters of the four tests, in the list of
    sides and in the counters alike. *)
Lemma side_classification_filters (sensors : list PlacedSensor) (length width : num) :
  let e := fun s => near_east length width s in
  let w := fun s => negb (near_east length width s) && near_west length width s in
  let n := fun s => negb (near_east length width s) && negb (near_west length width s)
                    && near_north length width s in
  let so := fun s => negb (near_east length width s) && negb (near_west length width s)
                     && negb (near_north length width s) && near_south length width s in
  let d := analyzeSensorDistribution sensors length width in
  assign_sides sensors length width
  = mk_sides (filter e sensors) (filter w sensors) (filter n sensors) (filter so sensors)
  /\ east d = List.length (filter e sensors)
  /\ west d = List.length (filter w sensors)
  /\ north d = List.length (filter n sensors)
  /\ south d = List.length (filter so sensors)
  /\ (forall s, near_east length width s = true \/ near_west length width s = true ->
                ~ In s (filter n sensors) /\ ~ In s (filter so sensors))
  /\ (forall s, (if e s then 1 else 0) + (if w s then 1 else 0)
                + (if n s then 1 else 0) + (if so s then 1 else 0) <= 1)
  /\ List.length (filter e sensors) + List.length (filter w sensors)
     + List.length (filter n sensors) + List.length (filter so sensors)
     <= List.length sensors.
Proof.
  cbv zeta.
  assert (HE : classified length width sensors East
               = filter (fun s => near_east length width s) sensors)
    by (apply filter_ext; intros s; apply on_side_priority).
  assert (HW : classified length width sensors West
               = filter (fun s => negb (near_east length width s)
                                  && near_west length width s) sensors)
    by (apply filter_ext; intros s; apply on_side_priority).
  assert (HN : classified length width sensors North
               = filter (fun s => negb (near_east length width s)
                                  && negb (near_west length width s)
                                  && near_north length width s) sensors)
    by (apply filter_ext; intros s; apply on_side_priority).
  assert (HS : classified length width sensors South
               = filter (fun s => negb (near_east length width s)
                                  && negb (near_west length width s)
                                  && negb (near_north length width s)
                                  && near_south length width s) sensors)
    by (apply filter_ext; intros s; apply on_side_priority).
  split; [now rewrite assign_sides_classified, HE, HW, HN, HS|].
  destruct (fold_analyze_step_tallies length width sensors
              {| north := 0; south := 0; east := 0; west := 0;
                 corners := 0; middle := 0 |}) as (He & Hw & Hn & Hs).
  cbv zeta in He, Hw, Hn, Hs. unfold tally in He, Hw, Hn, Hs.
  rewrite HE in He. rewrite HW in Hw. rewrite HN in Hn. rewrite HS in Hs.
  cbn [east west north south Nat.add] in He, Hw, Hn, Hs.
  fold (analyzeSensorDistribution sensors length width) in He, Hw, Hn, Hs.
  repeat (split; [assumption|]).
  split.
  { intros s Hs'. rewrite !filter_In.
    destruct Hs' as [-> | Hw'].
    - split; intros [_ F]; discriminate.
    - rewrite Hw'. destruct (near_east length width s); split; intros [_ F]; discriminate. }
  split.
  { intros s. side_cases length width s; cbn; lia. }
  clear. induction sensors as [|a sensors IH]; cbn [filter List.length]; [lia|].
  side_cases length width a; cbn [negb andb List.length]; lia.
Qed.

(** C10: the side classification, in [identifyCriticalPositions] and in
    [analyzeSensorDistribution] alike, gives a sensor to the first side
    whose test it passes, in the order east (x within 2 of +length/2),
    west (x within 2 of -length/2), north (z within 2 of +width/2), south
    (z within 2 of -width/2): the list of a side holds, in the order of
    the sensors, those that pass its test and none of the tests before
    it, and the counter of the side is the length of that list.  A sensor
    that passes the east or the west test is therefore in neither the
    north nor the south list, however close it is to a z-edge; no sensor
    is counted twice. *)
Theorem side_classification_priority (sensors : list PlacedSensor) (length width : num) :
  let x := fun s : PlacedSensor => pos_x (position s) in
  let z := fun s : PlacedSensor => pos_z (position s) in
  let east_test := fun s => (Math_abs (x s - length / lit 2) <? lit 2)%js in
  let west_test := fun s => (Math_abs (x s + length / lit 2) <? lit 2)%js in
  let north_test := fun s => (Math_abs (z s - width / lit 2) <? lit 2)%js in
  let south_test := fun s => (Math_abs (z s + width / lit 2) <? lit 2)%js in
  let e := fun s => east_test s in
  let w := fun s => negb (east_test s) && west_test s in
  let n := fun s => negb (east_test s) && negb (west_test s) && north_test s in
  let so := fun s => negb (east_test s) && negb (west_test s) && negb (north_test s)
                     && south_test s in
  let d := analyzeSensorDistribution sensors length width in
  assign_sides sensors length width
  = [ {| side_name := "east"; side_sensors := filter e sensors |};
      {| side_name := "west"; side_sensors := filter w sensors |};
      {| side_name := "north"; side_sensors := filter n sensors |};
      {| side_name := "south"; side_sensors := filter so sensors |} ]
  /\ east d = List.length (filter e sensors)
  /\ west d = List.length (filter w sensors)
  /\ north d = List.length (filter n sensors)
  /\ south d = List.length (filter so sensors)
  /\ (forall s, east_test s = true \/ west_test s = true ->
                ~ In s (filter n sensors) /\ ~ In s (filter so sensors))
  /\ (forall s, (if e s then 1 else 0) + (if w s then 1 else 0)
                + (if n s then 1 else 0) + (if so s then 1 else 0) <= 1)
  /\ List.length (filter e sensors) + List.length (filter w sensors)
     + List.length (filter n sensors) + List.length (filter so sensors)
     <= List.length sensors.
Proof. exact (side_classification_filters sensors length width). Qed.


(** ** Further properties of the validator *)

Lemma distinct_NoDup (l : list string) : distinct l = true -> NoDup l.
Proof.
  induction l as [|a l IH]; cbn [distinct]; intros H; constructor.
  - apply andb_true_iff in H as [H _]. apply negb_true_iff in H.
    intros Hin. assert (existsb (String.eqb a) l = true); [|congruence].
    apply existsb_exists. exists a. split; [assumption|apply String.eqb_refl].
  - apply andb_true_iff in H as [_ H]. now apply IH.
Qed.

Lemma included_incl (l l' : list string) : included l l' = true -> incl l l'.
Proof.
  unfold included. rewrite forallb_forall. intros H a Ha.
  specialize (H a Ha). apply existsb_exists in H as (b & Hb & E).
  apply String.eqb_eq in E. now subst.
Qed.

Lemma table_well_formed :
  forallb (fun req =>
             distinct (required req ++ recommended req ++ optional req)
             && included (required req ++ recommended req ++ optional req) SensorCategory)
    all_requirements = true.
Proof. vm_compute. reflexivity. Qed.

Lemma lookup_requirements_cases (config : PitConfiguration) :
  (In (type config) compositions /\ (1 <= safetyLevel config <= 3)%Z
   /\ exists req, lookup_requirements config = Return (Some req))
  \/ (In (type config) compositions /\ ~ (1 <= safetyLevel config <= 3)%Z
      /\ lookup_requirements config = Return None)
  \/ (~ In (type config) compositions /\ In (type config) Object_prototype
      /\ lookup_requirements config = Return None)
  \/ (~ In (type config) compositions /\ ~ In (type config) Object_prototype
      /\ lookup_requirements config = Throw TypeError).
Proof.
  unfold lookup_requirements, get, monitoringRequirements, compositions. cbn [own].
  destruct (String.eqb_spec (type config) "soil") as [e1|n1];
    [|destruct (String.eqb_spec (type config) "rock") as [e2|n2];
      [|destruct (String.eqb_spec (type config) "soil-rock") as [e3|n3]]].
  1-3: try apply eq_sym in e1; try apply eq_sym in e2; try apply eq_sym in e3;
    cbn [get_level In];
    destruct (Z.eqb_spec (safetyLevel config) 1) as [l1|l1];
      [left; repeat split; [tauto|lia|lia|eexists; reflexivity]|];
    destruct (Z.eqb_spec (safetyLevel config) 2) as [l2|l2];
      [left; repeat split; [tauto|lia|lia|eexists; reflexivity]|];
    destruct (Z.eqb_spec (safetyLevel config) 3) as [l3|l3];
      [left; repeat split; [tauto|lia|lia|eexists; reflexivity]|];
    right; left; repeat split; [tauto|lia].
  assert (Hn : ~ In (type config) ["soil"; "rock"; "soil-rock"])
    by (cbn [In]; intros [H|[H|[H|[]]]]; congruence).
  destruct (existsb (String.eqb (type config)) Object_prototype) eqn:E.
  - right; right; left. repeat split; [exact Hn|].
    apply existsb_exists in E as (k & Hk & E). apply String.eqb_eq in E. now subst.
  - right; right; right. repeat split; [exact Hn|].
    intros Hin. assert (existsb (String.eqb (type config)) Object_prototype = true);
      [|congruence].
    apply existsb_exists. exists (type config). split; [assumption|apply String.eqb_refl].
Qed.

(** X1: the three outcomes of [validateLayout] by the kind of its
    configuration.  With one of the three compositions and a level from 1
    to 3 it runs all the checks, against a requirement set of the table
    whose required list is not empty and whose three lists are made of
    distinct sensor categories; with one of the three compositions and any
    other level, or with a composition that names a member of
    Object.prototype, it returns the not-found report; with any other
    composition it throws. *)
Theorem validateLayout_outcomes (config : PitConfiguration) (sensors : list PlacedSensor) :
  (In (type config) compositions -> (1 <= safetyLevel config <= 3)%Z ->
   exists req r,
     lookup_requirements config = Return (Some req)
     /\ validateLayout config sensors = Return r
     /\ c_required (compliance r) = Some (category_counts (required req) sensors)
     /\ required req <> []
     /\ NoDup (required req ++ recommended req ++ optional req)
     /\ incl (required req ++ recommended req ++ optional req) SensorCategory)
  /\ (In (type config) compositions -> ~ (1 <= safetyLevel config <= 3)%Z ->
      validateLayout config sensors = Return (requirement_not_found config))
  /\ (In (type config) Object_prototype ->
      validateLayout config sensors = Return (requirement_not_found config))
  /\ (~ In (type config) compositions -> ~ In (type config) Object_prototype ->
      validateLayout config sensors = Throw TypeError).
Proof.
  assert (Hdisj : In (type config) Object_prototype -> ~ In (type config) compositions).
  { unfold Object_prototype, compositions. cbn [In].
    intros H1 H2.
    repeat (destruct H1 as [H1|H1];
            [rewrite <- H1 in H2; repeat (destruct H2 as [H2|H2]; [discriminate|]);
             contradiction|]).
    contradiction. }
  destruct (lookup_requirements_cases config)
    as [(Ht & Hl & req & H) | [(Ht & Hl & H) | [(Ht & Hp & H) | (Ht & Hp & H)]]].
  - split; [|split; [tauto|split; [intros Hp; now apply Hdisj in Hp|tauto]]].
    intros _ _. exists req, (run_checks req config sensors initial_results).
    split; [exact H|]. split; [now apply validateLayout_resolved|].
    split; [now rewrite run_checks_compliance|].
    destruct (resolved_categories _ _ H) as (_ & _ & Hne). split; [exact Hne|].
    pose proof table_well_formed as T. rewrite forallb_forall in T.
    specialize (T _ (lookup_requirements_table _ _ H)).
    apply andb_true_iff in T as [T1 T2].
    split; [now apply distinct_NoDup|now apply included_incl].
  - split; [tauto|]. split.
    + intros _ _. now apply validateLayout_requirement_not_found.
    + split; [intros Hp; now apply Hdisj in Hp|tauto].
  - split; [tauto|]. split; [tauto|]. split; [|tauto].
    intros _. now apply validateLayout_requirement_not_found.
  - split; [tauto|]. split; [tauto|]. split; [tauto|].
    intros _ _. unfold validateLayout. now rewrite H.
Qed.

Lemma resolved_report (config : PitConfiguration) (req : RequirementSet)
    (sensors : list PlacedSensor) (r : ValidationReport) :
  lookup_requirements config = Return (Some req) ->
  validateLayout config sensors = Return r ->
  errors r = map missing_required (filter (absent sensors) (required req))
  /\ suggestions r
     = map consider_adding (filter (absent sensors) (recommended req))
       ++ [necessity_suggestion config]
  /\ isValid r = (List.length (errors r) =? 0)
  /\ compliance r
     = {| c_required := Some (category_counts (required req) sensors);
          c_recommended := Some (category_counts (recommended req) sensors);
          c_layout := Some (snd (checkSensorLayout config sensors initial_results));
          c_quantity := Some (checkSensorQuantity config sensors initial_results);
          c_range := Some (snd (checkMonitoringRange config sensors initial_results)) |}.
Proof.
  intros H Hr. rewrite (validateLayout_resolved _ _ _ H) in Hr. injection Hr as <-.
  destruct (resolved_categories _ _ H) as (Hreq & _ & _).
  destruct (run_checks_lists req config sensors Hreq) as (He & _ & Hs & Hv).
  repeat split; try assumption. apply run_checks_compliance.
Qed.

Lemma filter_nil_iff {A : Type} (p : A -> bool) (l : list A) :
  filter p l = [] <-> forall a, In a l -> p a = false.
Proof.
  induction l as [|a l IH]; cbn [filter].
  - split; [intros _ a []|reflexivity].
  - destruct (p a) eqn:E; split.
    + discriminate.
    + intros H. specialize (H a (or_introl eq_refl)). congruence.
    + intros H b [<-|Hb]; [assumption|now apply IH].
    + intros H. apply IH. intros b Hb. apply H. now right.
Qed.

Lemma valid_iff_present (req : RequirementSet) (sensors : list PlacedSensor) :
  (List.length (map missing_required (filter (absent sensors) (required req))) =? 0) = true
  <-> forall category, In category (required req) -> 0 < count_of sensors category.
Proof.
  rewrite length_map, Nat.eqb_eq, length_zero_iff_nil, filter_nil_iff.
  unfold absent. split; intros H t Ht; specialize (H t Ht).
  - apply Nat.eqb_neq in H. lia.
  - apply Nat.eqb_neq. lia.
Qed.

(** X2: a layout is valid exactly when every required category of its
    configuration has at least one sensor; the counts beyond one, the
    positions and the dimensions play no part. *)
Theorem valid_iff_every_required_category_present (config : PitConfiguration)
    (req : RequirementSet) (sensors : list PlacedSensor) (r : ValidationReport) :
  lookup_requirements config = Return (Some req) ->
  validateLayout config sensors = Return r ->
  (isValid r = true
   <-> forall category, In category (required req) -> 0 < count_of sensors category).
Proof.
  intros H Hr. destruct (resolved_report _ _ _ _ H Hr) as (He & _ & Hv & _).
  rewrite Hv, He. apply valid_iff_present.
Qed.

Lemma category_names_distinct :
  forallb (fun a =>
             forallb (fun b =>
                        match getSensorTypeName a, getSensorTypeName b with
                        | VString x, VString y => implb (String.eqb x y) (String.eqb a b)
                        | _, _ => false
                        end) SensorCategory) SensorCategory = true.
Proof. vm_compute. reflexivity. Qed.

Lemma missing_required_injective (a b : string) :
  In a SensorCategory -> In b SensorCategory ->
  missing_required a = missing_required b -> a = b.
Proof.
  intros Ha Hb E. pose proof category_names_distinct as T.
  rewrite forallb_forall in T. specialize (T a Ha).
  rewrite forallb_forall in T. specialize (T b Hb).
  unfold missing_required in E. injection E as E.
  rewrite E in T.
  destruct (getSensorTypeName b); try discriminate.
  rewrite String.eqb_refl in T. cbn in T. now apply String.eqb_eq.
Qed.

(** X3: the errors of a resolved run name the missing categories without
    ambiguity: for each of the ten sensor categories, its missing-category
    error is in the report exactly when the category is required and has
    no sensor, and no error is listed twice. *)
Theorem errors_name_the_missing_categories (config : PitConfiguration)
    (req : RequirementSet) (sensors : list PlacedSensor) (r : ValidationReport) :
  lookup_requirements config = Return (Some req) ->
  validateLayout config sensors = Return r ->
  (forall category,
      In category SensorCategory ->
      (In (missing_required category) (errors r)
       <-> In category (required req) /\ count_of sensors category = 0))
  /\ NoDup (errors r).
Proof.
  intros H Hr. destruct (resolved_report _ _ _ _ H Hr) as (He & _ & _ & _).
  pose proof table_well_formed as T. rewrite forallb_forall in T.
  specialize (T _ (lookup_requirements_table _ _ H)).
  apply andb_true_iff in T as [T1 T2].
  apply distinct_NoDup in T1. apply included_incl in T2.
  assert (Hinc : incl (required req) SensorCategory)
    by (intros t Ht; apply T2, in_or_app; now left).
  assert (Hnd : NoDup (required req)) by (now apply NoDup_app_remove_r in T1).
  rewrite He. split.
  - intros t Ht. rewrite in_map_iff. split.
    + intros (t' & E & Hin). apply filter_In in Hin as [Hin Ha].
      apply missing_required_injective in E; [|now apply Hinc|assumption].
      subst t'. split; [assumption|now apply Nat.eqb_eq].
    + intros [Hin Hc]. exists t. split; [reflexivity|].
      apply filter_In. split; [assumption|now apply Nat.eqb_eq].
  - apply NoDup_map_NoDup_ForallPairs.
    + intros a b Ha Hb E. apply filter_In in Ha as [Ha _]. apply filter_In in Hb as [Hb _].
      apply missing_required_injective; auto.
    + now apply NoDup_filter.
Qed.

Lemma count_of_app (s1 s2 : list PlacedSensor) (category : string) :
  count_of (s1 ++ s2) category = count_of s1 category + count_of s2 category.
Proof. unfold count_of. now rewrite map_app, count_occ_app. Qed.

Lemma filter_incl_length {A : Type} (p q : A -> bool) (l : list A) :
  (forall a, p a = true -> q a = true) ->
  incl (filter p l) (filter q l) /\ List.length (filter p l) <= List.length (filter q l).
Proof.
  intros H. split.
  - intros a Ha. apply filter_In in Ha as [Ha Hp]. apply filter_In. auto.
  - induction l as [|a l IH]; cbn [filter]; [lia|].
    specialize (H a). destruct (p a), (q a); cbn [List.length]; try lia.
Qed.

(** X4: placing more sensors never costs validity.  For a resolved
    configuration, every error and every suggestion of the report for a
    longer sensor list is already in the report for the shorter one, so a
    valid layout stays valid whatever is added to it. *)
Theorem more_sensors_never_add_errors (config : PitConfiguration)
    (req : RequirementSet) (sensors extra : list PlacedSensor)
    (r r' : ValidationReport) :
  lookup_requirements config = Return (Some req) ->
  validateLayout config sensors = Return r ->
  validateLayout config (sensors ++ extra) = Return r' ->
  incl (errors r') (errors r)
  /\ List.length (errors r') <= List.length (errors r)
  /\ incl (suggestions r') (suggestions r)
  /\ (isValid r = true -> isValid r' = true).
Proof.
  intros H Hr Hr'.
  destruct (resolved_report _ _ _ _ H Hr) as (He & Hs & Hv & _).
  destruct (resolved_report _ _ _ _ H Hr') as (He' & Hs' & Hv' & _).
  assert (Hab : forall t, absent (sensors ++ extra) t = true -> absent sensors t = true).
  { intros t. unfold absent. rewrite count_of_app, !Nat.eqb_eq. lia. }
  destruct (filter_incl_length _ _ (required req) Hab) as (I1 & L1).
  destruct (filter_incl_length _ _ (recommended req) Hab) as (I2 & _).
  assert (Hle : List.length (errors r') <= List.length (errors r))
    by (rewrite He, He', !length_map; exact L1).
  split; [rewrite He, He'; now apply incl_map|].
  split; [exact Hle|].
  split.
  - rewrite Hs, Hs'. apply incl_app_app; [now apply incl_map|apply incl_refl].
  - rewrite Hv, Hv', !Nat.eqb_eq. lia.
Qed.

Lemma count_of_Permutation (s1 s2 : list PlacedSensor) :
  Permutation (map sensor_type s1) (map sensor_type s2) ->
  forall category, count_of s1 category = count_of s2 category.
Proof.
  intros P t. unfold count_of.
  now apply (Permutation_count_occ string_dec).
Qed.

Lemma category_counts_ext (types : list string) (s1 s2 : list PlacedSensor) :
  (forall category, count_of s1 category = count_of s2 category) ->
  category_counts types s1 = category_counts types s2.
Proof.
  intros H. unfold category_counts. generalize (@nil (string * nat)).
  induction types as [|t types IH]; intros acc; cbn [fold_left]; [reflexivity|].
  now rewrite H, IH.
Qed.

(** X5: the presence checks see the sensor types only, as a multiset.
    Two sensor lists whose types are permutations of each other, whatever
    the positions and the order, get the same errors, the same
    suggestions, the same validity and the same counts of required and
    recommended categories. *)
Theorem presence_depends_on_types_only (config : PitConfiguration)
    (req : RequirementSet) (s1 s2 : list PlacedSensor) (r1 r2 : ValidationReport) :
  lookup_requirements config = Return (Some req) ->
  Permutation (map sensor_type s1) (map sensor_type s2) ->
  validateLayout config s1 = Return r1 ->
  validateLayout config s2 = Return r2 ->
  errors r1 = errors r2
  /\ suggestions r1 = suggestions r2
  /\ isValid r1 = isValid r2
  /\ c_required (compliance r1) = c_required (compliance r2)
  /\ c_recommended (compliance r1) = c_recommended (compliance r2).
Proof.
  intros H P H1 H2.
  destruct (resolved_report _ _ _ _ H H1) as (He1 & Hs1 & Hv1 & Hc1).
  destruct (resolved_report _ _ _ _ H H2) as (He2 & Hs2 & Hv2 & Hc2).
  pose proof (count_of_Permutation _ _ P) as C.
  assert (Hab : forall t, absent s1 t = absent s2 t)
    by (intros t; unfold absent; now rewrite C).
  assert (E : errors r1 = errors r2)
    by (rewrite He1, He2; f_equal; now apply filter_ext).
  split; [exact E|]. split.
  - rewrite Hs1, Hs2. do 2 f_equal. now apply filter_ext.
  - split; [now rewrite Hv1, Hv2, E|].
    rewrite Hc1, Hc2. cbn [c_required c_recommended].
    now rewrite !(category_counts_ext _ _ _ C).
Qed.

Lemma lookup_requirements_resolve (config : PitConfiguration) (req : RequirementSet) :
  lookup_requirements config = Return (Some req) ->
  resolve (type config) (safetyLevel config) = Some req.
Proof.
  unfold lookup_requirements, resolve, get.
  destruct (own monitoringRequirements (type config)) as [levels|].
  - now intros [= ->].
  - destruct (existsb _ _); discriminate.
Qed.

Lemma required_shrinks_with_level :
  forallb (fun composition =>
             forallb (fun l1 =>
                        forallb (fun l2 =>
                                   match resolve composition l1, resolve composition l2 with
                                   | Some req1, Some req2 =>
                                       implb (l1 <=? l2)%Z
                                             (included (required req2) (required req1))
                                   | _, _ => false
                                   end) [1; 2; 3]%Z) [1; 2; 3]%Z) compositions = true.
Proof. vm_compute. reflexivity. Qed.

Lemma resolve_domain (composition : string) (level : Z) (req : RequirementSet) :
  resolve composition level = Some req ->
  In composition compositions /\ In level [1; 2; 3]%Z.
Proof.
  unfold resolve, monitoringRequirements, compositions. cbn [own In].
  destruct (String.eqb_spec composition "soil") as [->|n1];
    [|destruct (String.eqb_spec composition "rock") as [->|n2];
      [|destruct (String.eqb_spec composition "soil-rock") as [->|n3]]];
    [| | |discriminate].
  all: cbn [get_level];
    destruct (Z.eqb_spec level 1) as [->|l1]; [intros _; tauto|];
    destruct (Z.eqb_spec level 2) as [->|l2]; [intros _; tauto|];
    destruct (Z.eqb_spec level 3) as [->|l3]; [intros _; tauto|];
    discriminate.
Qed.

(** X6: the requirement table relaxes with the level.  For one
    composition, the categories required at a level are required at every
    stricter (smaller) level too, so a sensor list that is valid for a pit
    of some level is valid for a pit of the same composition and any laxer
    level, whatever the dimensions of the two pits. *)
Theorem laxer_level_keeps_validity (c1 c2 : PitConfiguration)
    (req1 req2 : RequirementSet) (sensors : list PlacedSensor)
    (r1 r2 : ValidationReport) :
  type c1 = type c2 ->
  (safetyLevel c1 <= safetyLevel c2)%Z ->
  lookup_requirements c1 = Return (Some req1) ->
  lookup_requirements c2 = Return (Some req2) ->
  validateLayout c1 sensors = Return r1 ->
  validateLayout c2 sensors = Return r2 ->
  incl (required req2) (required req1)
  /\ (isValid r1 = true -> isValid r2 = true).
Proof.
  intros Ht Hl H1 H2 Hr1 Hr2.
  pose proof (lookup_requirements_resolve _ _ H1) as R1.
  pose proof (lookup_requirements_resolve _ _ H2) as R2.
  rewrite <- Ht in R2.
  destruct (resolve_domain _ _ _ R1) as (Dc & D1).
  destruct (resolve_domain _ _ _ R2) as (_ & D2).
  pose proof required_shrinks_with_level as T.
  rewrite forallb_forall in T. specialize (T _ Dc).
  rewrite forallb_forall in T. specialize (T _ D1).
  rewrite forallb_forall in T. specialize (T _ D2).
  rewrite R1, R2 in T.
  assert (Hle : (safetyLevel c1 <=? safetyLevel c2)%Z = true) by now apply Z.leb_le.
  rewrite Hle in T. cbn [implb] in T. apply included_incl in T.
  split; [exact T|].
  destruct (resolved_report _ _ _ _ H1 Hr1) as (He1 & _ & Hv1 & _).
  destruct (resolved_report _ _ _ _ H2 Hr2) as (He2 & _ & Hv2 & _).
  rewrite Hv1, Hv2, He1, He2, !valid_iff_present.
  intros Hp t Hin. now apply Hp, T.
Qed.

Lemma tally_sum_le (length width : num) (sensors : list PlacedSensor) :
  tally length width sensors East + tally length width sensors West
  + tally length width sensors North + tally length width sensors South
  <= List.length sensors.
Proof.
  unfold tally, classified, on_side.
  induction sensors as [|a sensors IH]; cbn [filter List.length]; [lia|].
  destruct (side_of length width a) as [[]|]; cbn -[side_of] in *; lia.
Qed.

Lemma sides_lacking_le (length width : num) (sensors : list PlacedSensor) :
  sides_lacking length width sensors <= 4.
Proof.
  unfold sides_lacking. etransitivity; [apply filter_length_le|]. cbn. lia.
Qed.

Lemma few_sensors_lack_a_side (length width : num) (sensors : list PlacedSensor) :
  List.length sensors < 12 -> 0 < sides_lacking length width sensors.
Proof.
  intros H. pose proof (tally_sum_le length width sensors) as S.
  unfold sides_lacking. cbn [filter].
  destruct (Nat.ltb_spec (tally length width sensors East) 3);
    destruct (Nat.ltb_spec (tally length width sensors West) 3);
    destruct (Nat.ltb_spec (tally length width sensors North) 3);
    destruct (Nat.ltb_spec (tally length width sensors South) 3);
    cbn [List.length]; lia.
Qed.

(** X7: the general warning of the wall-displacement check never comes
    alone.  A sensor is classified to one side at most, so with fewer than
    12 wall sensors some side has fewer than 3: the warning that the wall
    sensors are too few is always followed by the warning that counts the
    sides lacking sensors, with a count from 1 to 4. *)
Theorem too_few_wall_sensors_implies_sides_warning (sensors : list PlacedSensor)
    (length width : num) (results : ValidationReport) (layoutResults : LayoutResults) :
  List.length (filter is_wall sensors) < 12 ->
  exists n rest,
    1 <= n <= 4
    /\ warnings (fst (checkWallDisplacementLayout sensors length width results
                        layoutResults))
       = warnings results ++ too_few_wall_sensors :: sides_warning n :: rest.
Proof.
  intros H. rewrite checkWallDisplacementLayout_extend.
  unfold wall_warnings. cbn [extend warnings].
  apply Nat.ltb_lt in H. rewrite H.
  pose proof (few_sensors_lack_a_side length width _ (proj1 (Nat.ltb_lt _ _) H)) as P.
  pose proof (sides_lacking_le length width (filter is_wall sensors)) as Q.
  apply Nat.ltb_lt in P. rewrite P.
  eexists. eexists. split; [|reflexivity].
  apply Nat.ltb_lt in P. lia.
Qed.

(** ** The sensor store *)

Lemma renumber_length (sensors : list PlacedSensor) :
  forall i, List.length (renumber i sensors) = List.length sensors.
Proof. induction sensors as [|s l IH]; intros i; cbn; [reflexivity|now rewrite IH]. Qed.

Lemma renumber_ids (sensors : list PlacedSensor) :
  forall i, map sensor_id (renumber i sensors) = seq i (List.length sensors).
Proof. induction sensors as [|s l IH]; intros i; cbn; [reflexivity|now rewrite IH]. Qed.

Lemma renumber_placement (sensors : list PlacedSensor) :
  forall i, map placement (renumber i sensors) = map placement sensors.
Proof. induction sensors as [|s l IH]; intros i; cbn; [reflexivity|now rewrite IH]. Qed.

Lemma renumber_numbered (sensors : list PlacedSensor) :
  forall i, map sensor_id sensors = seq i (List.length sensors) -> renumber i sensors = sensors.
Proof.
  induction sensors as [|s l IH]; intros i H; cbn in *; [reflexivity|].
  injection H as H1 H2. rewrite (IH _ H2). destruct s; cbn in *. now subst.
Qed.

Lemma getSensors_sensors (st : SensorStore) : getSensors st = st_sensors st.
Proof.
  unfold getSensors. induction (st_sensors st) as [|s l IH]; cbn; [reflexivity|].
  rewrite IH. now destruct s.
Qed.

Lemma removeSensor_in_range (index : Z) (st : SensorStore) :
  (0 <= index < Z.of_nat (List.length (st_sensors st)))%Z ->
  removeSensor index st
  = {| st_config := st_config st;
       st_sensors := renumber 0 (firstn (Z.to_nat index) (st_sensors st)
                                 ++ skipn (S (Z.to_nat index)) (st_sensors st)) |}.
Proof.
  intros H. unfold removeSensor.
  assert (E1 : (0 <=? index)%Z = true) by (apply Z.leb_le; lia).
  assert (E2 : (index <? Z.of_nat (List.length (st_sensors st)))%Z = true)
    by (apply Z.ltb_lt; lia).
  now rewrite E1, E2.
Qed.

Lemma removeSensor_out_of_range (index : Z) (st : SensorStore) :
  (index < 0 \/ Z.of_nat (List.length (st_sensors st)) <= index)%Z ->
  removeSensor index st = st.
Proof.
  intros H. unfold removeSensor.
  destruct (Z.leb_spec 0 index); [|reflexivity].
  destruct (Z.ltb_spec index (Z.of_nat (List.length (st_sensors st)))); [lia|reflexivity].
Qed.

Lemma placeSensor_cases (type : string) (position : Vector3) (st : SensorStore)
    (ok : bool) (st' : SensorStore) :
  placeSensor type position st = Return (ok, st') ->
  (ok = false /\ st' = st)
  \/ (ok = true
      /\ st' = {| st_config := st_config st;
                  st_sensors :=
                    st_sensors st
                    ++ [ {| sensor_type := type; position := position;
                            sensor_id := List.length (st_sensors st) |} ] |}).
Proof.
  unfold placeSensor. destruct (isValidSensorPosition type position st) as [[|]|e].
  - intros [= <- <-]. now right.
  - intros [= <- <-]. now left.
  - discriminate.
Qed.

(** X8: the ids of the stored sensors are their positions in the array,
    0, 1, 2, ...: every operation of the store keeps it so (a placement
    numbers the new sensor with the old length, a removal renumbers what
    is left), and the list handed to the validator carries these ids. *)
Theorem store_ids_are_positions (st : SensorStore) :
  well_numbered st ->
  (forall type position ok st',
      placeSensor type position st = Return (ok, st') -> well_numbered st')
  /\ (forall index, well_numbered (removeSensor index st))
  /\ well_numbered (clearAllSensors st)
  /\ (forall config, well_numbered (updateParameters config st))
  /\ map sensor_id (getSensors st) = seq 0 (List.length (getSensors st)).
Proof.
  unfold well_numbered. intros W. split.
  { intros type position ok st' H.
    destruct (placeSensor_cases _ _ _ _ _ H) as [(_ & ->) | (_ & ->)]; [exact W|].
    cbn [st_sensors]. rewrite map_app, length_app, W. cbn [map List.length sensor_id].
    now rewrite Nat.add_1_r, seq_S. }
  split.
  { intros index.
    destruct (Z_lt_ge_dec index 0) as [Hn|Hn];
      [rewrite removeSensor_out_of_range; [exact W|lia]|].
    destruct (Z_lt_ge_dec index (Z.of_nat (List.length (st_sensors st)))) as [Hl|Hl];
      [|rewrite removeSensor_out_of_range; [exact W|lia]].
    rewrite removeSensor_in_range by lia. cbn [st_sensors].
    now rewrite renumber_ids, renumber_length. }
  split; [reflexivity|]. split; [intros config; exact W|].
  now rewrite getSensors_sensors.
Qed.

(** X9: what a removal does.  An index that is negative or not below the
    number of sensors changes nothing; any other index removes exactly the
    sensor at that position: the types and positions of the others are
    kept, in order, there is one sensor less, the ids are the positions
    again (whatever they were before), and the configuration is
    untouched. *)
Theorem removeSensor_removes_exactly_one (index : Z) (st : SensorStore) :
  ((index < 0 \/ Z.of_nat (List.length (st_sensors st)) <= index)%Z ->
   removeSensor index st = st)
  /\ ((0 <= index < Z.of_nat (List.length (st_sensors st)))%Z ->
      map placement (st_sensors (removeSensor index st))
      = firstn (Z.to_nat index) (map placement (st_sensors st))
        ++ skipn (S (Z.to_nat index)) (map placement (st_sensors st))
      /\ S (List.length (st_sensors (removeSensor index st)))
         = List.length (st_sensors st)
      /\ well_numbered (removeSensor index st)
      /\ st_config (removeSensor index st) = st_config st).
Proof.
  split; [apply removeSensor_out_of_range|].
  intros H. rewrite removeSensor_in_range by exact H.
  unfold well_numbered. cbn [st_sensors st_config].
  rewrite renumber_placement, renumber_ids, !renumber_length, map_app, firstn_map, skipn_map.
  repeat split.
  rewrite length_app, length_firstn, length_skipn. lia.
Qed.

(** X10: a placement undone.  In a store whose ids are the positions,
    placing a sensor and then removing the last index gives the store back
    exactly as it was. *)
Theorem place_then_remove_last (type : string) (position : Vector3)
    (st st' : SensorStore) :
  well_numbered st ->
  placeSensor type position st = Return (true, st') ->
  removeSensor (Z.of_nat (List.length (st_sensors st))) st' = st.
Proof.
  intros W H.
  destruct (placeSensor_cases _ _ _ _ _ H) as [(F & _) | (_ & ->)]; [discriminate|].
  rewrite removeSensor_in_range
    by (cbn [st_sensors]; rewrite length_app; cbn [List.length]; lia).
  cbn [st_sensors st_config]. rewrite Nat2Z.id.
  rewrite firstn_app, Nat.sub_diag, firstn_all, firstn_O, app_nil_r.
  rewrite skipn_all2 by (rewrite length_app; cbn [List.length]; lia).
  rewrite app_nil_r, (renumber_numbered _ 0 W). now destruct st.
Qed.

(** X11: the failures of a placement.  While the store has no
    configuration ([this.config] is null until the first pit is generated)
    a placement throws a TypeError; a placement that is refused returns
    false and leaves the store as it was; one that is accepted appends the
    sensor, with the type and position given, and changes nothing else. *)
Theorem placeSensor_failures (type : string) (position : Vector3) (st : SensorStore) :
  (st_config st = None -> placeSensor type position st = Throw TypeError)
  /\ (st_config st <> None ->
      exists ok st', placeSensor type position st = Return (ok, st'))
  /\ (forall st', placeSensor type position st = Return (false, st') -> st' = st)
  /\ (forall st', placeSensor type position st = Return (true, st') ->
        st_config st' = st_config st
        /\ exists s,
             st_sensors st' = st_sensors st ++ [s]
             /\ placement s = (type, position)).
Proof.
  split.
  { intros H. unfold placeSensor, isValidSensorPosition. now rewrite H. }
  split.
  { intros H.
    assert (V : exists b, isValidSensorPosition type position st = Return b).
    { unfold isValidSensorPosition.
      destruct (st_config st) as [config|]; [|congruence]. cbv zeta.
      destruct (nltb _ _); [eexists; reflexivity|].
      destruct (_ || _)%bool; [eexists; reflexivity|].
      destruct (String.eqb type "ground-settlement"); eexists; reflexivity. }
    destruct V as (b & V). unfold placeSensor. rewrite V.
    destruct b; eexists; eexists; reflexivity. }
  split.
  { intros st' H. destruct (placeSensor_cases _ _ _ _ _ H) as [(_ & E) | (F & _)];
      [exact E|discriminate]. }
  intros st' H. destruct (placeSensor_cases _ _ _ _ _ H) as [(F & _) | (_ & ->)];
    [discriminate|].
  split; [reflexivity|]. eexists. split; reflexivity.
Qed.

Lemma radial_position (s s' : PlacedSensor) : position s = position s' -> radial s = radial s'.
Proof. unfold radial. now intros ->. Qed.

Lemma renumber_In (sensors : list PlacedSensor) :
  forall i s, In s (renumber i sensors) ->
              exists s', In s' sensors /\ placement s = placement s'.
Proof.
  induction sensors as [|a l IH]; intros i s; cbn [renumber In]; [intros []|].
  intros [<- | H].
  - exists a. split; [now left|reflexivity].
  - destruct (IH _ _ H) as (s' & Hin & E). exists s'. split; [now right|exact E].
Qed.

Lemma within_reach_incl (config : PitConfiguration) (l l' : list PlacedSensor) :
  (forall s, In s l' -> exists s', In s' l /\ placement s = placement s') ->
  within_reach config l -> within_reach config l'.
Proof.
  intros H W s Hs. destruct (H s Hs) as (s' & Hin & E).
  injection E as _ E. rewrite (radial_position _ _ E). now apply W.
Qed.

Lemma firstn_skipn_In {A : Type} (l : list A) :
  forall (i j : nat) (a : A), In a (firstn i l ++ skipn j l) -> In a l.
Proof.
  intros i j a H. apply in_app_or in H as [H|H].
  - rewrite <- (firstn_skipn i l). apply in_or_app. now left.
  - rewrite <- (firstn_skipn j l). apply in_or_app. now right.
Qed.

Lemma removeSensor_In (index : Z) (st : SensorStore) (s : PlacedSensor) :
  In s (st_sensors (removeSensor index st)) ->
  exists s', In s' (st_sensors st) /\ placement s = placement s'.
Proof.
  unfold removeSensor.
  destruct ((0 <=? index)%Z && (index <? Z.of_nat (List.length (st_sensors st)))%Z)%bool.
  - cbn [st_sensors]. intros H. apply renumber_In in H as (s' & Hin & E).
    exists s'. split; [|exact E]. eapply firstn_skipn_In; eassumption.
  - intros H. exists s. now split.
Qed.

Lemma accepted_within_reach (config : PitConfiguration) (type : string)
    (p : Vector3) (st : SensorStore) (id : nat) :
  st_config st = Some config ->
  isValidSensorPosition type p st = Return true ->
  (radial {| sensor_type := type; position := p; sensor_id := id |}
   >? Math_max2 (length (dimensions config)) (width (dimensions config)) * lit 2)%js
  = false.
Proof.
  intros Hc. unfold isValidSensorPosition. rewrite Hc. cbv zeta.
  unfold radial, sq. cbn [position].
  destruct (nltb _ _); [discriminate|reflexivity].
Qed.

(** X12: the horizontal limit of the placement check is an invariant of
    the store.  While the configuration stays the same, no stored sensor
    fails the test [distance > Math.max(length, width) * 2] that
    [isValidSensorPosition] makes: placements, removals and clearing keep
    it so, and so does the list handed to the validator. *)
Theorem placements_stay_within_reach (config : PitConfiguration) (st : SensorStore) :
  st_config st = Some config ->
  within_reach config (st_sensors st) ->
  (forall type position ok st',
      placeSensor type position st = Return (ok, st') ->
      st_config st' = Some config /\ within_reach config (st_sensors st'))
  /\ (forall index,
        st_config (removeSensor index st) = Some config
        /\ within_reach config (st_sensors (removeSensor index st)))
  /\ within_reach config (st_sensors (clearAllSensors st))
  /\ within_reach config (getSensors st).
Proof.
  intros Hc W. split.
  { intros type p ok st' H. pose proof H as H'. unfold placeSensor in H'.
    destruct (isValidSensorPosition type p st) as [[|]|e] eqn:E; try discriminate.
    - injection H' as <- <-. cbn [st_config st_sensors]. split; [exact Hc|].
      intros s Hs. apply in_app_or in Hs as [Hs | [<- | []]]; [now apply W|].
      now apply (accepted_within_reach config type p st).
    - injection H' as <- <-. now split. }
  split.
  { intros index. split.
    - unfold removeSensor. now destruct (_ && _)%bool.
    - apply (within_reach_incl config (st_sensors st)); [|exact W].
      intros s. apply removeSensor_In. }
  split; [intros s []|]. now rewrite getSensors_sensors.
Qed.

(** X13: what the panel shows for a report of [validateLayout].  Because
    an invalid report always has an error, the panel is never blank: it is
    the success block alone when there is no error, warnings or not, and
    otherwise the block of all the errors followed, if there are warnings,
    by the block of all the warnings.  Suggestions are not shown. *)
Theorem validation_panel_of_a_report (config : PitConfiguration)
    (st : SensorStore) (r : ValidationReport) :
  validateLayout config (getSensors st) = Return r ->
  validateSensorLayout config st = Return (displayValidationResults r)
  /\ displayValidationResults r
     = (if List.length (errors r) =? 0 then [Success]
        else ErrorList (errors r)
             :: (if 0 <? List.length (warnings r) then [WarningList (warnings r)] else []))
  /\ displayValidationResults r <> [].
Proof.
  intros H.
  assert (Hv : isValid r = (List.length (errors r) =? 0)).
  { unfold validateLayout in H.
    destruct (lookup_requirements config) as [[req|]|e] eqn:L; [| |discriminate].
    - injection H as <-. destruct (resolved_categories _ _ L) as (Hreq & _ & _).
      now destruct (run_checks_lists req config (getSensors st) Hreq) as (_ & _ & _ & Hv).
    - now injection H as <-. }
  assert (E : displayValidationResults r
              = (if List.length (errors r) =? 0 then [Success]
                 else ErrorList (errors r)
                      :: (if 0 <? List.length (warnings r)
                          then [WarningList (warnings r)] else []))).
  { unfold displayValidationResults. rewrite Hv.
    destruct (errors r) as [|e es]; [reflexivity|]. cbn [List.length Nat.eqb Nat.ltb Nat.leb].
    now destruct (warnings r). }
  split; [unfold validateSensorLayout; now rewrite H|].
  split; [exact E|]. rewrite E. now destruct (List.length (errors r) =? 0).
Qed.

(** ** The validator reads the plan of a sensor only *)

Lemma plan_Forall2 (l l' : list PlacedSensor) :
  map plan l = map plan l' -> Forall2 (fun a b => plan a = plan b) l l'.
Proof.
  revert l'. induction l as [|a l IH]; intros [|b l']; cbn [map]; try discriminate.
  - constructor.
  - intros [= E1 E2 E3 E]. constructor; [unfold plan; congruence|now apply IH].
Qed.

Lemma same_plan_filter (l l' : list PlacedSensor) (p : PlacedSensor -> bool) :
  Forall2 (fun a b => plan a = plan b) l l' ->
  (forall a b, plan a = plan b -> p a = p b) ->
  Forall2 (fun a b => plan a = plan b) (filter p l) (filter p l').
Proof.
  intros S Hp. induction S as [|a b k k' E S IH]; cbn [filter]; [constructor|].
  rewrite (Hp a b E). destruct (p b); [constructor|]; assumption.
Qed.

Lemma same_plan_length (l l' : list PlacedSensor) :
  Forall2 (fun a b => plan a = plan b) l l' -> List.length l = List.length l'.
Proof. apply Forall2_length. Qed.

Lemma same_plan_map {B : Type} (l l' : list PlacedSensor) (f : PlacedSensor -> B) :
  Forall2 (fun a b => plan a = plan b) l l' ->
  (forall a b, plan a = plan b -> f a = f b) -> map f l = map f l'.
Proof.
  intros S Hf. induction S as [|a b k k' E S IH]; cbn [map]; [reflexivity|].
  now rewrite (Hf a b E), IH.
Qed.

Lemma same_plan_existsb (l l' : list PlacedSensor) (p : PlacedSensor -> bool) :
  Forall2 (fun a b => plan a = plan b) l l' ->
  (forall a b, plan a = plan b -> p a = p b) -> existsb p l = existsb p l'.
Proof.
  intros S Hp. induction S as [|a b k k' E S IH]; cbn [existsb]; [reflexivity|].
  now rewrite (Hp a b E), IH.
Qed.

Lemma same_plan_fold {B : Type} (l l' : list PlacedSensor) (f : B -> PlacedSensor -> B) :
  Forall2 (fun a b => plan a = plan b) l l' ->
  (forall acc a b, plan a = plan b -> f acc a = f acc b) ->
  forall acc, fold_left f l acc = fold_left f l' acc.
Proof.
  intros S Hf. induction S as [|a b k k' E S IH]; intros acc; cbn [fold_left];
    [reflexivity|].
  now rewrite (Hf acc a b E), IH.
Qed.

Lemma plan_fields (a b : PlacedSensor) :
  plan a = plan b ->
  sensor_type a = sensor_type b
  /\ pos_x (position a) = pos_x (position b)
  /\ pos_z (position a) = pos_z (position b).
Proof. unfold plan. intros [= -> -> ->]. repeat split. Qed.

Ltac by_plan :=
  let a := fresh "a" in let b := fresh "b" in let E := fresh "E" in
  let Et := fresh "Et" in let Ex := fresh "Ex" in let Ez := fresh "Ez" in
  intros a b E; destruct (plan_fields a b E) as (Et & Ex & Ez);
  unfold is_wall, outside, radial, near_corner, on_side, side_of,
    near_east, near_west, near_north, near_south;
  rewrite ?Et, ?Ex, ?Ez; reflexivity.

Lemma identifyCriticalPositions_counts (sensors : list PlacedSensor) (length width : num) :
  identifyCriticalPositions sensors length width
  = {| missingMiddle := sides_lacking length width sensors;
       missingCorner := corners_lacking length width sensors |}.
Proof.
  rewrite <- missingMiddle_sides_lacking, <- missingCorner_corners_lacking.
  reflexivity.
Qed.

Lemma same_plan_analyze (l l' : list PlacedSensor) (length width : num) :
  Forall2 (fun a b => plan a = plan b) l l' ->
  analyzeSensorDistribution l length width = analyzeSensorDistribution l' length width.
Proof.
  intros S. unfold analyzeSensorDistribution. apply (same_plan_fold _ _ _ S).
  intros acc a b E. destruct (plan_fields a b E) as (_ & Ex & Ez).
  unfold analyze_step, near_east, near_west, near_north, near_south.
  now rewrite Ex, Ez.
Qed.

Lemma same_plan_critical (l l' : list PlacedSensor) (length width : num) :
  Forall2 (fun a b => plan a = plan b) l l' ->
  identifyCriticalPositions l length width = identifyCriticalPositions l' length width.
Proof.
  intros S. rewrite !identifyCriticalPositions_counts. f_equal.
  - unfold sides_lacking. apply f_equal, filter_ext. intros sd.
    unfold tally, classified.
    assert (L : List.length (filter (on_side length width sd) l)
                = List.length (filter (on_side length width sd) l'))
      by (apply same_plan_length, same_plan_filter; [exact S|by_plan]).
    now rewrite L.
  - unfold corners_lacking. apply f_equal, filter_ext. intros corner.
    unfold hasCornerSensor. apply f_equal.
    apply (same_plan_existsb _ _ _ S). intros a b E.
    destruct (plan_fields a b E) as (_ & Ex & Ez). now rewrite Ex, Ez.
Qed.

Lemma same_plan_checks (l l' : list PlacedSensor) (config : PitConfiguration) :
  Forall2 (fun a b => plan a = plan b) l l' ->
  (forall types r, checkRequiredSensors types l r = checkRequiredSensors types l' r)
  /\ (forall types r, checkRecommendedSensors types l r = checkRecommendedSensors types l' r)
  /\ (forall r, checkSensorLayout config l r = checkSensorLayout config l' r)
  /\ (forall r, checkSensorQuantity config l r = checkSensorQuantity config l' r)
  /\ (forall r, checkMonitoringRange config l r = checkMonitoringRange config l' r).
Proof.
  intros S.
  assert (T : map sensor_type l = map sensor_type l')
    by (apply (same_plan_map _ _ _ S); by_plan).
  assert (W : Forall2 (fun a b => plan a = plan b) (filter is_wall l) (filter is_wall l'))
    by (apply same_plan_filter; [exact S|by_plan]).
  assert (D : Forall2 (fun a b => plan a = plan b)
                (filter (fun s => String.eqb (sensor_type s) "deep-horizontal") l)
                (filter (fun s => String.eqb (sensor_type s) "deep-horizontal") l'))
    by (apply same_plan_filter; [exact S|by_plan]).
  assert (G : Forall2 (fun a b => plan a = plan b)
                (filter (fun s => String.eqb (sensor_type s) "ground-settlement") l)
                (filter (fun s => String.eqb (sensor_type s) "ground-settlement") l'))
    by (apply same_plan_filter; [exact S|by_plan]).
  assert (O : Forall2 (fun a b => plan a = plan b)
                (filter (outside config) l) (filter (outside config) l'))
    by (apply same_plan_filter; [exact S|by_plan]).
  split; [intros types r; unfold checkRequiredSensors; now rewrite T|].
  split; [intros types r; unfold checkRecommendedSensors; now rewrite T|].
  split.
  { intros r. unfold checkSensorLayout, checkWallDisplacementLayout,
      checkDeepHorizontalLayout, checkGroundSettlementLayout, calculateMonitoringRange.
    rewrite (same_plan_length _ _ W), (same_plan_analyze _ _ _ _ W),
      (same_plan_critical _ _ _ _ W), (same_plan_length _ _ D),
      (same_plan_analyze _ _ _ _ D), (same_plan_length _ _ G).
    rewrite (same_plan_map _ _
               (fun sensor =>
                  (radial sensor
                   - Math_max2 (length (dimensions config)) (width (dimensions config))
                     / lit 2)%js) G) by (intros a b E; f_equal; revert a b E; by_plan).
    reflexivity. }
  split.
  { intros r. unfold checkSensorQuantity. now rewrite (same_plan_length _ _ S). }
  intros r. unfold checkMonitoringRange.
  fold (outside config).
  rewrite (same_plan_length _ _ S), (same_plan_length _ _ O),
    (same_plan_map _ _ radial S) by by_plan.
  reflexivity.
Qed.

(** X14: the validator is blind to the depth of a sensor and to its id.
    Two sensor lists that agree, position by position, on the types and on
    the horizontal coordinates x and z get the same outcome, report for
    report: the vertical coordinate that the placement check constrains,
    and the ids that removals renumber, are never read. *)
Theorem validateLayout_reads_the_plan_only (config : PitConfiguration)
    (s1 s2 : list PlacedSensor) :
  map plan s1 = map plan s2 ->
  validateLayout config s1 = validateLayout config s2.
Proof.
  intros H. apply plan_Forall2 in H.
  destruct (same_plan_checks s1 s2 config H) as (H1 & H2 & H3 & H4 & H5).
  unfold validateLayout. destruct (lookup_requirements config) as [[req|]|e];
    [|reflexivity|reflexivity].
  unfold run_checks. rewrite H1.
  destruct (checkRequiredSensors (required req) s2 initial_results) as [r1 v1].
  rewrite H2. destruct (checkRecommendedSensors _ s2 _) as [r2 v2].
  rewrite H3. destruct (checkSensorLayout _ s2 _) as [r3 v3].
  rewrite H4, H5. reflexivity.
Qed.

Lemma analyze_step_corner_middle (length width : num) (d : Distribution) (s : PlacedSensor) :
  corners (analyze_step length width d s)
  = corners d + (if isCorner length width s then 1 else 0)
  /\ middle (analyze_step length width d s)
     = middle d + (if isMiddle length width s then 1 else 0).
Proof.
  unfold analyze_step, isCorner, isMiddle.
  side_cases length width s;
    repeat match goal with |- context [if ?b then incr_corners _ else _] => destruct b end;
    repeat match goal with |- context [if ?b then incr_middle _ else _] => destruct b end;
    cbn; split; lia.
Qed.

Lemma analyzeSensorDistribution_corner_middle (sensors : list PlacedSensor)
    (length width : num) :
  corners (analyzeSensorDistribution sensors length width)
  = List.length (filter (isCorner length width) sensors)
  /\ middle (analyzeSensorDistribution sensors length width)
     = List.length (filter (isMiddle length width) sensors).
Proof.
  unfold analyzeSensorDistribution.
  assert (G : forall d,
             corners (fold_left (analyze_step length width) sensors d)
             = corners d + List.length (filter (isCorner length width) sensors)
             /\ middle (fold_left (analyze_step length width) sensors d)
                = middle d + List.length (filter (isMiddle length width) sensors)).
  { induction sensors as [|a l IH]; intros d; cbn [fold_left filter].
    - cbn. split; lia.
    - destruct (IH (analyze_step length width d a)) as (Hc & Hm).
      destruct (analyze_step_corner_middle length width d a) as (Hc' & Hm').
      rewrite Hc, Hm, Hc', Hm'.
      destruct (isCorner length width a), (isMiddle length width a);
        cbn [List.length]; split; lia. }
  apply G.
Qed.

Lemma settlement_count (sensors : list PlacedSensor) :
  List.length (filter (fun s => String.eqb (sensor_type s) "ground-settlement") sensors)
  = count_of sensors "ground-settlement".
Proof.
  unfold count_of. induction sensors as [|s l IH]; cbn; [reflexivity|].
  destruct (String.eqb_spec (sensor_type s) "ground-settlement");
    destruct (string_dec (sensor_type s) "ground-settlement"); cbn; congruence.
Qed.

Lemma deep_count (sensors : list PlacedSensor) :
  List.length (filter (fun s => String.eqb (sensor_type s) "deep-horizontal") sensors)
  = count_of sensors "deep-horizontal".
Proof.
  unfold count_of. induction sensors as [|s l IH]; cbn; [reflexivity|].
  destruct (String.eqb_spec (sensor_type s) "deep-horizontal");
    destruct (string_dec (sensor_type s) "deep-horizontal"); cbn; congruence.
Qed.

(** X21: the bounds of the deep-horizontal layout check, whatever the
    dimensions.  The check appends at most one warning and touches nothing
    else; with fewer than 4 deep-horizontal sensors the warning is always
    given (recommending 4, or 6 for a long pit), with 6 or more it never
    is. *)
Theorem deep_horizontal_layout_bounds (sensors : list PlacedSensor)
    (length width : num) (results : ValidationReport) (layoutResults : LayoutResults) :
  let n := count_of sensors "deep-horizontal" in
  let r := fst (checkDeepHorizontalLayout sensors length width results layoutResults) in
  errors r = errors results
  /\ suggestions r = suggestions results
  /\ isValid r = isValid results
  /\ (warnings r = warnings results
      \/ warnings r = warnings results ++ [deep_horizontal_warning 4]
      \/ warnings r = warnings results ++ [deep_horizontal_warning 6])
  /\ (n < 4 -> warnings r <> warnings results)
  /\ (6 <= n -> warnings r = warnings results).
Proof.
  cbv zeta. rewrite checkDeepHorizontalLayout_extend.
  unfold deep_warnings, extend. cbn [errors suggestions warnings isValid].
  rewrite deep_count, !app_nil_r.
  assert (Hne : forall (l : list message) m, l ++ [m] <> l).
  { intros l m F. apply (f_equal (@List.length _)) in F.
    rewrite length_app in F. cbn in F. lia. }
  destruct (nltb (lit 50) (Math_max2 length width));
    [destruct (Nat.ltb_spec (count_of sensors "deep-horizontal") 6)
    |destruct (Nat.ltb_spec (count_of sensors "deep-horizontal") 4)];
    rewrite ?app_nil_r; repeat split; auto; try lia;
    try (intros _; apply Hne).
Qed.
End Validator.
(** ** Binary64: the order of the numbers *)

Lemma SFltb_key (a b : spec_float) :
  SFltb a b = true <-> is_number a /\ is_number b /\ key_lt (order_key a) (order_key b).
Proof.
  unfold SFltb, is_number.
  destruct a as [[|]|[|]| |[|] m1 e1], b as [[|]|[|]| |[|] m2 e2];
    cbn -[Z.compare Pos.compare_cont];
    try (split; [discriminate|intros (A & B & C); try congruence; lia]);
    try (split; [intros _; repeat split; try discriminate; lia|reflexivity]).
  all: rewrite Pos.compare_cont_spec; cbn [Pos.switch_Eq].
  all: destruct (Z.compare_spec e1 e2), (Pos.compare_spec m1 m2); cbn;
    (split; [intros X; try discriminate X; repeat split; try discriminate; lia
            |intros (_ & _ & C); try reflexivity; lia]).
Qed.

Lemma SFleb_key (a b : spec_float) :
  SFleb a b = true <-> is_number a /\ is_number b /\ key_le (order_key a) (order_key b).
Proof.
  unfold SFleb, is_number.
  destruct a as [[|]|[|]| |[|] m1 e1], b as [[|]|[|]| |[|] m2 e2];
    cbn -[Z.compare Pos.compare_cont];
    try (split; [discriminate|intros (A & B & C); try congruence; lia]);
    try (split; [intros _; repeat split; try discriminate; lia|reflexivity]).
  all: rewrite Pos.compare_cont_spec; cbn [Pos.switch_Eq].
  all: destruct (Z.compare_spec e1 e2), (Pos.compare_spec m1 m2); cbn;
    (split; [intros X; try discriminate X; repeat split; try discriminate; lia
            |intros (_ & _ & C); try reflexivity; lia]).
Qed.

Lemma key_le_refl k : key_le k k.
Proof. destruct k as ((a, b), c). cbn. lia. Qed.

Lemma key_le_trans k1 k2 k3 : key_le k1 k2 -> key_le k2 k3 -> key_le k1 k3.
Proof. destruct k1 as ((a1, b1), c1), k2 as ((a2, b2), c2), k3 as ((a3, b3), c3). cbn. lia. Qed.

Lemma key_lt_le_trans k1 k2 k3 : key_lt k1 k2 -> key_le k2 k3 -> key_lt k1 k3.
Proof. destruct k1 as ((a1, b1), c1), k2 as ((a2, b2), c2), k3 as ((a3, b3), c3). cbn. lia. Qed.

Lemma key_le_lt_trans k1 k2 k3 : key_le k1 k2 -> key_lt k2 k3 -> key_lt k1 k3.
Proof. destruct k1 as ((a1, b1), c1), k2 as ((a2, b2), c2), k3 as ((a3, b3), c3). cbn. lia. Qed.

Lemma key_total k1 k2 : key_lt k1 k2 \/ key_le k2 k1.
Proof. destruct k1 as ((a1, b1), c1), k2 as ((a2, b2), c2). cbn. lia. Qed.

Lemma key_lt_le k1 k2 : key_lt k1 k2 -> key_le k1 k2.
Proof. destruct k1 as ((a1, b1), c1), k2 as ((a2, b2), c2). cbn. lia. Qed.

Lemma key_lt_not_le k1 k2 : key_lt k1 k2 -> ~ key_le k2 k1.
Proof. destruct k1 as ((a1, b1), c1), k2 as ((a2, b2), c2). cbn. lia. Qed.

(** *** The order of binary64 numbers *)


Lemma number_spec (x : float) : number x <-> is_number (Prim2SF x).
Proof.
  unfold number, PrimFloat.is_nan, is_number. rewrite eqb_spec. unfold SFeqb.
  destruct (Prim2SF x) as [[|]|[|]| |[|] m e]; cbn -[Z.compare Pos.compare_cont];
    try (split; [discriminate|reflexivity]);
    try (split; [intros X; discriminate X|intros X; now elim X]).
  all: rewrite Z.compare_refl, Pos.compare_cont_spec, Pos.compare_refl; cbn;
    split; [discriminate|reflexivity].
Qed.

Lemma flt_spec (x y : float) :
  flt x y <-> number x /\ number y /\ key_lt (order_key (Prim2SF x)) (order_key (Prim2SF y)).
Proof. unfold flt. rewrite ltb_spec, SFltb_key, !number_spec. reflexivity. Qed.

Lemma fle_spec (x y : float) :
  fle x y <-> number x /\ number y /\ key_le (order_key (Prim2SF x)) (order_key (Prim2SF y)).
Proof. unfold fle. rewrite leb_spec, SFleb_key, !number_spec. reflexivity. Qed.

Lemma fle_refl (x : float) : number x -> fle x x.
Proof. intros H. apply fle_spec. repeat split; auto. apply key_le_refl. Qed.

Lemma fle_trans (x y z : float) : fle x y -> fle y z -> fle x z.
Proof.
  rewrite !fle_spec. intros (A & B & C) (_ & D & E). repeat split; auto.
  eapply key_le_trans; eauto.
Qed.

Lemma flt_le_trans (x y z : float) : flt x y -> fle y z -> flt x z.
Proof.
  rewrite !flt_spec, fle_spec. intros (A & B & C) (_ & D & E). repeat split; auto.
  eapply key_lt_le_trans; eauto.
Qed.

Lemma fle_lt_trans (x y z : float) : fle x y -> flt y z -> flt x z.
Proof.
  rewrite !flt_spec, fle_spec. intros (A & B & C) (_ & D & E). repeat split; auto.
  eapply key_le_lt_trans; eauto.
Qed.

Lemma flt_fle (x y : float) : flt x y -> fle x y.
Proof.
  rewrite flt_spec, fle_spec. intros (A & B & C). repeat split; auto. now apply key_lt_le.
Qed.

Lemma flt_number (x y : float) : flt x y -> number x /\ number y.
Proof. rewrite flt_spec. tauto. Qed.

Lemma fle_number (x y : float) : fle x y -> number x /\ number y.
Proof. rewrite fle_spec. tauto. Qed.

Lemma not_flt_fle (x y : float) :
  number x -> number y -> PrimFloat.ltb x y = false -> fle y x.
Proof.
  intros A B C. apply fle_spec. repeat split; auto.
  destruct (key_total (order_key (Prim2SF x)) (order_key (Prim2SF y))) as [H | H]; auto.
  assert (flt x y) by (apply flt_spec; auto). unfold flt in *. congruence.
Qed.

Lemma flt_not_fle (x y : float) : flt x y -> PrimFloat.leb y x = false.
Proof.
  intros H. destruct (PrimFloat.leb y x) eqn:E; auto.
  apply flt_spec in H as (_ & _ & H). apply fle_spec in E as (_ & _ & E).
  now apply key_lt_not_le in H.
Qed.

Lemma nan_ltb_l (x y : float) : PrimFloat.is_nan x = true -> PrimFloat.ltb x y = false.
Proof.
  intros H. destruct (PrimFloat.ltb x y) eqn:E; auto.
  apply flt_number in E as [E _]. unfold number in E. congruence.
Qed.

Lemma nan_ltb_r (x y : float) : PrimFloat.is_nan y = true -> PrimFloat.ltb x y = false.
Proof.
  intros H. destruct (PrimFloat.ltb x y) eqn:E; auto.
  apply flt_number in E as [_ E]. unfold number in E. congruence.
Qed.

(** *** [Math.max] on binary64 *)

Lemma float_max2_number (a b : float) :
  number a -> number b ->
  (float_max2 a b = a \/ float_max2 a b = b)
  /\ fle a (float_max2 a b) /\ fle b (float_max2 a b).
Proof.
  intros A B. unfold float_max2. unfold number in A, B. rewrite A, B. cbn [orb].
  destruct (PrimFloat.ltb a b) eqn:E1.
  - split; [now right|]. split; [now apply flt_fle|now apply fle_refl].
  - destruct (PrimFloat.ltb b a) eqn:E2.
    + split; [now left|]. split; [now apply fle_refl|now apply flt_fle].
    + pose proof (not_flt_fle a b A B E1). pose proof (not_flt_fle b a B A E2).
      destruct (PrimFloat.get_sign a);
        (split; [auto|split; auto using fle_refl]).
Qed.

Lemma float_max2_nan (a b : float) :
  PrimFloat.is_nan a = true \/ PrimFloat.is_nan b = true ->
  PrimFloat.is_nan (float_max2 a b) = true.
Proof.
  intros H. unfold float_max2.
  destruct (PrimFloat.is_nan a), (PrimFloat.is_nan b); cbn [orb];
    try reflexivity.
  destruct H; discriminate.
Qed.

(** [Math.max(a, b) < t] exactly when [a < t] and [b < t], NaN included. *)
Lemma float_max2_ltb (a b t : float) :
  PrimFloat.ltb (float_max2 a b) t = PrimFloat.ltb a t && PrimFloat.ltb b t.
Proof.
  destruct (PrimFloat.is_nan a) eqn:A.
  { rewrite (nan_ltb_l (float_max2 a b)) by (apply float_max2_nan; auto).
    now rewrite (nan_ltb_l a). }
  destruct (PrimFloat.is_nan b) eqn:B.
  { rewrite (nan_ltb_l (float_max2 a b)) by (apply float_max2_nan; auto).
    rewrite (nan_ltb_l b) by assumption. now rewrite andb_false_r. }
  destruct (float_max2_number a b A B) as (M & La & Lb).
  destruct (PrimFloat.ltb (float_max2 a b) t) eqn:E.
  - symmetry. apply andb_true_iff. split.
    + exact (fle_lt_trans _ _ _ La E).
    + exact (fle_lt_trans _ _ _ Lb E).
  - symmetry. apply andb_false_iff.
    destruct M as [M | M]; rewrite M in E; auto.
Qed.

Lemma fold_max_ltb (l : list float) :
  forall a t : float,
    PrimFloat.ltb (fold_left float_max2 l a) t
    = PrimFloat.ltb a t && forallb (fun x => PrimFloat.ltb x t) l.
Proof.
  induction l as [|b l IH]; intros a t; cbn [fold_left forallb].
  - now rewrite andb_true_r.
  - rewrite IH, float_max2_ltb. now rewrite andb_assoc.
Qed.

(** [Math.max(...xs, last) < t] exactly when every argument is below [t]. *)
Lemma Math_max_spread_ltb (xs : list float) (last t : float) :
  (Math_max_spread xs last <? t)%js = forallb (fun x => (x <? t)%js) (xs ++ [last]).
Proof.
  unfold Math_max_spread, Math_max. cbn [nltb Math_max2 float_JSNumber].
  destruct (xs ++ [last]) as [|a rest] eqn:E.
  - destruct xs; discriminate.
  - rewrite fold_max_ltb. reflexivity.
Qed.

Lemma fold_max_number (l : list float) :
  forall a : float,
    number a -> (forall x, In x l -> number x) ->
    number (fold_left float_max2 l a)
    /\ fle a (fold_left float_max2 l a)
    /\ (forall x, In x l -> fle x (fold_left float_max2 l a))
    /\ In (fold_left float_max2 l a) (a :: l).
Proof.
  induction l as [|b l IH]; intros a A L; cbn [fold_left].
  - split; [exact A|]. split; [now apply fle_refl|]. split; [intros x []|now left].
  - assert (B : number b) by (apply L; now left).
    destruct (float_max2_number a b A B) as (M & La & Lb).
    assert (Nm : number (float_max2 a b)) by (destruct M as [-> | ->]; assumption).
    destruct (IH (float_max2 a b) Nm (fun x Hx => L x (or_intror Hx)))
      as (H1 & H2 & H3 & H4).
    split; [exact H1|].
    split; [exact (fle_trans _ _ _ La H2)|].
    split.
    + intros x [<- | Hx]; [exact (fle_trans _ _ _ Lb H2)|now apply H3].
    + destruct H4 as [H4 | H4].
      * rewrite <- H4. destruct M as [-> | ->]; [now left|right; now left].
      * right. now right.
Qed.

(** Without NaN among its arguments, [Math.max(...xs, last)] is one of
    them and bounds them all. *)
Lemma Math_max_spread_number (xs : list float) (last : float) :
  (forall x, In x xs -> number x) -> number last ->
  number (Math_max_spread xs last)
  /\ fle last (Math_max_spread xs last)
  /\ (forall x, In x xs -> fle x (Math_max_spread xs last))
  /\ (Math_max_spread xs last = last \/ In (Math_max_spread xs last) xs).
Proof.
  intros X L. unfold Math_max_spread, Math_max. cbn [Math_max2 float_JSNumber].
  destruct xs as [|a xs]; cbn [app].
  - cbn [fold_left]. split; [exact L|]. split; [now apply fle_refl|].
    split; [intros x []|now left].
  - destruct (fold_max_number (xs ++ [last]) a) as (H1 & H2 & H3 & H4).
    + apply X. now left.
    + intros x Hx. apply in_app_or in Hx as [Hx | [<- | []]]; [|exact L].
      apply X. now right.
    + split; [exact H1|].
      split; [apply H3, in_or_app; right; now left|].
      split.
      * intros x [<- | Hx]; [exact H2|apply H3, in_or_app; now left].
      * destruct H4 as [H4 | H4]; [right; now left|].
        apply in_app_or in H4 as [H4 | [H4 | []]]; [right; now right|now left].
Qed.

(** ** Binary64: rounding *)

Local Open Scope Z_scope.

Lemma pow2_pos (e : Z) : (0 < pow2 e)%R.
Proof. apply powerRZ_lt. lra. Qed.

Lemma pow2_add (a b : Z) : pow2 (a + b) = (pow2 a * pow2 b)%R.
Proof. apply powerRZ_add. lra. Qed.

Lemma pow2_0 : pow2 0 = 1%R.
Proof. reflexivity. Qed.

Lemma pow2_1 : pow2 1 = 2%R.
Proof. unfold pow2. rewrite powerRZ_1. reflexivity. Qed.

Lemma pow2_succ (e : Z) : pow2 (e + 1) = (2 * pow2 e)%R.
Proof. rewrite pow2_add, pow2_1. lra. Qed.

Lemma pow2_nonneg_ge_1 (n : Z) : 0 <= n -> (1 <= pow2 n)%R.
Proof.
  intros H. pattern n. apply natlike_ind; [rewrite pow2_0; lra| |exact H].
  intros x Hx IH. unfold Z.succ. rewrite pow2_succ. lra.
Qed.

Lemma pow2_le (a b : Z) : a <= b -> (pow2 a <= pow2 b)%R.
Proof.
  intros H. replace b with (a + (b - a)) by lia. rewrite pow2_add.
  pose proof (pow2_pos a). pose proof (pow2_nonneg_ge_1 (b - a) ltac:(lia)). nra.
Qed.

Lemma pow2_lt (a b : Z) : a < b -> (pow2 a < pow2 b)%R.
Proof.
  intros H. apply Rlt_le_trans with (pow2 (a + 1)).
  - rewrite pow2_succ. pose proof (pow2_pos a). lra.
  - apply pow2_le. lia.
Qed.

Lemma pow2_lt_inv (a b : Z) : (pow2 a < pow2 b)%R -> a < b.
Proof.
  intros H. destruct (Z_lt_le_dec a b) as [L | L]; [exact L|].
  apply pow2_le in L. lra.
Qed.

Lemma pow2_IZR (n : Z) : 0 <= n -> pow2 n = IZR (2 ^ n).
Proof.
  intros H. pattern n. apply natlike_ind; [reflexivity| |exact H].
  intros x Hx IH. unfold Z.succ. rewrite pow2_succ, IH, Z.pow_add_r by lia.
  rewrite mult_IZR. change (2 ^ 1) with 2. lra.
Qed.

(** The number of binary digits. *)
Lemma digits2_pos_bounds (p : positive) :
  2 ^ (Zpos (digits2_pos p) - 1) <= Zpos p < 2 ^ Zpos (digits2_pos p).
Proof.
  induction p as [p IH|p IH|]; cbn [digits2_pos].
  - rewrite Pos2Z.inj_succ. replace (Z.succ (Zpos (digits2_pos p)) - 1)
      with (Zpos (digits2_pos p) - 1 + 1) by lia.
    unfold Z.succ. rewrite !Z.pow_add_r by lia. change (2 ^ 1) with 2. lia.
  - rewrite Pos2Z.inj_succ. replace (Z.succ (Zpos (digits2_pos p)) - 1)
      with (Zpos (digits2_pos p) - 1 + 1) by lia.
    unfold Z.succ. rewrite !Z.pow_add_r by lia. change (2 ^ 1) with 2. lia.
  - cbn. lia.
Qed.

Lemma Zdigits2_bounds (m : Z) :
  0 < m -> 2 ^ (Zdigits2 m - 1) <= m < 2 ^ Zdigits2 m.
Proof. destruct m as [|p|p]; try lia. intros _. apply digits2_pos_bounds. Qed.

Lemma Zdigits2_pos (m : Z) : 0 < m -> 0 < Zdigits2 m.
Proof. destruct m; cbn; lia. Qed.

Lemma Zdigits2_0 : Zdigits2 0 = 0.
Proof. reflexivity. Qed.

(** A positive integer [m] scaled by [2^e] lies in the binade of
    [Zdigits2 m + e]. *)
Lemma scaled_bounds (m e : Z) :
  0 < m ->
  (pow2 (Zdigits2 m + e - 1) <= IZR m * pow2 e
   /\ IZR (m + 1) * pow2 e <= pow2 (Zdigits2 m + e))%R.
Proof.
  intros H. destruct (Zdigits2_bounds m H) as [L U].
  pose proof (Zdigits2_pos m H) as D. pose proof (pow2_pos e) as P.
  replace (Zdigits2 m + e - 1) with ((Zdigits2 m - 1) + e) by lia.
  rewrite !pow2_add, (pow2_IZR (Zdigits2 m - 1)), (pow2_IZR (Zdigits2 m)) by lia. split.
  - apply Rmult_le_compat_r; [lra|]. now apply IZR_le.
  - apply Rmult_le_compat_r; [lra|]. apply IZR_le. lia.
Qed.

(** The exponent function of binary64. *)
Lemma prec_emax : prec = 53 /\ emax = 1024 /\ emin = -1074.
Proof. repeat split. Qed.

Ltac fexp_lia :=
  pose proof prec_emax; unfold fexp in *; lia.

Lemma fexp_mono (a b : Z) : a <= b -> fexp prec emax a <= fexp prec emax b.
Proof. unfold fexp. lia. Qed.

Lemma fexp_ge_emin (a : Z) : emin <= fexp prec emax a.
Proof. unfold fexp. lia. Qed.

Lemma fexp_cases (a : Z) :
  (fexp prec emax a = emin /\ a - prec <= emin)
  \/ (fexp prec emax a = a - prec /\ emin < a - prec).
Proof. unfold fexp. lia. Qed.

Lemma located_bounds (m : Z) (P : R) (l : location) (x : R) :
  (0 < P)%R -> located m P l x -> (IZR m * P <= x < (IZR m + 1) * P)%R.
Proof. intros HP H. destruct l as [|[| |]]; cbn [located] in H; lra. Qed.

Lemma loc_of_shr_record_of_loc (m : Z) (l : location) :
  loc_of_shr_record (shr_record_of_loc m l) = l
  /\ shr_m (shr_record_of_loc m l) = m.
Proof. destruct l as [|[| |]]; split; reflexivity. Qed.

Lemma IZR_xO (p : positive) : IZR (Zpos p~0) = (2 * IZR (Zpos p))%R.
Proof. rewrite Pos2Z.inj_xO, mult_IZR. reflexivity. Qed.

Lemma IZR_xI (p : positive) : IZR (Zpos p~1) = (2 * IZR (Zpos p) + 1)%R.
Proof. rewrite Pos2Z.inj_xI, plus_IZR, mult_IZR. reflexivity. Qed.

(** One step of the shift: the mantissa loses its last bit, the step
    doubles, the location is kept. *)
Lemma shr_1_located (mrs : shr_record) (P x : R) :
  (0 < P)%R -> 0 <= shr_m mrs ->
  located (shr_m mrs) P (loc_of_shr_record mrs) x ->
  located (shr_m (shr_1 mrs)) (2 * P) (loc_of_shr_record (shr_1 mrs)) x
  /\ 0 <= shr_m (shr_1 mrs).
Proof.
  intros HP Hm H. destruct mrs as [m r s].
  destruct m as [|[p|p|]|p]; cbn [shr_m] in Hm; try lia;
    destruct r, s; cbn [shr_1 shr_m loc_of_shr_record orb located] in *;
    try rewrite (IZR_xO p) in H; try rewrite (IZR_xI p) in H; (split; [lra|lia]).
Qed.

Lemma pow2_xI (p : positive) (P : R) :
  (pow2 (Zpos p~1) * P = pow2 (Zpos p) * (pow2 (Zpos p) * (2 * P)))%R.
Proof.
  rewrite Pos2Z.inj_xI. replace (2 * Zpos p + 1) with (Zpos p + Zpos p + 1) by lia.
  rewrite !pow2_add, pow2_1. lra.
Qed.

Lemma pow2_xO (p : positive) (P : R) :
  (pow2 (Zpos p~0) * P = pow2 (Zpos p) * (pow2 (Zpos p) * P))%R.
Proof.
  rewrite Pos2Z.inj_xO. replace (2 * Zpos p) with (Zpos p + Zpos p) by lia.
  rewrite !pow2_add. lra.
Qed.

(** The shift by [p] bits. *)
Lemma iter_shr_1_located (p : positive) :
  forall (mrs : shr_record) (P x : R),
    (0 < P)%R -> 0 <= shr_m mrs ->
    located (shr_m mrs) P (loc_of_shr_record mrs) x ->
    located (shr_m (iter_pos shr_1 p mrs)) (pow2 (Zpos p) * P)
      (loc_of_shr_record (iter_pos shr_1 p mrs)) x
    /\ 0 <= shr_m (iter_pos shr_1 p mrs).
Proof.
  induction p as [p IH|p IH|]; intros mrs P x HP Hm H; cbn [iter_pos].
  - destruct (shr_1_located mrs P x HP Hm H) as [H1 M1].
    destruct (IH _ (2 * P)%R x ltac:(lra) M1 H1) as [H2 M2].
    pose proof (pow2_pos (Zpos p)) as Pp.
    destruct (IH _ (pow2 (Zpos p) * (2 * P))%R x ltac:(nra) M2 H2) as [H3 M3].
    rewrite pow2_xI. now split.
  - destruct (IH _ P x HP Hm H) as [H2 M2].
    pose proof (pow2_pos (Zpos p)) as Pp.
    destruct (IH _ (pow2 (Zpos p) * P)%R x ltac:(nra) M2 H2) as [H3 M3].
    rewrite pow2_xO. now split.
  - destruct (shr_1_located mrs P x HP Hm H) as [H1 M1].
    rewrite pow2_1. now split.
Qed.

(** The first shift of the rounding: to the exponent [fexp] gives for the
    digits at hand, when that is above the exponent at hand. *)
Lemma shr_fexp_located (m e : Z) (l : location) (x : R) :
  0 <= m -> located m (pow2 e) l x ->
  exists mrs : shr_record,
    shr_fexp prec emax m e l = (mrs, Z.max e (fexp prec emax (Zdigits2 m + e)))
    /\ 0 <= shr_m mrs
    /\ located (shr_m mrs) (pow2 (Z.max e (fexp prec emax (Zdigits2 m + e))))
         (loc_of_shr_record mrs) x.
Proof.
  intros Hm H. unfold shr_fexp, shr.
  destruct (loc_of_shr_record_of_loc m l) as [E1 E2].
  destruct (fexp prec emax (Zdigits2 m + e) - e) as [|p|p] eqn:E.
  - exists (shr_record_of_loc m l). replace (Z.max _ _) with e by lia.
    rewrite E1, E2. auto.
  - destruct (iter_shr_1_located p (shr_record_of_loc m l) (pow2 e) x (pow2_pos e))
      as [H1 M1]; rewrite ?E1, ?E2; auto.
    eexists. replace (Z.max _ _) with (e + Zpos p) by lia.
    split; [reflexivity|]. split; [exact M1|].
    rewrite Z.add_comm, pow2_add. exact H1.
  - exists (shr_record_of_loc m l). replace (Z.max _ _) with e by lia.
    rewrite E1, E2. auto.
Qed.

(** *** Rounding a located value to an integer *)

Lemma grid_lt (a b : Z) (P : R) : (0 < P)%R -> (IZR a * P < IZR b * P)%R -> a < b.
Proof. intros HP H. apply lt_IZR. nra. Qed.

Lemma grid_le (a b : Z) (P : R) : (0 < P)%R -> (IZR a * P <= IZR b * P)%R -> a <= b.
Proof. intros HP H. apply le_IZR. nra. Qed.

Lemma round_nearest_even_range (m : Z) (l : location) :
  m <= round_nearest_even m l <= m + 1.
Proof. destruct l as [|[| |]]; cbn; try destruct (Z.even m); lia. Qed.

(** A multiple of the step above the value is above its rounding. *)
Lemma round_below_grid (m K : Z) (P : R) (l : location) (x : R) :
  (0 < P)%R -> located m P l x -> (x <= IZR K * P)%R ->
  round_nearest_even m l <= K.
Proof.
  intros HP H HK. pose proof (located_bounds m P l x HP H) as [B1 B2].
  assert (m <= K) by (apply (grid_le m K P HP); lra).
  pose proof (round_nearest_even_range m l).
  destruct (Z.eq_dec m K) as [-> | N]; [|lia].
  destruct l as [|[| |]]; cbn [located round_nearest_even] in *; try lia; lra.
Qed.

(** A multiple of the step below the value is below its rounding. *)
Lemma round_above_grid (m K : Z) (P : R) (l : location) (x : R) :
  (0 < P)%R -> located m P l x -> (IZR K * P <= x)%R ->
  K <= round_nearest_even m l.
Proof.
  intros HP H HK. pose proof (located_bounds m P l x HP H) as [B1 B2].
  assert (K < m + 1).
  { apply (grid_lt K (m + 1) P HP). rewrite plus_IZR. lra. }
  pose proof (round_nearest_even_range m l). lia.
Qed.

(** With one step, the rounding is monotone. *)
Lemma round_nearest_even_mono (m1 m2 : Z) (P : R) (l1 l2 : location) (x1 x2 : R) :
  (0 < P)%R -> located m1 P l1 x1 -> located m2 P l2 x2 -> (x1 <= x2)%R ->
  round_nearest_even m1 l1 <= round_nearest_even m2 l2.
Proof.
  intros HP H1 H2 Hx.
  pose proof (located_bounds m1 P l1 x1 HP H1) as [A1 A2].
  pose proof (located_bounds m2 P l2 x2 HP H2) as [B1 B2].
  assert (m1 < m2 + 1).
  { apply (grid_lt m1 (m2 + 1) P HP). rewrite plus_IZR. lra. }
  pose proof (round_nearest_even_range m1 l1).
  pose proof (round_nearest_even_range m2 l2).
  destruct (Z.eq_dec m1 m2) as [-> | N]; [|lia].
  destruct l1 as [|[| |]], l2 as [|[| |]];
    cbn [located round_nearest_even] in *; try destruct (Z.even m2); try lia; lra.
Qed.

(** The rounded mantissa of a located value. *)
Lemma round_mantissa_located (m e : Z) (l : location) (x : R) :
  0 <= m -> located m (pow2 e) l x ->
  let c := Z.max e (fexp prec emax (Zdigits2 m + e)) in
  exists (m' : Z) (l' : location),
    round_mantissa m e l = (round_nearest_even m' l', c)
    /\ 0 <= m' /\ located m' (pow2 c) l' x.
Proof.
  intros Hm H c. destruct (shr_fexp_located m e l x Hm H) as (mrs & E & M & L).
  exists (shr_m mrs), (loc_of_shr_record mrs). unfold round_mantissa. rewrite E.
  auto.
Qed.

(** The binade of a located value with a positive mantissa. *)
Lemma located_binade (m e : Z) (l : location) (x : R) :
  0 < m -> located m (pow2 e) l x ->
  (pow2 (Zdigits2 m + e - 1) <= x < pow2 (Zdigits2 m + e))%R.
Proof.
  intros Hm H. pose proof (located_bounds m (pow2 e) l x (pow2_pos e) H) as [B1 B2].
  destruct (scaled_bounds m e Hm) as [S1 S2]. rewrite plus_IZR in S2. lra.
Qed.

Lemma located_small (e : Z) (l : location) (x : R) :
  located 0 (pow2 e) l x -> (0 <= x < pow2 e)%R.
Proof.
  intros H. pose proof (located_bounds 0 (pow2 e) l x (pow2_pos e) H) as [B1 B2]. lra.
Qed.

(** The exponents of the format are ordered as the values are. *)
Lemma located_exponent_mono (m1 e1 m2 e2 : Z) (l1 l2 : location) (x1 x2 : R) :
  0 <= m1 -> 0 <= m2 ->
  located m1 (pow2 e1) l1 x1 -> located m2 (pow2 e2) l2 x2 ->
  e1 <= fexp prec emax (Zdigits2 m1 + e1) ->
  e2 <= fexp prec emax (Zdigits2 m2 + e2) ->
  (x1 <= x2)%R ->
  fexp prec emax (Zdigits2 m1 + e1) <= fexp prec emax (Zdigits2 m2 + e2).
Proof.
  intros M1 M2 H1 H2 E1 E2 Hx.
  destruct (Z.eq_dec m1 0) as [-> | N1].
  { cbn [Zdigits2 Z.add] in *. fexp_lia. }
  destruct (Z.eq_dec m2 0) as [-> | N2].
  { pose proof (located_binade m1 e1 l1 x1 ltac:(lia) H1) as [B1 _].
    pose proof (located_small e2 l2 x2 H2) as [_ B2].
    assert (Zdigits2 m1 + e1 - 1 < e2) by (apply pow2_lt_inv; lra).
    cbn [Zdigits2 Z.add] in *. fexp_lia. }
  pose proof (located_binade m1 e1 l1 x1 ltac:(lia) H1) as [B1 _].
  pose proof (located_binade m2 e2 l2 x2 ltac:(lia) H2) as [_ B2].
  assert (Zdigits2 m1 + e1 - 1 < Zdigits2 m2 + e2) by (apply pow2_lt_inv; lra).
  apply fexp_mono. lia.
Qed.

Lemma pow2_split (a b : Z) : b <= a -> pow2 a = (IZR (2 ^ (a - b)) * pow2 b)%R.
Proof.
  intros H. replace a with ((a - b) + b) at 1 by lia.
  rewrite pow2_add, pow2_IZR by lia. reflexivity.
Qed.

(** The rounded mantissa and its exponent are monotone in the value. *)
Lemma round_mantissa_mono (m1 e1 m2 e2 : Z) (l1 l2 : location) (x1 x2 : R) :
  0 <= m1 -> 0 <= m2 ->
  located m1 (pow2 e1) l1 x1 -> located m2 (pow2 e2) l2 x2 ->
  e1 <= fexp prec emax (Zdigits2 m1 + e1) ->
  e2 <= fexp prec emax (Zdigits2 m2 + e2) ->
  (x1 <= x2)%R ->
  exists k1 c1 k2 c2 : Z,
    round_mantissa m1 e1 l1 = (k1, c1)
    /\ round_mantissa m2 e2 l2 = (k2, c2)
    /\ 0 <= k1 /\ 0 <= k2
    /\ emin <= c1 /\ c1 <= c2
    /\ (IZR k1 * pow2 c1 <= IZR k2 * pow2 c2)%R.
Proof.
  intros M1 M2 H1 H2 E1 E2 Hx.
  pose proof (located_exponent_mono m1 e1 m2 e2 l1 l2 x1 x2 M1 M2 H1 H2 E1 E2 Hx) as Hc.
  destruct (round_mantissa_located m1 e1 l1 x1 M1 H1) as (m1' & l1' & R1 & M1' & L1).
  destruct (round_mantissa_located m2 e2 l2 x2 M2 H2) as (m2' & l2' & R2 & M2' & L2).
  cbv zeta in R1, R2, L1, L2.
  rewrite Z.max_r in R1, L1 by exact E1. rewrite Z.max_r in R2, L2 by exact E2.
  set (c1 := fexp prec emax (Zdigits2 m1 + e1)) in *.
  set (c2 := fexp prec emax (Zdigits2 m2 + e2)) in *.
  pose proof (round_nearest_even_range m1' l1') as K1.
  pose proof (round_nearest_even_range m2' l2') as K2.
  exists (round_nearest_even m1' l1'), c1, (round_nearest_even m2' l2'), c2.
  split; [exact R1|]. split; [exact R2|].
  split; [lia|]. split; [lia|].
  split; [apply fexp_ge_emin|]. split; [exact Hc|].
  pose proof (pow2_pos c1) as P1. pose proof (pow2_pos c2) as P2.
  destruct (Z.eq_dec c1 c2) as [Ec | Nc].
  - rewrite Ec in *. apply Rmult_le_compat_r; [lra|]. apply IZR_le.
    exact (round_nearest_even_mono m1' m2' (pow2 c2) l1' l2' x1 x2 P2 L1 L2 Hx).
  - assert (Lc : c1 < c2) by lia.
    assert (N2 : m2 <> 0).
    { intros ->. subst c1 c2. cbn [Zdigits2 Z.add] in *. fexp_lia. }
    assert (C2 : c2 = Zdigits2 m2 + e2 - prec).
    { pose proof (fexp_ge_emin (Zdigits2 m1 + e1)). subst c1 c2. fexp_lia. }
    set (b := Zdigits2 m2 + e2 - 1) in *.
    assert (Hb2 : c2 <= b) by (subst b; pose proof prec_emax; lia).
    apply Rle_trans with (pow2 b).
    + (* the rounding of x1 does not pass the binade of x2 *)
      assert (X1 : (x1 <= pow2 b)%R).
      { destruct (Z.eq_dec m1 0) as [-> | N1].
        - pose proof (located_small e1 l1 x1 H1) as [_ B].
          assert (pow2 e1 <= pow2 b)%R by (apply pow2_le; lia). lra.
        - pose proof (located_binade m1 e1 l1 x1 ltac:(lia) H1) as [_ B].
          assert (Zdigits2 m1 + e1 <= b).
          { subst b c1 c2. pose proof (fexp_mono (Zdigits2 m2 + e2) (Zdigits2 m1 + e1)).
            lia. }
          assert (pow2 (Zdigits2 m1 + e1) <= pow2 b)%R by (apply pow2_le; lia). lra. }
      rewrite (pow2_split b c1) in X1 |- * by lia.
      apply Rmult_le_compat_r; [lra|]. apply IZR_le.
      exact (round_below_grid m1' _ (pow2 c1) l1' x1 P1 L1 X1).
    + (* the rounding of x2 stays in its binade *)
      pose proof (located_binade m2 e2 l2 x2 ltac:(lia) H2) as [B _].
      fold b in B.
      rewrite (pow2_split b c2) in B |- * by lia.
      apply Rmult_le_compat_r; [lra|]. apply IZR_le.
      exact (round_above_grid m2' _ (pow2 c2) l2' x2 P2 L2 B).
Qed.

Lemma binary_round_aux_finish (sx : bool) (m e : Z) (l : location) :
  binary_round_aux prec emax sx m e l = finish_round sx (round_mantissa m e l).
Proof.
  unfold binary_round_aux, finish_round, round_mantissa.
  destruct (shr_fexp prec emax m e l) as [mrs c]. reflexivity.
Qed.

(** The end of the rounding keeps the order. *)
Lemma finish_round_mono (k1 c1 k2 c2 : Z) :
  0 <= k1 -> 0 <= k2 -> emin <= c1 -> c1 <= c2 ->
  (IZR k1 * pow2 c1 <= IZR k2 * pow2 c2)%R ->
  SFleb (finish_round false (k1, c1)) (finish_round false (k2, c2)) = true.
Proof.
  intros K1 K2 C1 C12 Hv. unfold finish_round.
  destruct (shr_fexp_located k1 c1 loc_Exact (IZR k1 * pow2 c1) K1 eq_refl)
    as (mrs1 & E1 & M1 & L1).
  destruct (shr_fexp_located k2 c2 loc_Exact (IZR k2 * pow2 c2) K2 eq_refl)
    as (mrs2 & E2 & M2 & L2).
  rewrite E1, E2.
  set (c1' := Z.max c1 (fexp prec emax (Zdigits2 k1 + c1))) in *.
  set (c2' := Z.max c2 (fexp prec emax (Zdigits2 k2 + c2))) in *.
  pose proof (located_bounds _ _ _ _ (pow2_pos c1') L1) as [A1 A2].
  pose proof (located_bounds _ _ _ _ (pow2_pos c2') L2) as [B1 B2].
  pose proof (pow2_pos c1) as P1. pose proof (pow2_pos c2) as P2.
  pose proof (pow2_pos c1') as P1'. pose proof (pow2_pos c2') as P2'.
  (* the exponents are ordered *)
  assert (Hc : c1' <= c2').
  { destruct (Z.eq_dec k1 0) as [-> | N1].
    - subst c1' c2'. cbn [Zdigits2 Z.add]. fexp_lia.
    - assert (0 < IZR k1 * pow2 c1)%R.
      { apply Rmult_lt_0_compat; [|lra]. apply IZR_lt. lia. }
      assert (N2 : 0 < k2).
      { apply (grid_lt 0 k2 (pow2 c2) P2). lra. }
      destruct (scaled_bounds k1 c1 ltac:(lia)) as [S1 _].
      destruct (scaled_bounds k2 c2 N2) as [_ S2]. rewrite plus_IZR in S2.
      assert (Zdigits2 k1 + c1 - 1 < Zdigits2 k2 + c2) by (apply pow2_lt_inv; lra).
      pose proof (fexp_mono (Zdigits2 k1 + c1) (Zdigits2 k2 + c2)).
      subst c1' c2'. lia. }
  (* a positive mantissa on the left gives one on the right *)
  assert (Hpos : 0 < shr_m mrs1 -> 0 < shr_m mrs2).
  { intros Q1.
    assert (V1 : (pow2 c1' <= IZR k1 * pow2 c1)%R).
    { apply Rle_trans with (IZR (shr_m mrs1) * pow2 c1')%R; [|lra].
      assert (1 <= IZR (shr_m mrs1))%R by (apply IZR_le; lia). nra. }
    destruct (Z.eq_dec c1' c2') as [Ec | Nc].
    - rewrite Ec in *.
      assert (1 < shr_m mrs2 + 1); [|lia].
      apply (grid_lt 1 (shr_m mrs2 + 1) (pow2 c2') P2'). rewrite plus_IZR. lra.
    - assert (N2 : 0 < k2).
      { apply (grid_lt 0 k2 (pow2 c2) P2). lra. }
      assert (pow2 c2' <= IZR k2 * pow2 c2)%R.
      { destruct (Z.max_spec c2 (fexp prec emax (Zdigits2 k2 + c2))) as [[Lt E] | [Le E]];
          fold c2' in E.
        - destruct (scaled_bounds k2 c2 N2) as [S1 _].
          assert (c2' <= Zdigits2 k2 + c2 - 1) by (rewrite E; fexp_lia).
          assert (pow2 c2' <= pow2 (Zdigits2 k2 + c2 - 1))%R by (apply pow2_le; lia).
          lra.
        - rewrite E. assert (1 <= IZR k2)%R by (apply IZR_le; lia). nra. }
      assert (1 < shr_m mrs2 + 1); [|lia].
      apply (grid_lt 1 (shr_m mrs2 + 1) (pow2 c2') P2'). rewrite plus_IZR. lra. }
  (* with one exponent the mantissas are ordered *)
  assert (Hm : c1' = c2' -> shr_m mrs1 <= shr_m mrs2).
  { intros Ec. rewrite Ec in *.
    assert (shr_m mrs1 < shr_m mrs2 + 1); [|lia].
    apply (grid_lt _ _ (pow2 c2') P2'). rewrite plus_IZR. lra. }
  apply SFleb_key. unfold is_number.
  destruct (shr_m mrs1) as [|p1|p1] eqn:Q1, (shr_m mrs2) as [|p2|p2] eqn:Q2; try lia;
    repeat match goal with
           | |- context [Z.leb ?a ?b] => destruct (Z.leb_spec a b)
           end;
    cbn [order_key key_le]; (split; [discriminate|]); (split; [discriminate|]);
    try lia.
  all: specialize (Hpos ltac:(lia)); try lia.
  all: destruct (Z.eq_dec c1' c2') as [Ec | Nc]; [specialize (Hm Ec)|]; lia.
Qed.

(** The rounding of the primitive operations is monotone: of two located
    values, given with enough digits, the smaller rounds to the smaller
    number. *)
Lemma binary_round_aux_mono (m1 e1 m2 e2 : Z) (l1 l2 : location) (x1 x2 : R) :
  0 <= m1 -> 0 <= m2 ->
  located m1 (pow2 e1) l1 x1 -> located m2 (pow2 e2) l2 x2 ->
  e1 <= fexp prec emax (Zdigits2 m1 + e1) ->
  e2 <= fexp prec emax (Zdigits2 m2 + e2) ->
  (x1 <= x2)%R ->
  SFleb (binary_round_aux prec emax false m1 e1 l1)
        (binary_round_aux prec emax false m2 e2 l2) = true.
Proof.
  intros M1 M2 H1 H2 E1 E2 Hx.
  destruct (round_mantissa_mono m1 e1 m2 e2 l1 l2 x1 x2 M1 M2 H1 H2 E1 E2 Hx)
    as (k1 & c1 & k2 & c2 & R1 & R2 & K1 & K2 & C1 & C12 & Hv).
  rewrite !binary_round_aux_finish, R1, R2.
  now apply finish_round_mono.
Qed.

(** Zero rounds to zero, so a rounded value that is not negative is a
    number that is not negative. *)
Lemma binary_round_aux_nonneg (m e : Z) (l : location) (x : R) :
  0 <= m -> located m (pow2 e) l x ->
  e <= fexp prec emax (Zdigits2 m + e) ->
  SFleb (S754_zero false) (binary_round_aux prec emax false m e l) = true.
Proof.
  intros M H E.
  change (S754_zero false)
    with (binary_round_aux prec emax false 0 emin loc_Exact).
  apply (binary_round_aux_mono 0 emin m e loc_Exact l 0%R x); auto; try lia.
  - cbn. lra.
  - cbn. lia.
  - pose proof (located_bounds m (pow2 e) l x (pow2_pos e) H) as [B _].
    pose proof (pow2_pos e). assert (0 <= IZR m)%R by (apply IZR_le; lia). nra.
Qed.

(** *** The values of the finite numbers *)

(** The order of two positive finite numbers of the format is the order
    of the reals they denote. *)
Lemma finite_order_value (m1 m2 : positive) (e1 e2 : Z) :
  bounded prec emax m1 e1 = true -> bounded prec emax m2 e2 = true ->
  SFleb (S754_finite false m1 e1) (S754_finite false m2 e2) = true ->
  (IZR (Zpos m1) * pow2 e1 <= IZR (Zpos m2) * pow2 e2)%R.
Proof.
  intros B1 B2 H. apply SFleb_key in H as (_ & _ & H). cbn [order_key key_le] in H.
  unfold bounded, canonical_mantissa in B1, B2.
  apply andb_true_iff in B1 as [C1 _]. apply andb_true_iff in B2 as [C2 _].
  apply Z.eqb_eq in C1, C2.
  pose proof (pow2_pos e1) as P1. pose proof (pow2_pos e2) as P2.
  destruct H as [H | [_ [H | [H1 H2]]]]; [lia| |].
  - (* a smaller exponent *)
    destruct (scaled_bounds (Zpos m1) e1 ltac:(lia)) as [_ U1].
    destruct (scaled_bounds (Zpos m2) e2 ltac:(lia)) as [L2 _].
    cbn [Zdigits2] in U1, L2. rewrite plus_IZR in U1.
    assert (Zpos (digits2_pos m1) + e1 <= Zpos (digits2_pos m2) + e2 - 1) by fexp_lia.
    apply pow2_le in H0. nra.
  - subst e2. apply Rmult_le_compat_r; [lra|]. apply IZR_le. lia.
Qed.

(** *** Division *)

(** The location of a quotient, from the remainder. *)
Lemma new_location_located (d r q : Z) (P x : R) :
  0 < d -> 0 <= r < d -> (0 < P)%R ->
  x = ((IZR q + IZR r / IZR d) * P)%R ->
  located q P (new_location d r) x.
Proof.
  intros Hd Hr HP ->.
  assert (D : (0 < IZR d)%R) by (apply IZR_lt; lia).
  set (f := (IZR r / IZR d)%R).
  assert (Hf : (f * IZR d = IZR r)%R) by (unfold f; field; lra).
  assert (F0 : 0 < r -> (0 < f)%R).
  { intros H. apply IZR_lt in H. apply Rmult_lt_reg_r with (IZR d); lra. }
  assert (F1 : (f < 1)%R).
  { apply Rmult_lt_reg_r with (IZR d); [lra|]. rewrite Hf.
    assert (IZR r < IZR d)%R by (apply IZR_lt; lia). lra. }
  assert (Flt : 2 * r < d -> (f < / 2)%R).
  { intros H. apply IZR_lt in H. rewrite mult_IZR in H.
    apply Rmult_lt_reg_r with (IZR d); lra. }
  assert (Fgt : d < 2 * r -> (/ 2 < f)%R).
  { intros H. apply IZR_lt in H. rewrite mult_IZR in H.
    apply Rmult_lt_reg_r with (IZR d); lra. }
  assert (Feq : 2 * r = d -> (f = / 2)%R).
  { intros H. apply (f_equal IZR) in H. rewrite mult_IZR in H.
    apply Rmult_eq_reg_r with (IZR d); lra. }
  unfold new_location.
  destruct (Z.even d) eqn:Ev.
  - unfold new_location_even. destruct (Z.eqb_spec r 0) as [-> | N].
    + cbn [located]. replace f with 0%R by (unfold f; field; lra). lra.
    + specialize (F0 ltac:(lia)).
      destruct (Z.compare_spec (2 * r) d) as [E | L | G]; cbn [located].
      * rewrite (Feq E). reflexivity.
      * specialize (Flt L). nra.
      * specialize (Fgt G). nra.
  - assert (Od : Z.odd d = true) by (rewrite <- Z.negb_even, Ev; reflexivity).
    apply Z.odd_spec in Od as (k & Ek).
    unfold new_location_odd. destruct (Z.eqb_spec r 0) as [-> | N].
    + cbn [located]. replace f with 0%R by (unfold f; field; lra). lra.
    + specialize (F0 ltac:(lia)).
      destruct (Z.compare_spec (2 * r + 1) d) as [E | L | G]; cbn [located].
      * specialize (Flt ltac:(lia)). nra.
      * specialize (Flt ltac:(lia)). nra.
      * specialize (Fgt ltac:(lia)). nra.
Qed.

(** The quotient that [SFdiv] rounds: located at the exact quotient of the
    two values, with enough digits. *)
Lemma SFdiv_core_located (mx my : positive) (ex ey : Z) :
  exists (q e' : Z) (l : location),
    SFdiv_core_binary prec emax (Zpos mx) ex (Zpos my) ey = (q, e', l)
    /\ 0 <= q
    /\ located q (pow2 e') l
         (IZR (Zpos mx) * pow2 ex / (IZR (Zpos my) * pow2 ey))
    /\ e' <= fexp prec emax (Zdigits2 q + e').
Proof.
  unfold SFdiv_core_binary.
  set (d1 := Zdigits2 (Zpos mx)). set (d2 := Zdigits2 (Zpos my)).
  set (delta := d1 + ex - (d2 + ey)).
  set (e' := Z.min (fexp prec emax delta) (ex - ey)).
  set (s := ex - ey - e').
  assert (Hs : 0 <= s) by (subst s e'; lia).
  set (m' := match s with Zpos _ => Z.shiftl (Zpos mx) s | Z0 => Zpos mx | Zneg _ => 0 end).
  assert (Hm' : m' = Zpos mx * 2 ^ s).
  { subst m'. destruct s as [|p|p] eqn:Es; try lia.
    rewrite Z.shiftl_mul_pow2 by lia. reflexivity. }
  assert (P2 : 0 < 2 ^ s) by (apply Z.pow_pos_nonneg; lia).
  pose proof (Z_div_mod m' (Zpos my) ltac:(lia)) as DM.
  destruct (Z.div_eucl m' (Zpos my)) as [q r] eqn:DE. destruct DM as [DM1 DM2].
  exists q, e', (new_location (Zpos my) r).
  split; [reflexivity|].
  assert (Hq : 0 <= q) by nia.
  split; [exact Hq|].
  split.
  { apply new_location_located; try lia; [apply pow2_pos|].
    assert (Y : (0 < IZR (Zpos my))%R) by (apply IZR_lt; lia).
    pose proof (pow2_pos ey) as Pey.
    replace ex with (s + e' + ey) by (subst s; lia).
    rewrite !pow2_add, (pow2_IZR s Hs).
    apply (f_equal IZR) in DM1. rewrite Hm', plus_IZR, !mult_IZR in DM1.
    field_simplify_eq; [|lra]. rewrite DM1. ring. }
  (* enough digits *)
  destruct (Zdigits2_bounds (Zpos mx) ltac:(lia)) as [L1 U1]. fold d1 in L1, U1.
  destruct (Zdigits2_bounds (Zpos my) ltac:(lia)) as [L2 U2]. fold d2 in L2, U2.
  assert (D1 : 0 < d1) by (apply Zdigits2_pos; lia).
  assert (D2 : 0 < d2) by (apply Zdigits2_pos; lia).
  assert (Lm' : 2 ^ (d1 - 1 + s) <= m').
  { rewrite Hm', Z.pow_add_r by lia. nia. }
  assert (He' : e' <= fexp prec emax delta) by (subst e'; lia).
  destruct (Z.eq_dec q 0) as [-> | Nq].
  - cbn [Zdigits2 Z.add].
    assert (m' < 2 ^ d2) by lia.
    assert (d1 - 1 + s < d2).
    { apply (Z.pow_lt_mono_r_iff 2); lia. }
    assert (delta <= e') by (subst delta s; lia).
    fexp_lia.
  - assert (T : d1 + s - d2 <= Zdigits2 q).
    { pose proof (Zdigits2_pos q ltac:(lia)).
      destruct (Z_le_gt_dec (d1 + s - d2) 0) as [T0 | T0]; [lia|].
      destruct (Zdigits2_bounds q ltac:(lia)) as [_ Uq].
      assert (2 ^ (d1 + s - d2 - 1) <= q).
      { destruct (Z_le_gt_dec (2 ^ (d1 + s - d2 - 1)) q) as [G | G]; [exact G|].
        exfalso.
        assert (X1 : m' < Zpos my * 2 ^ (d1 + s - d2 - 1)) by nia.
        assert (X2 : Zpos my * 2 ^ (d1 + s - d2 - 1) < 2 ^ d2 * 2 ^ (d1 + s - d2 - 1)).
        { apply Z.mul_lt_mono_pos_r; [apply Z.pow_pos_nonneg; lia|lia]. }
        rewrite <- Z.pow_add_r in X2 by lia.
        replace (d2 + (d1 + s - d2 - 1)) with (d1 - 1 + s) in X2 by lia. lia. }
      assert (d1 + s - d2 - 1 < Zdigits2 q).
      { apply (Z.pow_lt_mono_r_iff 2); lia. }
      lia. }
    pose proof (fexp_mono delta (Zdigits2 q + e') ltac:(subst delta s; lia)). lia.
Qed.

Lemma finite_value_pos (m : positive) (e : Z) : (0 < IZR (Zpos m) * pow2 e)%R.
Proof.
  apply Rmult_lt_0_compat; [apply IZR_lt; lia|apply pow2_pos].
Qed.

(** The quotient of two positive finite numbers is monotone in the exact
    quotient of their values. *)
Lemma SFdiv_finite_mono (mx1 my1 mx2 my2 : positive) (ex1 ey1 ex2 ey2 : Z) :
  (IZR (Zpos mx1) * pow2 ex1 / (IZR (Zpos my1) * pow2 ey1)
   <= IZR (Zpos mx2) * pow2 ex2 / (IZR (Zpos my2) * pow2 ey2))%R ->
  SFleb (SF64div (S754_finite false mx1 ex1) (S754_finite false my1 ey1))
        (SF64div (S754_finite false mx2 ex2) (S754_finite false my2 ey2)) = true.
Proof.
  intros H. unfold SF64div, SFdiv.
  destruct (SFdiv_core_located mx1 my1 ex1 ey1) as (q1 & c1 & l1 & E1 & Q1 & L1 & D1).
  destruct (SFdiv_core_located mx2 my2 ex2 ey2) as (q2 & c2 & l2 & E2 & Q2 & L2 & D2).
  rewrite E1, E2. cbn [xorb].
  eapply binary_round_aux_mono; eauto.
Qed.

Lemma SFdiv_finite_nonneg (mx my : positive) (ex ey : Z) :
  SFleb (S754_zero false)
        (SF64div (S754_finite false mx ex) (S754_finite false my ey)) = true.
Proof.
  unfold SF64div, SFdiv.
  destruct (SFdiv_core_located mx my ex ey) as (q & c & l & E & Q & L & D).
  rewrite E. cbn [xorb]. eapply binary_round_aux_nonneg; eauto.
Qed.

(** The numbers from zero up, short of infinity, and the positive ones. *)
Lemma SF_nonneg_finite (N : spec_float) :
  SFleb (S754_zero false) N = true -> SFltb N (S754_infinity false) = true ->
  (exists s, N = S754_zero s) \/ (exists m e, N = S754_finite false m e).
Proof.
  destruct N as [s|[|]| |[|] m e]; cbn; try discriminate; eauto.
Qed.

Lemma SF_positive (P : spec_float) :
  SFltb (S754_zero false) P = true ->
  P = S754_infinity false \/ (exists m e, P = S754_finite false m e).
Proof.
  destruct P as [s|[|]| |[|] m e]; cbn; try discriminate; eauto.
Qed.

(** Division by a positive number: the larger the divisor, the smaller
    the quotient of a number that is not negative. *)
Lemma SFdiv_antitone (N P1 P2 : spec_float) :
  valid_binary P1 = true -> valid_binary P2 = true ->
  SFleb (S754_zero false) N = true -> SFltb N (S754_infinity false) = true ->
  SFltb (S754_zero false) P1 = true -> SFleb P1 P2 = true ->
  SFleb (SF64div N P2) (SF64div N P1) = true.
Proof.
  intros V1 V2 N0 Ni P0 P12.
  destruct (SF_positive P1 P0) as [-> | (m1 & e1 & ->)].
  { destruct P2 as [s|[|]| |[|] m e]; cbn in P12; try discriminate.
    destruct (SF_nonneg_finite N N0 Ni) as [(s & ->) | (m & e & ->)]; reflexivity. }
  assert (P2pos : SFltb (S754_zero false) P2 = true).
  { destruct P2 as [s|[|]| |[|] m e]; cbn in P12 |- *; try discriminate; reflexivity. }
  destruct (SF_positive P2 P2pos) as [-> | (m2 & e2 & ->)];
    destruct (SF_nonneg_finite N N0 Ni) as [(s & ->) | (m & e & ->)];
    try reflexivity.
  - (* a finite number by infinity, and by a finite number *)
    change (SF64div (S754_finite false m e) (S754_infinity false)) with (S754_zero false).
    apply SFdiv_finite_nonneg.
  - apply SFdiv_finite_mono.
    cbn [valid_binary] in V1, V2.
    pose proof (finite_order_value m1 m2 e1 e2 V1 V2 P12) as Hv.
    pose proof (finite_value_pos m e). pose proof (finite_value_pos m1 e1).
    pose proof (finite_value_pos m2 e2).
    apply Rmult_le_compat_l; [lra|]. apply Rinv_le_contravar; lra.
Qed.

(** Division by a positive number is monotone in the dividend. *)
Lemma SFdiv_monotone (N1 N2 P : spec_float) :
  valid_binary N1 = true -> valid_binary N2 = true ->
  SFleb (S754_zero false) N1 = true -> SFleb N1 N2 = true ->
  SFltb N2 (S754_infinity false) = true ->
  SFltb (S754_zero false) P = true ->
  SFleb (SF64div N1 P) (SF64div N2 P) = true.
Proof.
  intros V1 V2 N0 N12 Ni P0.
  assert (N1i : SFltb N1 (S754_infinity false) = true).
  { destruct N1 as [s|[|]| |[|] m e], N2 as [s'|[|]| |[|] m' e'];
      cbn in N12, Ni, N0 |- *; try discriminate; reflexivity. }
  assert (N20 : SFleb (S754_zero false) N2 = true).
  { destruct N1 as [s|[|]| |[|] m e], N2 as [s'|[|]| |[|] m' e'];
      cbn in N12, Ni, N0 |- *; try discriminate; reflexivity. }
  destruct (SF_nonneg_finite N1 N0 N1i) as [(s1 & ->) | (m1 & e1 & ->)];
    destruct (SF_nonneg_finite N2 N20 Ni) as [(s2 & ->) | (m2 & e2 & ->)];
    destruct (SF_positive P P0) as [-> | (m & e & ->)];
    try reflexivity; try (cbn in N12; discriminate).
  - change (SF64div (S754_zero s1) (S754_finite false m e))
      with (S754_zero (xorb s1 false)).
    pose proof (SFdiv_finite_nonneg m2 m e2 e) as H.
    destruct (SF64div (S754_finite false m2 e2) (S754_finite false m e))
      as [s|[|]| |[|] m' e']; cbn in H |- *; try discriminate; reflexivity.
  - apply SFdiv_finite_mono.
    cbn [valid_binary] in V1, V2.
    pose proof (finite_order_value m1 m2 e1 e2 V1 V2 N12) as Hv.
    pose proof (finite_value_pos m e).
    apply Rmult_le_compat_r; [|exact Hv].
    apply Rlt_le, Rinv_0_lt_compat. lra.
Qed.

(** *** The primitive division *)

Lemma Prim2SF_zero : Prim2SF PrimFloat.zero = S754_zero false.
Proof. reflexivity. Qed.

Lemma Prim2SF_infinity : Prim2SF PrimFloat.infinity = S754_infinity false.
Proof. reflexivity. Qed.

(** In binary64, for a dividend from 0 up, short of infinity, and positive
    divisors, the rounded quotient does not grow with the divisor. *)
Lemma div_antitone (n p1 p2 : float) :
  fle PrimFloat.zero n -> flt n PrimFloat.infinity ->
  flt PrimFloat.zero p1 -> fle p1 p2 ->
  fle (n / p2) (n / p1).
Proof.
  unfold fle, flt. rewrite !leb_spec, !ltb_spec, !div_spec.
  rewrite Prim2SF_zero, Prim2SF_infinity.
  apply SFdiv_antitone; apply Prim2SF_valid.
Qed.

(** And it does not shrink when the dividend grows. *)
Lemma div_monotone (n1 n2 p : float) :
  fle PrimFloat.zero n1 -> fle n1 n2 -> flt n2 PrimFloat.infinity ->
  flt PrimFloat.zero p ->
  fle (n1 / p) (n2 / p).
Proof.
  unfold fle, flt. rewrite !leb_spec, !ltb_spec, !div_spec.
  rewrite Prim2SF_zero, Prim2SF_infinity.
  apply SFdiv_monotone; apply Prim2SF_valid.
Qed.

(** *** Integers as binary64 numbers *)

Lemma iter_xO_value (m d : positive) :
  Zpos (Pos.iter xO m d) = Zpos m * 2 ^ Zpos d.
Proof.
  induction d as [|d IH] using Pos.peano_ind.
  - cbn [Pos.iter]. change (2 ^ 1) with 2. lia.
  - rewrite Pos.iter_succ, Pos2Z.inj_xO, IH, Pos2Z.inj_succ, Z.pow_succ_r by lia. lia.
Qed.

Lemma iter_xO_digits (m d : positive) :
  Zpos (digits2_pos (Pos.iter xO m d)) = Zpos (digits2_pos m) + Zpos d.
Proof.
  induction d as [|d IH] using Pos.peano_ind.
  - cbn [Pos.iter digits2_pos]. lia.
  - rewrite Pos.iter_succ. cbn [digits2_pos]. rewrite Pos2Z.inj_succ, IH. lia.
Qed.

(** The alignment that [binary_round] makes before it rounds keeps the
    value and gives the rounding enough digits. *)
Lemma shl_align_fexp (m : positive) (e : Z) :
  exists (mz : positive) (ez : Z),
    shl_align m e (fexp prec emax (Zpos (digits2_pos m) + e)) = (mz, ez)
    /\ (IZR (Zpos mz) * pow2 ez = IZR (Zpos m) * pow2 e)%R
    /\ ez <= fexp prec emax (Zdigits2 (Zpos mz) + ez).
Proof.
  unfold shl_align.
  destruct (fexp prec emax (Zpos (digits2_pos m) + e) - e) as [|d|d] eqn:E.
  - exists m, e. split; [reflexivity|]. split; [reflexivity|]. cbn [Zdigits2]. lia.
  - exists m, e. split; [reflexivity|]. split; [reflexivity|]. cbn [Zdigits2]. lia.
  - eexists _, _. split; [reflexivity|]. split.
    + rewrite iter_xO_value, mult_IZR, <- pow2_IZR by lia.
      replace e with (Zpos d + fexp prec emax (Zpos (digits2_pos m) + e)) at 2 by lia.
      rewrite pow2_add. ring.
    + cbn [Zdigits2]. rewrite iter_xO_digits.
      replace (Zpos (digits2_pos m) + Zpos d + fexp prec emax (Zpos (digits2_pos m) + e))
        with (Zpos (digits2_pos m) + e) by lia.
      lia.
Qed.

(** The double of an integer that is not negative: monotone, and never
    negative. *)
Lemma binary_normalize_mono (z1 z2 : Z) :
  0 <= z1 -> z1 <= z2 ->
  SFleb (binary_normalize prec emax z1 0 false)
        (binary_normalize prec emax z2 0 false) = true.
Proof.
  intros H1 H12.
  assert (R : forall p : positive,
             exists mz ez,
               binary_normalize prec emax (Zpos p) 0 false
               = binary_round_aux prec emax false (Zpos mz) ez loc_Exact
               /\ located (Zpos mz) (pow2 ez) loc_Exact (IZR (Zpos p))
               /\ ez <= fexp prec emax (Zdigits2 (Zpos mz) + ez)).
  { intros p. destruct (shl_align_fexp p 0) as (mz & ez & E & V & D).
    exists mz, ez. cbn [binary_normalize]. unfold binary_round. rewrite E.
    split; [reflexivity|]. split; [|exact D].
    cbn [located]. rewrite V, pow2_0. ring. }
  destruct z1 as [|p1|p1], z2 as [|p2|p2]; try lia.
  - reflexivity.
  - destruct (R p2) as (mz & ez & -> & L & D). cbn [binary_normalize].
    exact (binary_round_aux_nonneg _ _ _ _ (Pos2Z.is_nonneg mz) L D).
  - destruct (R p1) as (mz1 & ez1 & -> & L1 & D1).
    destruct (R p2) as (mz2 & ez2 & -> & L2 & D2).
    apply (binary_round_aux_mono _ _ _ _ _ _ _ _ (Pos2Z.is_nonneg mz1)
             (Pos2Z.is_nonneg mz2) L1 L2 D1 D2).
    apply IZR_le. lia.
Qed.

Lemma Prim2SF_float_of_Z (z : Z) :
  0 <= z ->
  Prim2SF (float_of_Z z) = binary_normalize prec emax (z mod Uint63.wB) 0 false.
Proof.
  intros H. destruct z as [|p|p]; try lia.
  - reflexivity.
  - cbn [float_of_Z]. rewrite of_uint63_spec, Uint63.of_Z_spec. reflexivity.
Qed.

Lemma float_of_Z_mono (z1 z2 : Z) :
  0 <= z1 -> z1 <= z2 -> z2 < Uint63.wB ->
  fle (float_of_Z z1) (float_of_Z z2).
Proof.
  intros H1 H12 H2. unfold fle. rewrite leb_spec, !Prim2SF_float_of_Z by lia.
  rewrite !Z.mod_small by lia. now apply binary_normalize_mono.
Qed.

(** A count as a number: from 0 up, and short of infinity. *)
Lemma of_nat_number (k : nat) :
  fle PrimFloat.zero (of_nat k) /\ flt (of_nat k) PrimFloat.infinity.
Proof.
  change (of_nat k) with (float_of_Z (Z.of_nat k) / float_of_Z 1)%float.
  set (F := float_of_Z (Z.of_nat k)).
  set (C := float_of_Z (Uint63.wB - 1)).
  assert (F0 : fle PrimFloat.zero F).
  { unfold fle, F. rewrite leb_spec, Prim2SF_float_of_Z by lia.
    change (Prim2SF PrimFloat.zero) with (binary_normalize prec emax 0 0 false).
    apply binary_normalize_mono; [lia|].
    apply Z.mod_pos_bound. reflexivity. }
  assert (FC : fle F C).
  { unfold fle, F, C. rewrite leb_spec, !Prim2SF_float_of_Z by (try lia; discriminate).
    apply binary_normalize_mono.
    - apply Z.mod_pos_bound. reflexivity.
    - rewrite (Z.mod_small (Uint63.wB - 1)) by (split; [discriminate|reflexivity]).
      pose proof (Z.mod_pos_bound (Z.of_nat k) Uint63.wB eq_refl). lia. }
  assert (Ci : flt C PrimFloat.infinity) by (vm_compute; reflexivity).
  assert (O : flt PrimFloat.zero (float_of_Z 1)) by (vm_compute; reflexivity).
  split.
  - apply fle_trans with (PrimFloat.zero / float_of_Z 1)%float.
    + vm_compute. reflexivity.
    + apply div_monotone; auto. eapply fle_lt_trans; eauto.
  - apply fle_lt_trans with (C / float_of_Z 1)%float.
    + apply div_monotone; auto.
    + vm_compute. reflexivity.
Qed.

(** Counts below 2^63 keep their order as numbers. *)
Lemma of_nat_mono (a b : nat) :
  (a <= b)%nat -> Z.of_nat b < Uint63.wB ->
  fle (of_nat a) (of_nat b).
Proof.
  intros H Hb.
  change (of_nat a) with (float_of_Z (Z.of_nat a) / float_of_Z 1)%float.
  change (of_nat b) with (float_of_Z (Z.of_nat b) / float_of_Z 1)%float.
  assert (A0 : fle PrimFloat.zero (float_of_Z (Z.of_nat a))).
  { change PrimFloat.zero with (float_of_Z 0). apply float_of_Z_mono; lia. }
  assert (AB : fle (float_of_Z (Z.of_nat a)) (float_of_Z (Z.of_nat b)))
    by (apply float_of_Z_mono; lia).
  assert (BC : fle (float_of_Z (Z.of_nat b)) (float_of_Z (Uint63.wB - 1))).
  { apply float_of_Z_mono; lia. }
  apply div_monotone; auto.
  - eapply fle_lt_trans; [exact BC|]. vm_compute. reflexivity.
  - vm_compute. reflexivity.
Qed.

Local Close Scope Z_scope.

Local Open Scope Z_scope.

(** *** Signs, and numbers that round to themselves *)

Lemma binary_round_aux_opp (m e : Z) (l : location) :
  binary_round_aux prec emax true m e l
  = SFopp (binary_round_aux prec emax false m e l).
Proof.
  unfold binary_round_aux.
  destruct (shr_fexp prec emax m e l) as [mrs c].
  destruct (shr_fexp prec emax _ c loc_Exact) as [mrs' c'].
  destruct (shr_m mrs') as [|p|p]; try reflexivity.
  destruct (c' <=? emax - prec); reflexivity.
Qed.

Lemma bounded_canonical (m : positive) (e : Z) :
  bounded prec emax m e = true ->
  fexp prec emax (Zpos (digits2_pos m) + e) = e /\ e <= emax - prec.
Proof.
  unfold bounded, canonical_mantissa. intros H.
  apply andb_true_iff in H as [C B]. apply Z.eqb_eq in C. apply Z.leb_le in B. auto.
Qed.

(** A number of the format rounds to itself. *)
Lemma binary_round_aux_exact (m : positive) (e : Z) :
  bounded prec emax m e = true ->
  binary_round_aux prec emax false (Zpos m) e loc_Exact = S754_finite false m e.
Proof.
  intros B. destruct (bounded_canonical m e B) as [C L].
  unfold binary_round_aux, shr_fexp. cbn [Zdigits2 shr_record_of_loc].
  rewrite C, Z.sub_diag. cbn [shr shr_m loc_of_shr_record round_nearest_even Zdigits2].
  rewrite C, Z.sub_diag. cbn [shr shr_m].
  apply Z.leb_le in L. rewrite L. reflexivity.
Qed.

Lemma finite_located (m : positive) (e : Z) :
  bounded prec emax m e = true ->
  located (Zpos m) (pow2 e) loc_Exact (IZR (Zpos m) * pow2 e)
  /\ e <= fexp prec emax (Zdigits2 (Zpos m) + e).
Proof.
  intros B. destruct (bounded_canonical m e B) as [C L].
  split; [reflexivity|]. cbn [Zdigits2]. lia.
Qed.

(** *** Multiplication *)

Lemma digits2_pos_mul (m1 m2 : positive) :
  Zpos (digits2_pos m1) + Zpos (digits2_pos m2) - 1 <= Zpos (digits2_pos (m1 * m2)).
Proof.
  destruct (digits2_pos_bounds m1) as [L1 _].
  destruct (digits2_pos_bounds m2) as [L2 _].
  destruct (digits2_pos_bounds (m1 * m2)) as [_ U].
  assert (2 ^ (Zpos (digits2_pos m1) - 1 + (Zpos (digits2_pos m2) - 1))
          < 2 ^ Zpos (digits2_pos (m1 * m2))).
  { rewrite Z.pow_add_r by lia. rewrite Pos2Z.inj_mul in U.
    assert (0 < 2 ^ (Zpos (digits2_pos m1) - 1)) by (apply Z.pow_pos_nonneg; lia).
    assert (0 < 2 ^ (Zpos (digits2_pos m2) - 1)) by (apply Z.pow_pos_nonneg; lia).
    nia. }
  apply Z.pow_lt_mono_r_iff in H; lia.
Qed.

(** The product of two numbers of the format has enough digits for the
    rounding. *)
Lemma mul_enough_digits (m1 m2 : positive) (e1 e2 : Z) :
  bounded prec emax m1 e1 = true -> bounded prec emax m2 e2 = true ->
  e1 + e2 <= fexp prec emax (Zdigits2 (Zpos (m1 * m2)) + (e1 + e2)).
Proof.
  intros B1 B2.
  destruct (bounded_canonical m1 e1 B1) as [C1 _].
  destruct (bounded_canonical m2 e2 B2) as [C2 _].
  pose proof (digits2_pos_mul m1 m2). cbn [Zdigits2].
  pose proof (Pos2Z.is_pos (digits2_pos m1)). pose proof (Pos2Z.is_pos (digits2_pos m2)).
  fexp_lia.
Qed.

(** The product of two positive finite numbers is monotone in the exact
    product of their values. *)
Lemma SFmul_finite_mono (mx1 my1 mx2 my2 : positive) (ex1 ey1 ex2 ey2 : Z) (s1 s2 : bool) :
  bounded prec emax mx1 ex1 = true -> bounded prec emax my1 ey1 = true ->
  bounded prec emax mx2 ex2 = true -> bounded prec emax my2 ey2 = true ->
  (IZR (Zpos mx1) * pow2 ex1 * (IZR (Zpos my1) * pow2 ey1)
   <= IZR (Zpos mx2) * pow2 ex2 * (IZR (Zpos my2) * pow2 ey2))%R ->
  SFleb (SF64mul (S754_finite s1 mx1 ex1) (S754_finite s1 my1 ey1))
        (SF64mul (S754_finite s2 mx2 ex2) (S754_finite s2 my2 ey2)) = true.
Proof.
  intros Bx1 By1 Bx2 By2 H. unfold SF64mul, SFmul.
  replace (xorb s1 s1) with false by (destruct s1; reflexivity).
  replace (xorb s2 s2) with false by (destruct s2; reflexivity).
  apply (binary_round_aux_mono _ _ _ _ _ _
           (IZR (Zpos mx1) * pow2 ex1 * (IZR (Zpos my1) * pow2 ey1))
           (IZR (Zpos mx2) * pow2 ex2 * (IZR (Zpos my2) * pow2 ey2)));
    try lia; try (apply mul_enough_digits; assumption); try exact H.
  - cbn [located]. rewrite Pos2Z.inj_mul, mult_IZR, pow2_add. ring.
  - cbn [located]. rewrite Pos2Z.inj_mul, mult_IZR, pow2_add. ring.
Qed.

Lemma SFmul_finite_nonneg (mx my : positive) (ex ey : Z) (s : bool) :
  bounded prec emax mx ex = true -> bounded prec emax my ey = true ->
  SFleb (S754_zero false)
        (SF64mul (S754_finite s mx ex) (S754_finite s my ey)) = true.
Proof.
  intros Bx By. unfold SF64mul, SFmul.
  replace (xorb s s) with false by (destruct s; reflexivity).
  apply (binary_round_aux_nonneg _ _ _
           (IZR (Zpos mx) * pow2 ex * (IZR (Zpos my) * pow2 ey))); try lia.
  - cbn [located]. rewrite Pos2Z.inj_mul, mult_IZR, pow2_add. ring.
  - apply mul_enough_digits; assumption.
Qed.

(** Every number is at most the positive infinity, and a number from
    zero up is a number. *)
Lemma SFleb_infinity (X : spec_float) :
  X <> S754_nan -> SFleb X (S754_infinity false) = true.
Proof. destruct X as [s|[|]| |[|] m e]; cbn; congruence. Qed.

Lemma SFleb_zero_number (X : spec_float) :
  SFleb (S754_zero false) X = true -> X <> S754_nan.
Proof. destruct X; cbn; congruence. Qed.

Lemma SFleb_zero_sign (s : bool) (X : spec_float) :
  SFleb (S754_zero s) X = SFleb (S754_zero false) X.
Proof. destruct X as [s'|[|]| |[|] m e]; reflexivity. Qed.

(** The square is monotone in the absolute value. *)
Lemma SFsq_mono (A B : spec_float) :
  valid_binary A = true -> valid_binary B = true ->
  SFleb (SFabs A) (SFabs B) = true ->
  SFleb (SF64mul A A) (SF64mul B B) = true.
Proof.
  intros VA VB H.
  destruct A as [sa|sa| |sa ma ea], B as [sb|sb| |sb mb eb];
    cbn [SFabs] in H; try (cbn in H; discriminate H).
  - destruct sa, sb; reflexivity.
  - destruct sa, sb; reflexivity.
  - unfold SF64mul at 1. cbn [SFmul]. rewrite SFleb_zero_sign.
    apply SFmul_finite_nonneg; assumption.
  - destruct sa, sb; reflexivity.
  - unfold SF64mul at 2. cbn [SFmul].
    replace (xorb sb sb) with false by (destruct sb; reflexivity).
    apply SFleb_infinity. apply SFleb_zero_number.
    apply SFmul_finite_nonneg; assumption.
  - cbn [valid_binary] in VA, VB.
    apply SFmul_finite_mono; try assumption.
    pose proof (finite_order_value ma mb ea eb VA VB H) as Hv.
    pose proof (finite_value_pos ma ea). pose proof (finite_value_pos mb eb). nra.
Qed.

(** *** Addition of numbers that are not negative *)

Lemma shl_align_value (m : positive) (e ez : Z) :
  ez <= e ->
  (IZR (Zpos (fst (shl_align m e ez))) * pow2 ez = IZR (Zpos m) * pow2 e)%R.
Proof.
  intros H. unfold shl_align. destruct (ez - e) as [|d|d] eqn:E; cbn [fst]; try lia.
  - replace ez with e by lia. reflexivity.
  - rewrite iter_xO_value, mult_IZR, <- pow2_IZR by lia.
    replace e with (Zpos d + ez) by lia. rewrite pow2_add. ring.
Qed.

(** The rounding of a positive integer mantissa. *)
Lemma binary_round_located (p : positive) (e : Z) :
  exists (mz : positive) (ez : Z),
    binary_round prec emax false p e
    = binary_round_aux prec emax false (Zpos mz) ez loc_Exact
    /\ located (Zpos mz) (pow2 ez) loc_Exact (IZR (Zpos p) * pow2 e)
    /\ ez <= fexp prec emax (Zdigits2 (Zpos mz) + ez).
Proof.
  destruct (shl_align_fexp p e) as (mz & ez & E & V & D).
  exists mz, ez. unfold binary_round. rewrite E.
  split; [reflexivity|]. split; [|exact D]. cbn [located]. now rewrite V.
Qed.

(** The sum of two positive finite numbers, as a rounding of the exact
    sum. *)
Lemma SFadd_finite_located (mx my : positive) (ex ey : Z) :
  exists (mz : positive) (ez : Z),
    SF64add (S754_finite false mx ex) (S754_finite false my ey)
    = binary_round_aux prec emax false (Zpos mz) ez loc_Exact
    /\ located (Zpos mz) (pow2 ez) loc_Exact
         (IZR (Zpos mx) * pow2 ex + IZR (Zpos my) * pow2 ey)
    /\ ez <= fexp prec emax (Zdigits2 (Zpos mz) + ez).
Proof.
  unfold SF64add, SFadd. cbn [cond_Zopp].
  set (e0 := Z.min ex ey).
  pose proof (shl_align_value mx ex e0 ltac:(subst e0; lia)) as Vx.
  pose proof (shl_align_value my ey e0 ltac:(subst e0; lia)) as Vy.
  set (ax := fst (shl_align mx ex e0)) in *. set (ay := fst (shl_align my ey e0)) in *.
  change (Zpos ax + Zpos ay) with (Zpos (ax + ay)). cbn [binary_normalize].
  destruct (binary_round_located (ax + ay) e0) as (mz & ez & E & L & D).
  exists mz, ez. split; [exact E|]. split; [|exact D].
  cbn [located] in L |- *. rewrite <- L, Pos2Z.inj_add, plus_IZR, <- Vx, <- Vy. ring.
Qed.

Lemma SFadd_finite_nonneg (mx my : positive) (ex ey : Z) :
  SFleb (S754_zero false)
        (SF64add (S754_finite false mx ex) (S754_finite false my ey)) = true.
Proof.
  destruct (SFadd_finite_located mx my ex ey) as (mz & ez & -> & L & D).
  exact (binary_round_aux_nonneg _ _ _ _ (Pos2Z.is_nonneg mz) L D).
Qed.

(** The sum of numbers from zero up is monotone in both. *)
Lemma SFadd_nonneg_mono (A1 A2 B1 B2 : spec_float) :
  valid_binary A1 = true -> valid_binary A2 = true ->
  valid_binary B1 = true -> valid_binary B2 = true ->
  SFleb (S754_zero false) A1 = true -> SFleb A1 A2 = true ->
  SFleb (S754_zero false) B1 = true -> SFleb B1 B2 = true ->
  SFleb (SF64add A1 B1) (SF64add A2 B2) = true.
Proof.
  intros VA1 VA2 VB1 VB2 A0 A12 B0 B12.
  destruct A1 as [sa1|[|]| |[|] ma1 ea1]; try (cbn in A0; discriminate A0);
    destruct A2 as [sa2|[|]| |[|] ma2 ea2]; try (cbn in A12; discriminate A12);
    destruct B1 as [sb1|[|]| |[|] mb1 eb1]; try (cbn in B0; discriminate B0);
    destruct B2 as [sb2|[|]| |[|] mb2 eb2]; try (cbn in B12; discriminate B12);
    cbn [valid_binary] in *;
    try (destruct sa1, sb1; reflexivity);
    try (destruct sa1, sa2, sb1, sb2; reflexivity);
    try exact A12; try exact B12.
  all: try (apply SFleb_infinity; apply SFleb_zero_number;
            first [apply SFadd_finite_nonneg | reflexivity]).
  - (* 0 + 0 against a2 + b2 *)
    assert (Z : exists s, SF64add (S754_zero sa1) (S754_zero sb1) = S754_zero s)
      by (destruct sa1, sb1; eexists; reflexivity).
    destruct Z as (s & ->). rewrite SFleb_zero_sign. apply SFadd_finite_nonneg.
  - (* 0 + b1 against a2 + b2 *)
    destruct (SFadd_finite_located ma2 mb2 ea2 eb2) as (mz & ez & -> & L & D).
    change (SF64add (S754_zero sa1) (S754_finite false mb1 eb1))
      with (S754_finite false mb1 eb1).
    rewrite <- (binary_round_aux_exact mb1 eb1 VB1).
    destruct (finite_located mb1 eb1 VB1) as [L1 D1].
    apply (binary_round_aux_mono _ _ _ _ _ _ _ _ (Pos2Z.is_nonneg mb1)
             (Pos2Z.is_nonneg mz) L1 L D1 D).
    pose proof (finite_order_value mb1 mb2 eb1 eb2 VB1 VB2 B12).
    pose proof (finite_value_pos ma2 ea2). lra.
  - (* a1 + 0 against a2 + b2 *)
    destruct (SFadd_finite_located ma2 mb2 ea2 eb2) as (mz & ez & -> & L & D).
    change (SF64add (S754_finite false ma1 ea1) (S754_zero sb1))
      with (S754_finite false ma1 ea1).
    rewrite <- (binary_round_aux_exact ma1 ea1 VA1).
    destruct (finite_located ma1 ea1 VA1) as [L1 D1].
    apply (binary_round_aux_mono _ _ _ _ _ _ _ _ (Pos2Z.is_nonneg ma1)
             (Pos2Z.is_nonneg mz) L1 L D1 D).
    pose proof (finite_order_value ma1 ma2 ea1 ea2 VA1 VA2 A12).
    pose proof (finite_value_pos mb2 eb2). lra.
  - destruct (SFadd_finite_located ma2 mb2 ea2 eb2) as (mz & ez & -> & L & D).
    destruct (SFadd_finite_located ma1 mb1 ea1 eb1) as (mz' & ez' & -> & L' & D').
    apply (binary_round_aux_mono _ _ _ _ _ _ _ _ (Pos2Z.is_nonneg mz')
             (Pos2Z.is_nonneg mz) L' L D' D).
    pose proof (finite_order_value ma1 ma2 ea1 ea2 VA1 VA2 A12).
    pose proof (finite_order_value mb1 mb2 eb1 eb2 VB1 VB2 B12). lra.
Qed.

(** *** Square root *)

Lemma div2_half (a : Z) : Z.div2 a = a / 2.
Proof. rewrite Z.div2_spec, Z.shiftr_div_pow2 by lia. reflexivity. Qed.

(** The location of a square root, from the remainder. *)
Lemma sqrt_located (n q r : Z) (P : R) :
  (0 < P)%R -> 0 <= q -> n = q * q + r -> 0 <= r <= 2 * q ->
  located q P
    (if r =? 0 then loc_Exact else loc_Inexact (if r <=? q then Lt else Gt))
    (R_sqrt.sqrt (IZR n) * P).
Proof.
  intros HP Hq Hn Hr.
  assert (N0 : (0 <= IZR n)%R) by (apply IZR_le; nia).
  pose proof (sqrt_sqrt (IZR n) N0) as SS. pose proof (sqrt_pos (IZR n)) as S0.
  set (S := R_sqrt.sqrt (IZR n)) in *.
  assert (Q0 : (0 <= IZR q)%R) by (apply IZR_le; lia).
  assert (En : (IZR n = IZR q * IZR q + IZR r)%R)
    by (rewrite Hn, plus_IZR, mult_IZR; reflexivity).
  assert (R0 : (0 <= IZR r)%R) by (apply IZR_le; lia).
  destruct (Z.eqb_spec r 0) as [-> | N].
  - cbn [located]. assert (S = IZR q) by nra. subst S. rewrite H. reflexivity.
  - assert (R1 : (1 <= IZR r)%R) by (apply IZR_le; lia).
    destruct (Z.leb_spec r q) as [L | G]; cbn [located].
    + assert (IZR r <= IZR q)%R by (apply IZR_le; lia).
      assert (IZR q < S)%R by nra.
      assert (S < IZR q + / 2)%R by nra.
      split; nra.
    + assert (IZR q + 1 <= IZR r)%R by (rewrite <- plus_IZR; apply IZR_le; lia).
      assert (IZR r <= 2 * IZR q)%R by (rewrite <- mult_IZR; apply IZR_le; lia).
      assert (IZR q + / 2 < S)%R by nra.
      assert (S < IZR q + 1)%R by nra.
      split; nra.
Qed.

(** The root that [SFsqrt] rounds: located at the square root of the
    value, with enough digits. *)
Lemma SFsqrt_core_located (m : positive) (e : Z) :
  exists (q e' : Z) (l : location),
    SFsqrt_core_binary prec emax (Zpos m) e = (q, e', l)
    /\ 0 <= q
    /\ located q (pow2 e') l (R_sqrt.sqrt (IZR (Zpos m) * pow2 e))
    /\ e' <= fexp prec emax (Zdigits2 q + e').
Proof.
  unfold SFsqrt_core_binary.
  set (d := Zdigits2 (Zpos m)).
  set (e' := Z.min (fexp prec emax (Z.div2 (d + e + 1))) (Z.div2 e)).
  set (s := e - 2 * e').
  assert (He2 : 2 * Z.div2 e <= e) by (rewrite div2_half; apply Z.mul_div_le; lia).
  assert (Hs : 0 <= s) by (subst s e'; lia).
  set (m' := match s with Zpos _ => Z.shiftl (Zpos m) s | Z0 => Zpos m | Zneg _ => 0 end).
  assert (Hm' : m' = Zpos m * 2 ^ s).
  { subst m'. destruct s as [|p|p] eqn:Es; try lia.
    rewrite Z.shiftl_mul_pow2 by lia. reflexivity. }
  assert (P2 : 0 < 2 ^ s) by (apply Z.pow_pos_nonneg; lia).
  pose proof (Z.sqrtrem_spec m' ltac:(nia)) as SR.
  destruct (Z.sqrtrem m') as [q r] eqn:DE. destruct SR as [SR1 SR2].
  assert (Hq : 0 <= q) by lia.
  exists q, e'. eexists. split; [reflexivity|]. split; [exact Hq|].
  split.
  { replace (IZR (Zpos m) * pow2 e)%R with (IZR m' * (pow2 e' * pow2 e'))%R.
    - pose proof (pow2_pos e') as Pe.
      rewrite sqrt_mult_alt by (apply IZR_le; nia).
      rewrite sqrt_square by lra.
      apply sqrt_located; auto.
    - rewrite Hm', mult_IZR, <- pow2_IZR, <- !pow2_add by lia.
      rewrite Rmult_assoc, <- pow2_add. f_equal. f_equal. subst s. lia. }
  (* enough digits *)
  destruct (Zdigits2_bounds (Zpos m) ltac:(lia)) as [L1 _]. fold d in L1.
  assert (D1 : 0 < d) by (apply Zdigits2_pos; lia).
  set (k := (d + s - 1) / 2).
  assert (K0 : 0 <= k) by (subst k; apply Z.div_pos; lia).
  assert (Lk : 2 ^ k * 2 ^ k <= m').
  { rewrite <- Z.pow_add_r by lia. rewrite Hm'.
    apply Z.le_trans with (2 ^ (d - 1) * 2 ^ s); [|nia].
    rewrite <- Z.pow_add_r by lia. apply Z.pow_le_mono_r; [lia|].
    subst k. pose proof (Z.mul_div_le (d + s - 1) 2 ltac:(lia)). lia. }
  assert (Qk : 2 ^ k <= q).
  { destruct (Z_le_gt_dec (2 ^ k) q) as [G | G]; [exact G|]. exfalso.
    assert (0 < 2 ^ k) by (apply Z.pow_pos_nonneg; lia). nia. }
  assert (Dq : k < Zdigits2 q).
  { assert (0 < q) by (pose proof (Z.pow_pos_nonneg 2 k ltac:(lia) K0); lia).
    destruct (Zdigits2_bounds q H) as [_ Uq].
    apply (Z.pow_lt_mono_r_iff 2); [lia|pose proof (Zdigits2_pos q H); lia|lia]. }
  assert (He' : e' <= fexp prec emax (Z.div2 (d + e + 1))) by (subst e'; lia).
  assert (Z.div2 (d + e + 1) <= Zdigits2 q + e').
  { rewrite div2_half. subst k s.
    replace (d + e + 1) with ((d + (e - 2 * e') - 1) + 2 + e' * 2) by lia.
    rewrite Z.div_add by lia.
    replace (d + (e - 2 * e') - 1 + 2) with ((d + (e - 2 * e') - 1) + 1 * 2) by lia.
    rewrite Z.div_add by lia. lia. }
  pose proof (fexp_mono _ _ H). lia.
Qed.

(** The square root of a positive finite number is monotone in the
    value, and not negative. *)
Lemma SFsqrt_finite_mono (m1 m2 : positive) (e1 e2 : Z) :
  (IZR (Zpos m1) * pow2 e1 <= IZR (Zpos m2) * pow2 e2)%R ->
  SFleb (SF64sqrt (S754_finite false m1 e1)) (SF64sqrt (S754_finite false m2 e2)) = true.
Proof.
  intros H. unfold SF64sqrt, SFsqrt.
  destruct (SFsqrt_core_located m1 e1) as (q1 & c1 & l1 & E1 & Q1 & L1 & D1).
  destruct (SFsqrt_core_located m2 e2) as (q2 & c2 & l2 & E2 & Q2 & L2 & D2).
  rewrite E1, E2.
  apply (binary_round_aux_mono _ _ _ _ _ _ _ _ Q1 Q2 L1 L2 D1 D2).
  now apply sqrt_le_1_alt.
Qed.

Lemma SFsqrt_finite_nonneg (m : positive) (e : Z) :
  SFleb (S754_zero false) (SF64sqrt (S754_finite false m e)) = true.
Proof.
  unfold SF64sqrt, SFsqrt.
  destruct (SFsqrt_core_located m e) as (q & c & l & E & Q & L & D).
  rewrite E. exact (binary_round_aux_nonneg _ _ _ _ Q L D).
Qed.

(** The square root is monotone on the numbers from zero up. *)
Lemma SFsqrt_mono (A B : spec_float) :
  valid_binary A = true -> valid_binary B = true ->
  SFleb (S754_zero false) A = true -> SFleb A B = true ->
  SFleb (SF64sqrt A) (SF64sqrt B) = true.
Proof.
  intros VA VB A0 AB.
  destruct A as [sa|[|]| |[|] ma ea]; try (cbn in A0; discriminate A0);
    destruct B as [sb|[|]| |[|] mb eb]; try (cbn in AB; discriminate AB);
    try reflexivity.
  - unfold SF64sqrt at 1. cbn [SFsqrt]. rewrite SFleb_zero_sign.
    apply SFsqrt_finite_nonneg.
  - apply SFleb_infinity, SFleb_zero_number, SFsqrt_finite_nonneg.
  - cbn [valid_binary] in VA, VB. apply SFsqrt_finite_mono.
    exact (finite_order_value ma mb ea eb VA VB AB).
Qed.

Local Close Scope Z_scope.

(** *** Primitive operations on the numbers from zero up *)

Lemma abs_number (a : float) : number (PrimFloat.abs a) <-> number a.
Proof.
  rewrite !number_spec, abs_spec. unfold is_number.
  destruct (Prim2SF a); cbn; split; congruence.
Qed.

Lemma abs_nonneg (a : float) : number a -> fle PrimFloat.zero (PrimFloat.abs a).
Proof.
  intros H. apply number_spec in H. unfold fle, is_number in *.
  rewrite leb_spec, abs_spec, Prim2SF_zero.
  destruct (Prim2SF a) as [s|s| |s m e]; cbn; congruence.
Qed.

Lemma abs_of_nonneg (a : float) :
  fle PrimFloat.zero a -> fle a (PrimFloat.abs a) /\ fle (PrimFloat.abs a) a.
Proof.
  unfold fle. rewrite !leb_spec, abs_spec, Prim2SF_zero.
  destruct (Prim2SF a) as [s|[|]| |[|] m e]; cbn; try discriminate; auto.
  intros _. rewrite Z.compare_refl, Pos.compare_cont_refl. auto.
Qed.

(** The square is monotone in the absolute value. *)
Lemma sq_le (a b : float) :
  fle (PrimFloat.abs a) (PrimFloat.abs b) -> fle (a * a) (b * b).
Proof.
  unfold fle. rewrite !leb_spec, !mul_spec, !abs_spec.
  apply SFsq_mono; apply Prim2SF_valid.
Qed.

Lemma sq_nonneg (a : float) : number a -> fle PrimFloat.zero (a * a).
Proof.
  intros H. change PrimFloat.zero with (PrimFloat.zero * PrimFloat.zero)%float.
  apply sq_le. change (PrimFloat.abs PrimFloat.zero) with PrimFloat.zero.
  now apply abs_nonneg.
Qed.

(** The sum of numbers from zero up is monotone in both. *)
Lemma add_le (a1 a2 b1 b2 : float) :
  fle PrimFloat.zero a1 -> fle a1 a2 -> fle PrimFloat.zero b1 -> fle b1 b2 ->
  fle (a1 + b1) (a2 + b2).
Proof.
  unfold fle. rewrite !leb_spec, !add_spec, Prim2SF_zero.
  apply SFadd_nonneg_mono; apply Prim2SF_valid.
Qed.

(** The square root is monotone on the numbers from zero up. *)
Lemma sqrt_le (a b : float) :
  fle PrimFloat.zero a -> fle a b -> fle (PrimFloat.sqrt a) (PrimFloat.sqrt b).
Proof.
  unfold fle. rewrite !leb_spec, !sqrt_spec, Prim2SF_zero.
  apply SFsqrt_mono; apply Prim2SF_valid.
Qed.

(** The distance [Math.sqrt(dx ** 2 + dz ** 2)] is monotone in the
    absolute values of the two differences. *)
Lemma distance_le (dx dz bx bz : float) :
  fle (PrimFloat.abs dx) (PrimFloat.abs bx) ->
  fle (PrimFloat.abs dz) (PrimFloat.abs bz) ->
  fle (PrimFloat.sqrt (dx * dx + dz * dz)) (PrimFloat.sqrt (bx * bx + bz * bz)).
Proof.
  intros Hx Hz.
  assert (Nx : number dx) by (apply abs_number; apply (fle_number _ _ Hx)).
  assert (Nz : number dz) by (apply abs_number; apply (fle_number _ _ Hz)).
  pose proof (sq_nonneg dx Nx) as X0. pose proof (sq_nonneg dz Nz) as Z0.
  apply sqrt_le.
  - apply fle_trans with (PrimFloat.zero + PrimFloat.zero)%float; [vm_compute; reflexivity|].
    apply add_le; auto; vm_compute; reflexivity.
  - apply add_le; auto; now apply sq_le.
Qed.

(** *** Opposites *)

Lemma SFopp_involutive (x : spec_float) : SFopp (SFopp x) = x.
Proof. destruct x as [s|s| |s m e]; cbn; rewrite ?negb_involutive; reflexivity. Qed.

Lemma binary_round_aux_negb (s : bool) (m e : Z) (l : location) :
  binary_round_aux prec emax (negb s) m e l
  = SFopp (binary_round_aux prec emax s m e l).
Proof.
  destruct s; cbn [negb].
  - now rewrite (binary_round_aux_opp m e l), SFopp_involutive.
  - apply binary_round_aux_opp.
Qed.

(** The quotient of the opposite is the opposite of the quotient. *)
Lemma SFdiv_opp (L T : spec_float) :
  SF64div (SFopp L) T = SFopp (SF64div L T).
Proof.
  destruct L as [s|s| |s m e], T as [s'|s'| |s' m' e']; cbn [SFopp SF64div SFdiv];
    try reflexivity;
    try (destruct s, s'; reflexivity).
  destruct (SFdiv_core_binary prec emax (Zpos m) e (Zpos m') e') as [[q c] l].
  rewrite <- binary_round_aux_negb. f_equal. destruct s, s'; reflexivity.
Qed.

(** Subtracting the opposite is adding. *)
Lemma SFsub_opp (X H : spec_float) :
  SF64sub X (SFopp H) = SF64add X H.
Proof.
  destruct X as [s|s| |s m e], H as [s'|s'| |s' m' e']; cbn [SFopp SF64sub SFsub SF64add SFadd];
    try reflexivity;
    try (destruct s, s'; reflexivity);
    try (rewrite negb_involutive; reflexivity).
Qed.

Lemma neg_half (l t : float) : ((- l) / t = - (l / t))%float.
Proof.
  apply Prim2SF_inj. rewrite opp_spec, !div_spec, opp_spec. apply SFdiv_opp.
Qed.

Lemma sub_neg (x h : float) : (x - (- h) = x + h)%float.
Proof.
  apply Prim2SF_inj. rewrite sub_spec, opp_spec, add_spec. apply SFsub_opp.
Qed.

(** *** NaN is absorbing *)

Lemma mul_number (a b : float) : number (a * b) -> number a /\ number b.
Proof.
  rewrite !number_spec, mul_spec. unfold is_number.
  destruct (Prim2SF a), (Prim2SF b); cbn; split; congruence.
Qed.

Lemma add_number (a b : float) : number (a + b) -> number a /\ number b.
Proof.
  rewrite !number_spec, add_spec. unfold is_number.
  destruct (Prim2SF a), (Prim2SF b); cbn; split; congruence.
Qed.

Lemma sub_number (a b : float) : number (a - b) -> number a /\ number b.
Proof.
  rewrite !number_spec, sub_spec. unfold is_number.
  destruct (Prim2SF a), (Prim2SF b); cbn; split; congruence.
Qed.

Lemma sqrt_number (a : float) : number (PrimFloat.sqrt a) -> number a.
Proof.
  rewrite !number_spec, sqrt_spec. unfold is_number.
  destruct (Prim2SF a); cbn; congruence.
Qed.

Lemma fle_ltb_false (x y : float) : fle y x -> PrimFloat.ltb x y = false.
Proof.
  intros H. destruct (PrimFloat.ltb x y) eqn:E; auto.
  apply flt_not_fle in E. unfold fle in H. congruence.
Qed.

(** A number is at least zero, or its opposite is. *)
Lemma sign_cases (x : float) :
  number x -> fle PrimFloat.zero x \/ fle PrimFloat.zero (- x).
Proof.
  rewrite number_spec. unfold fle, is_number.
  rewrite !leb_spec, opp_spec, Prim2SF_zero.
  destruct (Prim2SF x) as [s|[|]| |[|] m e]; cbn; auto; congruence.
Qed.

(** *** The difference and the sum of the opposite *)

Lemma SFabs_opp (x : spec_float) : SFabs (SFopp x) = SFabs x.
Proof. destruct x; reflexivity. Qed.

Lemma SFabs_binary_normalize_opp (z e : Z) :
  SFabs (binary_normalize prec emax (- z) e false)
  = SFabs (binary_normalize prec emax z e false).
Proof.
  destruct z as [|p|p]; cbn [Z.opp binary_normalize]; [reflexivity| |];
    unfold binary_round; destruct (shl_align p e _) as [mz ez];
    rewrite binary_round_aux_opp, SFabs_opp; reflexivity.
Qed.

Lemma SFabs_sub_opp (X H : spec_float) :
  SFabs (SF64sub X H) = SFabs (SF64add (SFopp X) H).
Proof.
  destruct X as [s|s| |s m e], H as [s'|s'| |s' m' e'];
    cbn [SFopp SF64sub SFsub SF64add SFadd];
    try reflexivity;
    try (destruct s, s'; reflexivity).
  rewrite <- SFabs_binary_normalize_opp. do 2 f_equal.
  destruct s, s'; cbn [negb cond_Zopp]; lia.
Qed.

Lemma abs_sub_opp (x h : float) :
  PrimFloat.abs (x - h) = PrimFloat.abs ((- x) + h).
Proof.
  apply Prim2SF_inj. rewrite !abs_spec, sub_spec, add_spec, opp_spec.
  apply SFabs_sub_opp.
Qed.

(** *** The reach of a corner *)

(** A sensor within 5 of a point is within 5 of it in x and in z. *)
Lemma within_5_box (dx dz : float) :
  flt (PrimFloat.sqrt (dx * dx + dz * dz)) 5 ->
  flt (PrimFloat.abs dx) 5 /\ flt (PrimFloat.abs dz) 5.
Proof.
  intros H.
  assert (N : number dx /\ number dz).
  { destruct (flt_number _ _ H) as [N _]. apply sqrt_number, add_number in N.
    destruct N as [Nx Nz]. apply mul_number in Nx, Nz. tauto. }
  destruct N as [Nx Nz].
  assert (F : forall a b : float, number a -> number b ->
              flt (PrimFloat.sqrt (a * a + b * b)) 5 -> flt (PrimFloat.abs a) 5).
  { intros a b Na Nb Hab.
    destruct (PrimFloat.ltb (PrimFloat.abs a) 5) eqn:E; [exact E|exfalso].
    apply not_flt_fle in E; [|now apply abs_number|reflexivity].
    assert (D : fle (PrimFloat.sqrt (5 * 5 + 0 * 0)) (PrimFloat.sqrt (a * a + b * b))).
    { apply distance_le; [exact E|]. now apply abs_nonneg. }
    apply flt_not_fle in Hab. unfold fle in D.
    change (PrimFloat.sqrt (5 * 5 + 0 * 0)) with 5%float in D. congruence. }
  split; [exact (F dx dz Nx Nz H)|].
  apply (F dz dx Nz Nx).
  replace (dz * dz + dx * dx)%float with (dx * dx + dz * dz)%float; [exact H|].
  apply Prim2SF_inj. rewrite !add_spec.
  destruct (Prim2SF (dx * dx)) as [s|s| |s m e], (Prim2SF (dz * dz)) as [s'|s'| |s' m' e'];
    cbn [SF64add SFadd]; try reflexivity; try (destruct s, s'; reflexivity).
  now rewrite Z.min_comm, Z.add_comm.
Qed.

(** No number is within 5 both of [h] and of [- h] when [h] is at least 5. *)
Lemma opposite_edges_apart (x h : float) :
  fle 5 h ->
  flt (PrimFloat.abs (x - h)) 5 -> flt (PrimFloat.abs (x + h)) 5 -> False.
Proof.
  intros Hh A B.
  assert (Nx : number x).
  { destruct (flt_number _ _ A) as [N _]. apply abs_number, sub_number in N. tauto. }
  assert (G : forall y : float, fle PrimFloat.zero y ->
              flt (PrimFloat.abs (y + h)) 5 -> False).
  { intros y Hy C.
    assert (S : fle (0 + 5) (y + h)) by (apply add_le; auto; reflexivity).
    change (0 + 5)%float with 5%float in S.
    assert (P : fle PrimFloat.zero (y + h))
      by (apply fle_trans with 5%float; [reflexivity|exact S]).
    destruct (abs_of_nonneg _ P) as [P1 _].
    pose proof (fle_trans _ _ _ S P1) as Q.
    apply flt_not_fle in C. unfold fle in Q. congruence. }
  destruct (sign_cases x Nx) as [Hx | Hx].
  - exact (G x Hx B).
  - rewrite abs_sub_opp in A. exact (G (- x)%float Hx A).
Qed.

Lemma fle_infinity (x : float) : fle PrimFloat.infinity x -> x = PrimFloat.infinity.
Proof.
  unfold fle. rewrite leb_spec, Prim2SF_infinity. intros H.
  apply Prim2SF_inj. rewrite Prim2SF_infinity.
  destruct (Prim2SF x) as [s|[|]| |[|] m e]; cbn in H; congruence.
Qed.

(** Half of a dimension of at least 10 is at least 5. *)
Lemma half_at_least_5 (l : float) : fle 10 l -> fle 5 (l / 2).
Proof.
  intros H.
  destruct (PrimFloat.ltb l PrimFloat.infinity) eqn:E.
  - change 5%float with (10 / 2)%float.
    apply div_monotone; [reflexivity|exact H|exact E|reflexivity].
  - apply not_flt_fle in E; [|apply (fle_number _ _ H)|reflexivity].
    apply fle_infinity in E. subst l. reflexivity.
Qed.

Local Open Scope Z_scope.

(** *** Numbers of the format round to themselves *)

Lemma SFleb_antisym_finite (m : positive) (e : Z) (r : spec_float) :
  SFleb r (S754_finite false m e) = true ->
  SFleb (S754_finite false m e) r = true ->
  r = S754_finite false m e.
Proof.
  destruct r as [s|[|]| |[|] m' e']; cbn; try discriminate.
  change (Pos.compare_cont Eq m' m) with (Pos.compare m' m).
  change (Pos.compare_cont Eq m m') with (Pos.compare m m').
  rewrite (Z.compare_antisym e' e), (Pos.compare_antisym m' m).
  destruct (Z.compare_spec e' e) as [E|E|E]; cbn [CompOpp]; try discriminate.
  destruct (Pos.compare_spec m' m) as [M|M|M]; cbn [CompOpp]; try discriminate.
  now subst.
Qed.

(** A rounding whose exact value is a number of the format gives that
    number. *)
Lemma binary_round_aux_value (mz ez : Z) (lz : location) (m : positive) (e : Z) :
  0 <= mz -> located mz (pow2 ez) lz (IZR (Zpos m) * pow2 e) ->
  ez <= fexp prec emax (Zdigits2 mz + ez) ->
  bounded prec emax m e = true ->
  binary_round_aux prec emax false mz ez lz = S754_finite false m e.
Proof.
  intros Hz L D B.
  destruct (finite_located m e B) as [L1 D1].
  apply SFleb_antisym_finite; rewrite <- (binary_round_aux_exact m e B) at 1.
  - apply (binary_round_aux_mono _ _ _ _ _ _ _ _ Hz (Pos2Z.is_nonneg m) L L1 D D1).
    apply Rle_refl.
  - apply (binary_round_aux_mono _ _ _ _ _ _ _ _ (Pos2Z.is_nonneg m) Hz L1 L D1 D).
    apply Rle_refl.
Qed.

(** *** Halves and quarters are exact *)

Lemma bounded_shift (m : positive) (e k : Z) :
  bounded prec emax m e = true -> 0 <= k -> emin <= e - k ->
  bounded prec emax m (e - k) = true.
Proof.
  intros B Hk He. destruct (bounded_canonical m e B) as [C L].
  unfold bounded, canonical_mantissa. apply andb_true_iff. split.
  - apply Z.eqb_eq. fexp_lia.
  - apply Z.leb_le. lia.
Qed.

(** Dividing by [2 ^ k], written as a double, lowers the exponent by [k]
    as long as the result is not below the smallest exponent. *)
Lemma SFdiv_pow2 (m : positive) (e k : Z) :
  bounded prec emax m e = true -> 0 <= k -> emin <= e - k ->
  SF64div (S754_finite false m e) (S754_finite false 4503599627370496 (k - 52))
  = S754_finite false m (e - k).
Proof.
  intros B Hk He. unfold SF64div, SFdiv.
  destruct (SFdiv_core_located m 4503599627370496 e (k - 52)) as (q & e' & l & -> & Hq & L & D).
  cbn [xorb].
  apply (binary_round_aux_value q e' l m (e - k) Hq); [|exact D|now apply bounded_shift].
  replace (IZR (Zpos m) * pow2 (e - k))%R
    with (IZR (Zpos m) * pow2 e / (IZR 4503599627370496 * pow2 (k - 52)))%R; [exact L|].
  change 4503599627370496 with (2 ^ 52). rewrite <- pow2_IZR by lia.
  rewrite <- pow2_add. replace (52 + (k - 52)) with k by lia.
  replace e with ((e - k) + k) at 1 by lia. rewrite pow2_add.
  pose proof (pow2_pos k). field. lra.
Qed.

(** *** A difference bounded from below *)

Lemma binary_round_opp (p : positive) (e : Z) :
  binary_round prec emax true p e = SFopp (binary_round prec emax false p e).
Proof.
  unfold binary_round. destruct (shl_align p e _) as [mz ez].
  apply binary_round_aux_opp.
Qed.

Lemma SFleb_finite_abs (m : positive) (e : Z) (y : spec_float) :
  SFleb (S754_finite false m e) y = true -> SFabs y = y.
Proof. destruct y as [s|[|]| |[|] m' e']; cbn; try discriminate; reflexivity. Qed.

(** A number that is at most a quarter is, subtracted from the half, at
    least a quarter away from zero. *)
Lemma SFsub_quarter_half (ma m : positive) (ea e : Z) :
  bounded prec emax ma ea = true ->
  bounded prec emax m (e - 2) = true ->
  SFleb (S754_finite false ma ea) (S754_finite false m (e - 2)) = true ->
  SFleb (S754_finite false m (e - 2))
        (SFabs (SF64sub (S754_finite false ma ea) (S754_finite false m (e - 1)))) = true.
Proof.
  intros Ba Bq Hle.
  pose proof (finite_order_value ma m ea (e - 2) Ba Bq Hle) as V.
  assert (P2 : pow2 (e - 1) = (2 * pow2 (e - 2))%R).
  { replace (e - 1) with (1 + (e - 2)) by lia. now rewrite pow2_add, pow2_1. }
  pose proof (finite_value_pos m (e - 2)) as Vq.
  unfold SF64sub, SFsub. cbn [cond_Zopp].
  set (ez := Z.min ea (e - 1)).
  pose proof (shl_align_value ma ea ez ltac:(subst ez; lia)) as Va.
  pose proof (shl_align_value m (e - 1) ez ltac:(subst ez; lia)) as Vh.
  set (ax := fst (shl_align ma ea ez)) in *. set (hx := fst (shl_align m (e - 1) ez)) in *.
  pose proof (pow2_pos ez) as Pz.
  assert (D : (IZR (Zpos m) * pow2 (e - 2) <= (IZR (Zpos hx) - IZR (Zpos ax)) * pow2 ez)%R).
  { rewrite Rmult_minus_distr_r, Va, Vh, P2. lra. }
  assert (Lt : Zpos ax < Zpos hx).
  { apply lt_IZR. apply Rmult_lt_reg_r with (pow2 ez); [exact Pz|]. lra. }
  destruct (Zpos ax - Zpos hx) as [|p|p] eqn:E; try lia.
  cbn [binary_normalize]. rewrite binary_round_opp, SFabs_opp.
  assert (Ep : (IZR (Zpos p) = IZR (Zpos hx) - IZR (Zpos ax))%R).
  { rewrite <- minus_IZR. f_equal. lia. }
  destruct (binary_round_located p ez) as (mz & ez' & Eq & L & Dz).
  assert (G : SFleb (S754_finite false m (e - 2)) (binary_round prec emax false p ez) = true).
  { rewrite Eq. rewrite <- (binary_round_aux_exact m (e - 2) Bq) at 1.
    destruct (finite_located m (e - 2) Bq) as [L1 D1].
    apply (binary_round_aux_mono _ _ _ _ _ _ _ _ (Pos2Z.is_nonneg m)
             (Pos2Z.is_nonneg mz) L1 L D1 Dz).
    rewrite Ep. exact D. }
  rewrite (SFleb_finite_abs _ _ _ G). exact G.
Qed.

(** Below the quarter of a dimension of at least 12 is more than 3 from
    its half. *)
Lemma SF_quarter_far_from_half (A L : spec_float) :
  valid_binary A = true -> valid_binary L = true ->
  SFleb (S754_finite false 6755399441055744 (-49)) L = true ->
  SFleb (S754_zero false) A = true ->
  SFltb A (SF64div L (S754_finite false 4503599627370496 (-50))) = true ->
  SFleb (S754_finite false 6755399441055744 (-51))
        (SFabs (SF64sub A (SF64div L (S754_finite false 4503599627370496 (-51))))) = true.
Proof.
  intros VA VL H12 H0 Hlt.
  destruct L as [s|[|]| |[|] m e]; try discriminate H12.
  - (* an infinite dimension *)
    destruct A as [s|[|]| |[|] ma ea]; try discriminate H0; try discriminate Hlt;
      reflexivity.
  - cbn [valid_binary] in VL.
    apply SFleb_key in H12 as (_ & _ & K). cbn [order_key key_le] in K.
    pose proof prec_emax as (_ & _ & Emin).
    change (-50) with (2 - 52) in Hlt. change (-51) with (1 - 52) at 2.
    rewrite (SFdiv_pow2 m e 2 VL) in Hlt by lia.
    rewrite (SFdiv_pow2 m e 1 VL) by lia.
    assert (Bq : bounded prec emax m (e - 2) = true) by (apply bounded_shift; auto; lia).
    assert (Q3 : SFleb (S754_finite false 6755399441055744 (-51))
                   (S754_finite false m (e - 2)) = true).
    { apply SFleb_key. unfold is_number. repeat split; try discriminate.
      cbn [order_key key_le]. lia. }
    destruct A as [s|[|]| |[|] ma ea]; try discriminate H0; try discriminate Hlt.
    + (* zero *)
      cbn [SF64sub SFsub SFabs negb]. apply SFleb_key. unfold is_number.
      repeat split; try discriminate. cbn [order_key key_le]. lia.
    + cbn [valid_binary] in VA.
      assert (Hle : SFleb (S754_finite false ma ea) (S754_finite false m (e - 2)) = true).
      { apply SFltb_key in Hlt as (N1 & N2 & K'). apply SFleb_key.
        repeat split; auto. cbn [order_key key_le key_lt] in *. lia. }
      pose proof (SFsub_quarter_half ma m ea e VA Bq Hle) as G.
      apply SFleb_key in Q3 as (N1 & _ & K1). apply SFleb_key in G as (_ & N3 & K3).
      apply SFleb_key. repeat split; auto. exact (key_le_trans _ _ _ K1 K3).
Qed.

Local Close Scope Z_scope.

Lemma quarter_far_from_half (a l : float) :
  fle 12 l -> fle PrimFloat.zero a -> flt a (l / 4) ->
  fle 3 (PrimFloat.abs (a - l / 2)).
Proof.
  unfold fle, flt. rewrite !leb_spec, ltb_spec, abs_spec, sub_spec, !div_spec.
  apply SF_quarter_far_from_half; apply Prim2SF_valid.
Qed.

(** In a pit of at least 12 a coordinate that passes the corner test
    fails the middle test. *)
Lemma corner_test_excludes_middle (x l : float) :
  fle 12 l ->
  PrimFloat.ltb (PrimFloat.abs (PrimFloat.abs x - l / 2)) 3 = true ->
  PrimFloat.ltb (PrimFloat.abs x) (l / 4) = false.
Proof.
  intros Hl Hc.
  destruct (PrimFloat.ltb (PrimFloat.abs x) (l / 4)) eqn:E; [exfalso|reflexivity].
  assert (N : number x) by (apply abs_number; apply (flt_number _ _ E)).
  pose proof (quarter_far_from_half _ l Hl (abs_nonneg x N) E) as G.
  apply flt_not_fle in Hc. unfold fle in G. congruence.
Qed.

(** ** The range check and the ground-settlement check in binary64 *)

(** Without a NaN among the distances, the maximum that the range check
    reports bounds every distance and 0, and is one of them. *)
Lemma checkMonitoringRange_maximum (config : PitConfiguration (num := float))
    (sensors : list PlacedSensor) (results : ValidationReport) :
  let distance := fun s : PlacedSensor =>
    Math_sqrt (pos_x (position s) * pos_x (position s)
               + pos_z (position s) * pos_z (position s))%js in
  let coverage := snd (checkMonitoringRange config sensors results) in
  (forall s, In s sensors -> PrimFloat.is_nan (distance s) = false) ->
  (forall s, In s sensors -> (distance s <=? r_maxDistance coverage)%js = true)
  /\ (lit 0 <=? r_maxDistance coverage)%js = true
  /\ (r_maxDistance coverage = lit 0
      \/ exists s, In s sensors /\ r_maxDistance coverage = distance s).
Proof.
  intros distance coverage Hn.
  assert (HM : r_maxDistance coverage = Math_max_spread (map distance sensors) (lit 0))
    by reflexivity.
  destruct (Math_max_spread_number (map distance sensors) (lit 0)) as (_ & B0 & B1 & B2).
  { intros x Hx. apply in_map_iff in Hx as (s & <- & Hs). now apply Hn. }
  { vm_compute. reflexivity. }
  rewrite HM. split.
  { intros s Hs. apply B1. now apply in_map. }
  split; [exact B0|].
  destruct B2 as [B2 | B2]; [now left|right].
  apply in_map_iff in B2 as (s & Hs1 & Hs2). exists s. now split.
Qed.

(** C8: in every arithmetic, the range-coverage check counts as outside
    the sensors whose horizontal distance sqrt(x*x + z*z) from the pit
    centre exceeds max(length, width) / 2, reports [Math.max] of all the
    distances and 0 (0 for no sensor) and the recommended maximum
    max(length, width) * 1.5, and appends the peripheral-coverage warning
    exactly when outside < total * 0.3, changing nothing else; in a run
    whose requirements resolve the record is the [range] field of
    [compliance].  In binary64, when no distance is NaN, the reported
    maximum is at least every distance and at least 0, and it is 0 or the
    distance of one of the sensors. *)
Theorem range_coverage_checker :
  (forall (num : Type) (N : JSNumber num) (config : PitConfiguration)
          (sensors : list PlacedSensor) (results : ValidationReport),
      let larger := Math_max2 (length (dimensions config)) (width (dimensions config)) in
      let distance := fun s : PlacedSensor =>
        Math_sqrt (pos_x (position s) * pos_x (position s)
                   + pos_z (position s) * pos_z (position s))%js in
      let outside := filter (fun s => (distance s >? larger / lit 2)%js) sensors in
      let coverage := snd (checkMonitoringRange config sensors results) in
      r_total coverage = List.length sensors
      /\ r_outside coverage = List.length outside
      /\ r_maxDistance coverage
         = match sensors with
           | [] => lit 0
           | s :: rest => fold_left Math_max2 (map distance rest ++ [lit 0]) (distance s)
           end
      /\ r_recommendedMaxDistance coverage = (larger * lit 1.5)%js
      /\ fst (checkMonitoringRange config sensors results)
         = extend []
             (if (of_nat (List.length outside)
                  <? of_nat (List.length sensors) * lit 0.3)%js
              then [peripheral_coverage] else [])
             [] results
      /\ (forall req,
            lookup_requirements config = Return (Some req) ->
            exists r,
              validateLayout config sensors = Return r
              /\ c_range (compliance r) = Some coverage))
  /\ (forall (config : PitConfiguration (num := float)) (sensors : list PlacedSensor)
             (results : ValidationReport),
         let distance := fun s : PlacedSensor =>
           Math_sqrt (pos_x (position s) * pos_x (position s)
                      + pos_z (position s) * pos_z (position s))%js in
         let coverage := snd (checkMonitoringRange config sensors results) in
         (forall s, In s sensors -> PrimFloat.is_nan (distance s) = false) ->
         (forall s, In s sensors -> (distance s <=? r_maxDistance coverage)%js = true)
         /\ (lit 0 <=? r_maxDistance coverage)%js = true
         /\ (r_maxDistance coverage = lit 0
             \/ exists s, In s sensors /\ r_maxDistance coverage = distance s)).
Proof.
  split; [intros; apply checkMonitoringRange_coverage|].
  intros config sensors results. apply checkMonitoringRange_maximum.
Qed.

Lemma forallb_map_app {A : Type} (f : A -> float) (t last : float) (l : list A) :
  forallb (fun x => (x <? t)%js) (map f l ++ [last])
  = forallb (fun a => (f a <? t)%js) l && (last <? t)%js.
Proof.
  induction l as [|a l IH]; cbn [map app forallb].
  - now rewrite andb_true_r.
  - rewrite IH. now rewrite andb_assoc.
Qed.

(** X19: when the ground-settlement check warns, in binary64.  The check
    appends warnings only.  The range warning is given exactly when the
    doubled depth is positive and every ground-settlement sensor has its
    horizontal distance, less half of the larger dimension, below the
    doubled depth (so always, for a positive depth, when there is no such
    sensor, and never once a sensor reaches that distance or a distance is
    NaN); the density warning is given exactly when there are fewer than 8
    ground-settlement sensors. *)
Theorem ground_settlement_warnings_reading
    (sensors : list (PlacedSensor (num := float))) (length width depth : float)
    (results : ValidationReport) (layoutResults : LayoutResults) :
  let settlement :=
    filter (fun s => String.eqb (sensor_type s) "ground-settlement") sensors in
  let boundary := (Math_max2 length width / lit 2)%js in
  let beyond := fun s : PlacedSensor =>
    (Math_sqrt (pos_x (position s) * pos_x (position s)
                + pos_z (position s) * pos_z (position s)) - boundary)%js in
  let required := (depth * lit 2)%js in
  let range_short :=
    forallb (fun s => (beyond s <? required)%js) settlement && (lit 0 <? required)%js in
  fst (checkGroundSettlementLayout sensors length width depth results layoutResults)
  = extend []
      ((if range_short then [settlement_range_warning depth] else [])
       ++ (if count_of sensors "ground-settlement" <? 8
           then [settlement_density_warning] else []))
      [] results.
Proof.
  cbv zeta. rewrite checkGroundSettlementLayout_extend.
  unfold settlement_warnings, calculateMonitoringRange.
  rewrite Math_max_spread_ltb, forallb_map_app, settlement_count.
  reflexivity.
Qed.

(** X18: what the placement limit means for the reports, in binary64.  If
    no sensor of the list fails the horizontal test of the placement
    check for the configuration being validated, no distance is NaN and
    the limit 2 * max(length, width) is not negative, the maximum distance
    that the range check reports is at most that limit. *)
Theorem reported_distances_within_placement_limit
    (config : PitConfiguration (num := float)) (sensors : list PlacedSensor)
    (results : ValidationReport) :
  let limit :=
    (Math_max2 (length (dimensions config)) (width (dimensions config)) * lit 2)%js in
  let distance := fun s : PlacedSensor =>
    Math_sqrt (pos_x (position s) * pos_x (position s)
               + pos_z (position s) * pos_z (position s))%js in
  within_reach config sensors ->
  (forall s, In s sensors -> PrimFloat.is_nan (distance s) = false) ->
  (lit 0 <=? limit)%js = true ->
  (r_maxDistance (snd (checkMonitoringRange config sensors results)) <=? limit)%js = true.
Proof.
  intros limit distance W Hn H0.
  destruct (checkMonitoringRange_maximum config sensors results Hn)
    as (_ & _ & [E | (s & Hs & E)]); rewrite E.
  - exact H0.
  - apply not_flt_fle.
    + apply fle_number in H0. apply H0.
    + now apply Hn.
    + apply (W s Hs).
Qed.

(** Without sensors the quantity is never adequate, whatever the
    configuration: 0 / perimeter is a zero, or NaN for a perimeter that
    is 0 or NaN, and neither reaches 80 percent of a recommended
    density. *)
Lemma no_sensors_never_adequate
    (config : PitConfiguration (num := float)) (results : ValidationReport) :
  q_adequate (checkSensorQuantity config [] results) = false
  /\ (q_density (checkSensorQuantity config [] results) <=? lit 0)%js
     = negb (PrimFloat.is_nan (q_density (checkSensorQuantity config [] results))).
Proof.
  unfold checkSensorQuantity. cbn [q_adequate q_density List.length].
  set (p := (lit 2 * (length (dimensions config) + width (dimensions config)))%js).
  clearbody p.
  assert (D : Prim2SF (of_nat 0 / p)%js = S754_nan
              \/ exists s, Prim2SF (of_nat 0 / p)%js = S754_zero s).
  { cbn [ndiv float_JSNumber]. rewrite div_spec.
    replace (Prim2SF (of_nat 0)) with (S754_zero false) by (vm_compute; reflexivity).
    destruct (Prim2SF p) as [s|s| |s m e]; cbn; eauto. }
  split.
  - rewrite calculateRecommendedDensity_level. unfold recommended_density.
    cbn [nleb nmul float_JSNumber].
    assert (T : forall t : float,
               (exists m e, Prim2SF t = S754_finite false m e) ->
               PrimFloat.leb t (of_nat 0 / p)%js = false).
    { intros t (m & e & Ht).
      destruct (PrimFloat.leb t (of_nat 0 / p)%js) eqn:E; [|reflexivity].
      apply fle_spec in E as (_ & Nd & K). rewrite Ht in K.
      apply number_spec in Nd.
      destruct D as [D | (s & D)]; rewrite D in *; [now elim Nd|].
      cbn in K. lia. }
    repeat match goal with
           | |- context [Z.eqb ?a ?b] => destruct (Z.eqb a b)
           end; apply T; vm_compute; eauto.
  - cbn [nleb float_JSNumber].
    destruct D as [D | (s & D)].
    + assert (I : PrimFloat.is_nan (of_nat 0 / p)%js = true).
      { destruct (PrimFloat.is_nan (of_nat 0 / p)%js) eqn:I; [reflexivity|].
        apply number_spec in I. now elim I. }
      rewrite I. cbn [negb].
      destruct (PrimFloat.leb (of_nat 0 / p)%js (lit 0)) eqn:E; [|reflexivity].
      apply fle_number in E as [E _]. unfold number in E. congruence.
    + assert (I : number (of_nat 0 / p)%js)
        by (apply number_spec; rewrite D; discriminate).
      unfold number in I. rewrite I. cbn [negb].
      apply fle_spec. split; [exact I|]. split; [vm_compute; reflexivity|].
      rewrite D.
      replace (Prim2SF (lit 0)) with (S754_zero false) by (vm_compute; reflexivity).
      cbn. lia.
Qed.

(** ** The density in binary64 *)

(** C7 (amended), in binary64: for two configurations with the same
    sensor count and safety level, the first of positive perimeter
    2 * (length + width) and the second of strictly larger perimeter, the
    computed density count / perimeter of the second is never larger than
    that of the first (the two are equal when there is no sensor, and
    when the rounding of the division absorbs the difference of the
    perimeters); the recommended density is the same; and [adequate]
    never goes from false to true. *)
Theorem density_monotone_in_perimeter
    (c1 c2 : PitConfiguration (num := float)) (s1 s2 : list PlacedSensor)
    (r1 r2 : ValidationReport) :
  let perimeter := fun c : PitConfiguration =>
    (lit 2 * (length (dimensions c) + width (dimensions c)))%js in
  List.length s1 = List.length s2 ->
  safetyLevel c1 = safetyLevel c2 ->
  (lit 0 <? perimeter c1)%js = true ->
  (perimeter c1 <? perimeter c2)%js = true ->
  let q1 := checkSensorQuantity c1 s1 r1 in
  let q2 := checkSensorQuantity c2 s2 r2 in
  q_density q1 = (of_nat (List.length s1) / perimeter c1)%js
  /\ q_density q2 = (of_nat (List.length s2) / perimeter c2)%js
  /\ (q_density q2 <=? q_density q1)%js = true
  /\ q_recommended q2 = q_recommended q1
  /\ (q_adequate q2 = true -> q_adequate q1 = true).
Proof.
  intros perimeter Hn Hl Hp Hlt q1 q2.
  assert (D : fle (q_density q2) (q_density q1)).
  { unfold q1, q2, checkSensorQuantity. cbn [q_density]. rewrite <- Hn.
    destruct (of_nat_number (List.length s1)) as [N0 Ni].
    apply div_antitone; [exact N0|exact Ni|exact Hp|apply flt_fle; exact Hlt]. }
  assert (Hr : q_recommended q2 = q_recommended q1).
  { unfold q1, q2, checkSensorQuantity. cbn [q_recommended].
    unfold calculateRecommendedDensity. now rewrite Hl. }
  split; [reflexivity|]. split; [reflexivity|].
  split; [exact D|]. split; [exact Hr|].
  assert (Ha : forall c s r,
             q_adequate (checkSensorQuantity (num := float) c s r)
             = PrimFloat.leb (q_recommended (checkSensorQuantity c s r) * lit 0.8)%js
                 (q_density (checkSensorQuantity c s r))) by reflexivity.
  unfold q1, q2 in *. rewrite !Ha, Hr. intros A.
  exact (fle_trans _ _ _ A D).
Qed.

(** X20: more sensors never cost adequacy, in binary64.  For a positive
    perimeter and a sensor array of fewer than 2^32 elements (the bound
    of a JavaScript array), the computed density does not shrink when
    sensors are added, so a quantity that is adequate stays adequate; and
    without sensors the quantity is never adequate. *)
Theorem adequate_grows_with_sensors
    (config : PitConfiguration (num := float)) (sensors extra : list PlacedSensor)
    (results : ValidationReport) :
  let perimeter :=
    (lit 2 * (length (dimensions config) + width (dimensions config)))%js in
  (lit 0 <? perimeter)%js = true ->
  (Z.of_nat (List.length (sensors ++ extra)) < 2 ^ 32)%Z ->
  let q := checkSensorQuantity config sensors results in
  let q' := checkSensorQuantity config (sensors ++ extra) results in
  (q_density q <=? q_density q')%js = true
  /\ (q_adequate q = true -> q_adequate q' = true)
  /\ q_adequate (checkSensorQuantity config [] results) = false.
Proof.
  intros perimeter Hp Hlen q q'.
  assert (D : fle (q_density q) (q_density q')).
  { unfold q, q', checkSensorQuantity. cbn [q_density].
    destruct (of_nat_number (List.length (sensors ++ extra))) as [N0 Ni].
    destruct (of_nat_number (List.length sensors)) as [M0 Mi].
    apply div_monotone; [exact M0| |exact Ni|exact Hp].
    apply of_nat_mono.
    - rewrite length_app. lia.
    - assert (2 ^ 32 < Uint63.wB)%Z by reflexivity. lia. }
  split; [exact D|]. split.
  - assert (Ha : forall s,
               q_adequate (checkSensorQuantity (num := float) config s results)
               = PrimFloat.leb
                   (q_recommended (checkSensorQuantity config s results) * lit 0.8)%js
                   (q_density (checkSensorQuantity config s results))) by reflexivity.
    unfold q, q' in *. rewrite !Ha. intros A.
    exact (fle_trans _ _ _ A D).
  - apply no_sensors_never_adequate.
Qed.

(** ** The corners of the pit, in binary64 *)

(** Within 2 of a corner in x and in z is within 5 of it. *)
Lemma within_2_within_5 (dx dz : float) :
  PrimFloat.ltb (PrimFloat.abs dx) 2 = true ->
  PrimFloat.ltb (PrimFloat.abs dz) 2 = true ->
  PrimFloat.ltb (PrimFloat.sqrt (dx * dx + dz * dz)) 5 = true.
Proof.
  intros Hx Hz.
  apply fle_lt_trans with (PrimFloat.sqrt (2 * 2 + 2 * 2))%float;
    [|vm_compute; reflexivity].
  apply distance_le; apply flt_fle; assumption.
Qed.

(** X15: the sensors the side priority hides from the north and south
    tallies are corner sensors, in binary64.  A sensor that passes the
    test of an x-edge (east or west) and the test of a z-edge (north or
    south) lies within 5 of the corner where the two edges meet, so
    [hasCornerSensor] holds of that corner and at most three corners are
    reported as lacking a sensor. *)
Theorem sensor_near_two_edges_covers_their_corner
    (length width : float) (sensors : list (PlacedSensor (num := float)))
    (s : PlacedSensor) :
  let x := pos_x (position s) in
  let z := pos_z (position s) in
  let east := (Math_abs (x - length / lit 2) <? lit 2)%js in
  let west := (Math_abs (x + length / lit 2) <? lit 2)%js in
  let north := (Math_abs (z - width / lit 2) <? lit 2)%js in
  let south := (Math_abs (z + width / lit 2) <? lit 2)%js in
  let corner :=
    ((if east then length / lit 2 else - length / lit 2)%js,
     (if north then width / lit 2 else - width / lit 2)%js) in
  let within_5 := fun t : PlacedSensor =>
    (Math_sqrt ((pos_x (position t) - fst corner) * (pos_x (position t) - fst corner)
                + (pos_z (position t) - snd corner) * (pos_z (position t) - snd corner))
     <? lit 5)%js in
  In s sensors ->
  east = true \/ west = true ->
  north = true \/ south = true ->
  In corner (pit_corners length width)
  /\ within_5 s = true
  /\ hasCornerSensor sensors corner = existsb within_5 sensors
  /\ hasCornerSensor sensors corner = true
  /\ missingCorner (identifyCriticalPositions sensors length width) <= 3.
Proof.
  intros x z east west north south corner within_5 Hin Hx Hz.
  set (cx := (if east then length / lit 2 else - length / lit 2)%js).
  set (cz := (if north then width / lit 2 else - width / lit 2)%js).
  assert (Dx : PrimFloat.ltb (PrimFloat.abs (x - cx)) 2 = true).
  { subst cx. destruct east eqn:E; [exact E|].
    destruct Hx as [Hx | Hx]; [discriminate|].
    cbn [nneg ndiv float_JSNumber]. rewrite neg_half, sub_neg. exact Hx. }
  assert (Dz : PrimFloat.ltb (PrimFloat.abs (z - cz)) 2 = true).
  { subst cz. destruct north eqn:E; [exact E|].
    destruct Hz as [Hz | Hz]; [discriminate|].
    cbn [nneg ndiv float_JSNumber]. rewrite neg_half, sub_neg. exact Hz. }
  assert (Hs : within_5 s = true) by exact (within_2_within_5 _ _ Dx Dz).
  assert (Hhas : hasCornerSensor sensors corner = true).
  { unfold hasCornerSensor. apply existsb_exists. exists s. split; [exact Hin|exact Hs]. }
  assert (Hc : In corner (pit_corners length width)).
  { subst corner. unfold pit_corners. destruct east, north; cbn; tauto. }
  split; [exact Hc|]. split; [exact Hs|]. split; [reflexivity|]. split; [exact Hhas|].
  rewrite missingCorner_corners_lacking. unfold corners_lacking.
  pose proof (filter_length (fun c => negb (hasCornerSensor sensors c))
                (pit_corners length width)) as F.
  assert (L : List.length (pit_corners length width) = 4) by reflexivity.
  assert (0 < List.length (filter (fun c => negb (negb (hasCornerSensor sensors c)))
                             (pit_corners length width))).
  { assert (I : In corner (filter (fun c => negb (negb (hasCornerSensor sensors c)))
                               (pit_corners length width)))
      by (apply filter_In; split; [exact Hc|now rewrite Hhas]).
    clear F. set (covered := filter _ _) in *.
    destruct covered; [destruct I|cbn; lia]. }
  lia.
Qed.

Lemma near_corner_box (cx cz : float) (s : PlacedSensor (num := float)) :
  near_corner (cx, cz) s = true ->
  flt (PrimFloat.abs (pos_x (position s) - cx)) 5
  /\ flt (PrimFloat.abs (pos_z (position s) - cz)) 5.
Proof. intros H. apply within_5_box. exact H. Qed.

Lemma near_one_corner (length width : float) (s : PlacedSensor (num := float)) :
  fle 10 length -> fle 10 width ->
  (if near_corner (length / 2, width / 2)%float s then 1 else 0)
  + (if near_corner (- length / 2, width / 2)%float s then 1 else 0)
  + (if near_corner (- length / 2, - width / 2)%float s then 1 else 0)
  + (if near_corner (length / 2, - width / 2)%float s then 1 else 0) <= 1.
Proof.
  intros Hl Hw. apply half_at_least_5 in Hl, Hw.
  destruct (near_corner (length / 2, width / 2)%float s) eqn:E1;
    destruct (near_corner (- length / 2, width / 2)%float s) eqn:E2;
    destruct (near_corner (- length / 2, - width / 2)%float s) eqn:E3;
    destruct (near_corner (length / 2, - width / 2)%float s) eqn:E4;
    try (cbn; lia); exfalso;
    try (apply near_corner_box in E1; destruct E1 as [X1 Z1]);
    try (apply near_corner_box in E2; destruct E2 as [X2 Z2]);
    try (apply near_corner_box in E3; destruct E3 as [X3 Z3]);
    try (apply near_corner_box in E4; destruct E4 as [X4 Z4]);
    rewrite ?neg_half, ?sub_neg in *;
    match goal with
    | A : flt (PrimFloat.abs (?x - ?h)) _, B : flt (PrimFloat.abs (?x + ?h)) _,
      Hh : fle _ ?h |- _ => exact (opposite_edges_apart x h Hh A B)
    end.
Qed.

Lemma covered_corners_le (length width : float)
    (sensors : list (PlacedSensor (num := float))) :
  fle 10 length -> fle 10 width ->
  (if existsb (near_corner (length / 2, width / 2)%float) sensors then 1 else 0)
  + (if existsb (near_corner (- length / 2, width / 2)%float) sensors then 1 else 0)
  + (if existsb (near_corner (- length / 2, - width / 2)%float) sensors then 1 else 0)
  + (if existsb (near_corner (length / 2, - width / 2)%float) sensors then 1 else 0)
  <= List.length sensors.
Proof.
  intros Hl Hw. induction sensors as [|a l IH]; cbn [existsb List.length]; [lia|].
  pose proof (near_one_corner length width a Hl Hw) as O.
  destruct (near_corner (length / 2, width / 2)%float a),
    (near_corner (- length / 2, width / 2)%float a),
    (near_corner (- length / 2, - width / 2)%float a),
    (near_corner (length / 2, - width / 2)%float a);
    cbn [orb] in *; try lia;
    destruct (existsb (near_corner (length / 2, width / 2)%float) l),
      (existsb (near_corner (- length / 2, width / 2)%float) l),
      (existsb (near_corner (- length / 2, - width / 2)%float) l),
      (existsb (near_corner (length / 2, - width / 2)%float) l); lia.
Qed.

(** X16: four corners need four sensors, in binary64.  For a pit at least
    10 long and 10 wide no sensor is within 5 of two of the corners
    [(length / 2, width / 2)], [(- length / 2, width / 2)],
    [(- length / 2, - width / 2)] and [(length / 2, - width / 2)], so the
    number of corners [identifyCriticalPositions] reports as lacking a
    sensor is at least 4 minus the number of sensors: with fewer than four
    sensors some corner is always reported. *)
Theorem four_corners_need_four_sensors
    (length width : float) (sensors : list (PlacedSensor (num := float))) :
  let within_5 := fun (corner : float * float) (s : PlacedSensor) =>
    (Math_sqrt ((pos_x (position s) - fst corner) * (pos_x (position s) - fst corner)
                + (pos_z (position s) - snd corner) * (pos_z (position s) - snd corner))
     <? lit 5)%js in
  let corner_positions :=
    [ (length / lit 2, width / lit 2); (- length / lit 2, width / lit 2);
      (- length / lit 2, - width / lit 2); (length / lit 2, - width / lit 2) ]%js in
  (lit 10 <=? length)%js = true -> (lit 10 <=? width)%js = true ->
  (forall s, List.length (filter (fun corner => within_5 corner s) corner_positions) <= 1)
  /\ missingCorner (identifyCriticalPositions sensors length width)
     = List.length (filter (fun corner => negb (existsb (within_5 corner) sensors))
                      corner_positions)
  /\ 4 <= missingCorner (identifyCriticalPositions sensors length width)
          + List.length sensors
  /\ (List.length sensors < 4 ->
      0 < missingCorner (identifyCriticalPositions sensors length width)).
Proof.
  intros within_5 corner_positions Hl Hw.
  assert (O : forall s,
             List.length (filter (fun corner => within_5 corner s) corner_positions) <= 1).
  { intros s. pose proof (near_one_corner length width s Hl Hw) as O.
    subst corner_positions. cbn [filter].
    change (within_5 (length / lit 2, width / lit 2)%js s)
      with (near_corner (length / 2, width / 2)%float s).
    change (within_5 (- length / lit 2, width / lit 2)%js s)
      with (near_corner (- length / 2, width / 2)%float s).
    change (within_5 (- length / lit 2, - width / lit 2)%js s)
      with (near_corner (- length / 2, - width / 2)%float s).
    change (within_5 (length / lit 2, - width / lit 2)%js s)
      with (near_corner (length / 2, - width / 2)%float s).
    destruct (near_corner (length / 2, width / 2)%float s),
      (near_corner (- length / 2, width / 2)%float s),
      (near_corner (- length / 2, - width / 2)%float s),
      (near_corner (length / 2, - width / 2)%float s); cbn [List.length] in *; lia. }
  assert (M : missingCorner (identifyCriticalPositions sensors length width)
              = List.length (filter (fun corner => negb (existsb (within_5 corner) sensors))
                               corner_positions))
    by (rewrite missingCorner_corners_lacking; reflexivity).
  assert (B : 4 <= missingCorner (identifyCriticalPositions sensors length width)
                   + List.length sensors).
  { rewrite M. pose proof (covered_corners_le length width sensors Hl Hw) as C.
    subst corner_positions. cbn [filter].
    change (existsb (within_5 (length / lit 2, width / lit 2)%js) sensors)
      with (existsb (near_corner (length / 2, width / 2)%float) sensors).
    change (existsb (within_5 (- length / lit 2, width / lit 2)%js) sensors)
      with (existsb (near_corner (- length / 2, width / 2)%float) sensors).
    change (existsb (within_5 (- length / lit 2, - width / lit 2)%js) sensors)
      with (existsb (near_corner (- length / 2, - width / 2)%float) sensors).
    change (existsb (within_5 (length / lit 2, - width / lit 2)%js) sensors)
      with (existsb (near_corner (length / 2, - width / 2)%float) sensors).
    destruct (existsb (near_corner (length / 2, width / 2)%float) sensors),
      (existsb (near_corner (- length / 2, width / 2)%float) sensors),
      (existsb (near_corner (- length / 2, - width / 2)%float) sensors),
      (existsb (near_corner (length / 2, - width / 2)%float) sensors);
      cbn [negb List.length]; lia. }
  split; [exact O|]. split; [exact M|]. split; [exact B|]. lia.
Qed.

(** X17: corner and middle do not overlap in a pit of at least 12 by 12,
    in binary64.  A sensor that [analyzeSensorDistribution] counts as a
    corner sensor (it passes [|(|x| - length / 2)| < 3] and
    [|(|z| - width / 2)| < 3]) is not counted as a middle sensor (it
    fails [|x| < length / 4] and [|z| < width / 4]), so the two counters
    never add up to more than the number of sensors. *)
Theorem corner_and_middle_do_not_overlap
    (length width : float) (sensors : list (PlacedSensor (num := float))) :
  let corner_test := fun s : PlacedSensor =>
    ((Math_abs (Math_abs (pos_x (position s)) - length / lit 2) <? lit 3)
     && (Math_abs (Math_abs (pos_z (position s)) - width / lit 2) <? lit 3))%js in
  let middle_test := fun s : PlacedSensor =>
    ((Math_abs (pos_x (position s)) <? length / lit 4)
     || (Math_abs (pos_z (position s)) <? width / lit 4))%js in
  (lit 12 <=? length)%js = true -> (lit 12 <=? width)%js = true ->
  (forall s, corner_test s = true -> middle_test s = false)
  /\ corners (analyzeSensorDistribution sensors length width)
     = List.length (filter corner_test sensors)
  /\ middle (analyzeSensorDistribution sensors length width)
     = List.length (filter middle_test sensors)
  /\ corners (analyzeSensorDistribution sensors length width)
     + middle (analyzeSensorDistribution sensors length width)
     <= List.length sensors.
Proof.
  intros corner_test middle_test Hl Hw.
  assert (X : forall s, corner_test s = true -> middle_test s = false).
  { intros s H. subst corner_test middle_test. cbn beta in *.
    apply andb_true_iff in H as [Hx Hz]. apply orb_false_iff. split.
    - exact (corner_test_excludes_middle _ _ Hl Hx).
    - exact (corner_test_excludes_middle _ _ Hw Hz). }
  destruct (analyzeSensorDistribution_corner_middle sensors length width) as (Ec & Em).
  split; [exact X|]. split; [exact Ec|]. split; [exact Em|].
  rewrite Ec, Em.
  change (isCorner length width) with corner_test.
  change (isMiddle length width) with middle_test.
  clear Ec Em. induction sensors as [|a l IH]; cbn [filter List.length]; [lia|].
  specialize (X a).
  destruct (corner_test a), (middle_test a); cbn [List.length]; lia.
Qed.
(** ** Binary64 *)

(** The decimal literals of the source are the doubles the engine reads. *)
Example binary64_literals :
  map (lit (num := float)) [0.8; 0.6; 0.4; 0.5; 0.3; 1.5; 2; 50]%Q
  = [ 0x1.999999999999ap-1; 0x1.3333333333333p-1; 0x1.999999999999ap-2; 0x1p-1;
      0x1.3333333333333p-2; 0x1.8p+0; 0x1p+1; 0x1.9p+5 ]%float.
Proof. vm_compute. reflexivity. Qed.

(** ** The scenarios of the specification, run in binary64 *)

(** Scenario A: a soil pit of level 1, 30 by 20 by 10, without sensors. *)
Example scenario_A :
  validateLayout (num := float)
    {| type := "soil"; safetyLevel := 1;
       dimensions := {| length := 30%float; width := 20%float; depth := 10%float |} |} []
  = Return
      {| isValid := false;
         errors :=
           [ [Lit "缺少必测项目："; Subst (VString "围护墙顶部水平位移")];
             [Lit "缺少必测项目："; Subst (VString "围护墙顶部竖向位移")];
             [Lit "缺少必测项目："; Subst (VString "深层水平位移")];
             [Lit "缺少必测项目："; Subst (VString "支撑轴力")];
             [Lit "缺少必测项目："; Subst (VString "地下水位")];
             [Lit "缺少必测项目："; Subst (VString "周边地表竖向位移")] ];
         warnings :=
           [ [Lit "围护墙位移监测点数量偏少，建议每边至少布置3个监测点"];
             [Lit "有"; Subst (VInt 4); Lit "边缺少中部监测点"];
             [Lit "有"; Subst (VInt 4); Lit "个阳角缺少监测点"];
             [Lit "深层水平位移监测点建议增加至"; Subst (VInt 4); Lit "个"];
             [Lit "地表沉降监测范围不足，建议扩大至基坑边线外"; Subst (VNum 20%float);
              Lit "m"];
             [Lit "周边地表沉降监测点数量偏少，建议在重要保护对象周边加密布置"] ];
         suggestions :=
           [ [Lit "建议增加："; Subst (VString "锚杆轴力")];
             [Lit "该基坑属于一、二级基坑，必须实施监测"] ];
         compliance :=
           {| c_required :=
                Some [ ("horizontal-displacement", 0); ("vertical-displacement", 0);
                       ("deep-horizontal", 0); ("support-force", 0);
                       ("water-level", 0); ("ground-settlement", 0) ];
              c_recommended := Some [ ("anchor-force", 0) ];
              c_layout :=
                Some {| wallDisplacement :=
                          Some {| wd_total := 0;
                                  wd_distribution :=
                                    {| north := 0; south := 0; east := 0; west := 0;
                                       corners := 0; middle := 0 |} |};
                        deepHorizontal :=
                          Some {| dh_total := 0;
                                  dh_distribution :=
                                    {| north := 0; south := 0; east := 0; west := 0;
                                       corners := 0; middle := 0 |} |};
                        groundSettlement :=
                          Some {| gs_total := 0; gs_range := 0%float |} |};
              c_quantity :=
                Some {| q_total := 0; q_density := 0%float;
                        q_recommended := lit 0.8; q_adequate := false |};
              c_range :=
                Some {| r_total := 0; r_outside := 0; r_maxDistance := 0%float;
                        r_recommendedMaxDistance := 45%float |} |} |}.
Proof. vm_compute. reflexivity. Qed.

(** Scenario C with a known composition and an unknown level: the guard
    produces the single error and leaves [compliance] empty. *)
Example unknown_level_single_error :
  validateLayout (num := float)
    {| type := "soil"; safetyLevel := 4;
       dimensions := {| length := 30%float; width := 20%float; depth := 10%float |} |} []
  = Return
      {| isValid := false;
         errors := [ [Lit "未找到"; Subst (VString "soil"); Lit "类型"; Subst (VInt 4);
                      Lit "级基坑的监测要求"] ];
         warnings := []; suggestions := [];
         compliance := empty_compliance |}.
Proof. reflexivity. Qed.

(** A composition that names a member of Object.prototype does not throw:
    the built-in has no property ["1"], and the guard applies. *)
Example inherited_name_single_error :
  validateLayout (num := float)
    {| type := "toString"; safetyLevel := 1;
       dimensions := {| length := 30%float; width := 20%float; depth := 10%float |} |} []
  = Return
      {| isValid := false;
         errors := [ [Lit "未找到"; Subst (VString "toString"); Lit "类型"; Subst (VInt 1);
                      Lit "级基坑的监测要求"] ];
         warnings := []; suggestions := [];
         compliance := empty_compliance |}.
Proof. reflexivity. Qed.

(** A sensor at the north-east corner of the 30 by 20 pit is within 2 of
    the east edge and of the north edge; it is pushed to the east side
    only, and counted east only. *)
Example corner_sensor_goes_east :
  let s := {| sensor_type := "horizontal-displacement";
              position := {| pos_x := 15%float; pos_y := 0%float; pos_z := 10%float |};
              sensor_id := 0 |} in
  near_east 30%float 20%float s = true
  /\ near_north 30%float 20%float s = true
  /\ assign_sides [s] 30%float 20%float = mk_sides [s] [] [] []
  /\ analyzeSensorDistribution [s] 30%float 20%float
     = {| north := 0; south := 0; east := 1; west := 0; corners := 1; middle := 0 |}.
Proof. vm_compute. repeat split. Qed.

(** ** Witnesses and counterexamples *)

(** A rock pit of level 3 with one horizontal-displacement sensor: the
    report is valid although it carries warnings and suggestions. *)
Lemma isValid_iff_no_errors_witness :
  exists r,
    validateLayout (num := float)
      {| type := "rock"; safetyLevel := 3;
         dimensions := {| length := 30%float; width := 20%float; depth := 10%float |} |}
      [ {| sensor_type := "horizontal-displacement";
           position := {| pos_x := 15%float; pos_y := 0%float; pos_z := 0%float |};
           sensor_id := 0 |} ]
    = Return r
    /\ isValid r = true /\ errors r = [] /\ List.length (warnings r) = 8
    /\ List.length (suggestions r) = 2.
Proof.
  eexists. split; [reflexivity|].
  split; [|vm_compute; repeat split].
  etransitivity;
    [exact (isValid_iff_no_errors (num := float)
              {| type := "rock"; safetyLevel := 3;
                 dimensions := {| length := 30%float; width := 20%float;
                                  depth := 10%float |} |}
              [ {| sensor_type := "horizontal-displacement";
                   position := {| pos_x := 15%float; pos_y := 0%float; pos_z := 0%float |};
                   sensor_id := 0 |} ]
              _ eq_refl)|].
  vm_compute. reflexivity.
Defined.

Lemma one_error_per_missing_category_witness :
  exists r,
    validateLayout (num := float)
      {| type := "soil"; safetyLevel := 1;
         dimensions := {| length := 30%float; width := 20%float; depth := 10%float |} |} []
    = Return r
    /\ errors r
       = [ [Lit "缺少必测项目："; Subst (VString "围护墙顶部水平位移")];
           [Lit "缺少必测项目："; Subst (VString "围护墙顶部竖向位移")];
           [Lit "缺少必测项目："; Subst (VString "深层水平位移")];
           [Lit "缺少必测项目："; Subst (VString "支撑轴力")];
           [Lit "缺少必测项目："; Subst (VString "地下水位")];
           [Lit "缺少必测项目："; Subst (VString "周边地表竖向位移")] ]
    /\ List.length (errors r) = 6
    /\ isValid r = false.
Proof.
  destruct (one_error_per_missing_category (num := float)
              {| type := "soil"; safetyLevel := 1;
                 dimensions := {| length := 30%float; width := 20%float;
                                  depth := 10%float |} |}
              {| required := [ "horizontal-displacement"; "vertical-displacement";
                               "deep-horizontal"; "support-force"; "water-level";
                               "ground-settlement" ];
                 recommended := [ "anchor-force" ];
                 optional := [ "wall-internal-force"; "pore-pressure"; "soil-pressure" ] |}
              [] eq_refl (fun _ _ => eq_refl))
    as (r & H1 & H2 & H3 & H4).
  exists r. repeat split; assumption.
Defined.

(** A soil pit of level 1 with a single horizontal-displacement sensor:
    five errors, one warning (1 < 8), one suggestion. *)
Lemma presence_and_count_checker_witness :
  let sensors :=
    [ {| sensor_type := "horizontal-displacement";
         position := {| pos_x := 15%float; pos_y := 0%float; pos_z := 0%float |};
         sensor_id := 0 |} ] in
  let required :=
    [ "horizontal-displacement"; "vertical-displacement"; "deep-horizontal";
      "support-force"; "water-level"; "ground-settlement" ] in
  fst (checkRequiredSensors required sensors initial_results)
  = {| isValid := true;
       errors :=
         [ [Lit "缺少必测项目："; Subst (VString "围护墙顶部竖向位移")];
           [Lit "缺少必测项目："; Subst (VString "深层水平位移")];
           [Lit "缺少必测项目："; Subst (VString "支撑轴力")];
           [Lit "缺少必测项目："; Subst (VString "地下水位")];
           [Lit "缺少必测项目："; Subst (VString "周边地表竖向位移")] ];
       warnings :=
         [ [Subst (VString "围护墙顶部水平位移"); Lit "数量不足，建议增加至";
            Subst (VInt 8); Lit "个以上"] ];
       suggestions := [];
       compliance := empty_compliance |}
  /\ fst (checkRecommendedSensors [ "anchor-force" ] sensors initial_results)
     = {| isValid := true; errors := []; warnings := [];
          suggestions := [ [Lit "建议增加："; Subst (VString "锚杆轴力")] ];
          compliance := empty_compliance |}.
Proof.
  cbv zeta.
  destruct (presence_and_count_checker (num := float)
              {| type := "soil"; safetyLevel := 1;
                 dimensions := {| length := 30%float; width := 20%float;
                                  depth := 10%float |} |}
              {| required := [ "horizontal-displacement"; "vertical-displacement";
                               "deep-horizontal"; "support-force"; "water-level";
                               "ground-settlement" ];
                 recommended := [ "anchor-force" ];
                 optional := [ "wall-internal-force"; "pore-pressure"; "soil-pressure" ] |}
              [ {| sensor_type := "horizontal-displacement";
                   position := {| pos_x := 15%float; pos_y := 0%float; pos_z := 0%float |};
                   sensor_id := 0 |} ]
              initial_results eq_refl)
    as (H1 & H2 & _).
  split; [etransitivity; [exact H1|reflexivity] | etransitivity; [exact H2|reflexivity]].
Defined.

(** Scenario D: level 3 and depth 3 give the discretionary suggestion. *)
Lemma one_necessity_suggestion_witness :
  exists r,
    validateLayout (num := float)
      {| type := "soil"; safetyLevel := 3;
         dimensions := {| length := 30%float; width := 20%float; depth := 3%float |} |} []
    = Return r
    /\ suggestions r
       = [ [Lit "建议增加："; Subst (VString "深层水平位移")];
           [Lit "建议增加："; Subst (VString "支撑轴力")];
           [Lit "建议增加："; Subst (VString "周边地表竖向位移")];
           [Lit "基坑开挖深度<5m且为三级基坑，可根据现场情况决定是否监测"] ]
    /\ necessity_count (suggestions r) = 1.
Proof.
  destruct (one_necessity_suggestion (num := float)
              {| type := "soil"; safetyLevel := 3;
                 dimensions := {| length := 30%float; width := 20%float;
                                  depth := 3%float |} |}
              {| required := [ "horizontal-displacement"; "vertical-displacement";
                               "water-level" ];
                 recommended := [ "deep-horizontal"; "support-force"; "ground-settlement" ];
                 optional := [ "anchor-force" ] |}
              [] eq_refl)
    as (r & H1 & H2 & H3 & _).
  exists r. split; [exact H1|]. split; [|exact H3].
  etransitivity; [exact H2|]. vm_compute. reflexivity.
Defined.

(** Scenario D, the other two cases. *)
Example scenario_D_should_monitor :
  necessity_suggestion (num := float)
    {| type := "soil"; safetyLevel := 3;
       dimensions := {| length := 30%float; width := 20%float; depth := 6%float |} |}
  = should_monitor.
Proof. vm_compute. reflexivity. Qed.

Example scenario_D_mandatory (d : Dimensions (num := float)) :
  necessity_suggestion {| type := "soil"; safetyLevel := 1; dimensions := d |}
  = mandatory_monitoring.
Proof. reflexivity. Qed.

(** C5 as stated fails: a soil pit of the unknown level 4 returns by the
    guard, before the necessity advice, and its report has no suggestion
    at all. *)
Lemma no_necessity_suggestion_on_early_return :
  exists r,
    validateLayout (num := float)
      {| type := "soil"; safetyLevel := 4;
         dimensions := {| length := 30%float; width := 20%float; depth := 3%float |} |} []
    = Return r
    /\ suggestions r = []
    /\ necessity_count (suggestions r) = 0.
Proof. eexists. split; [reflexivity|]. split; reflexivity. Qed.

Lemma quantity_checker_witness :
  exists r,
    validateLayout (num := float)
      {| type := "rock"; safetyLevel := 3;
         dimensions := {| length := 3%float; width := 2%float; depth := 1%float |} |}
      [ {| sensor_type := "horizontal-displacement";
           position := {| pos_x := 1.5%float; pos_y := 0%float; pos_z := 0%float |};
           sensor_id := 0 |};
        {| sensor_type := "ground-settlement";
           position := {| pos_x := 4%float; pos_y := 0%float; pos_z := 3%float |};
           sensor_id := 1 |};
        {| sensor_type := "ground-settlement";
           position := {| pos_x := 0%float; pos_y := 0%float; pos_z := 6%float |};
           sensor_id := 2 |};
        {| sensor_type := "ground-settlement";
           position := {| pos_x := 0%float; pos_y := 0%float; pos_z := (-6)%float |};
           sensor_id := 3 |} ]
    = Return r
    /\ c_quantity (compliance r)
       = Some {| q_total := 4; q_density := lit 0.4; q_recommended := lit 0.4;
                 q_adequate := true |}
    /\ errors r = [].
Proof.
  destruct (quantity_checker (num := float)
              {| type := "rock"; safetyLevel := 3;
                 dimensions := {| length := 3%float; width := 2%float;
                                  depth := 1%float |} |}
              {| required := [ "horizontal-displacement" ];
                 recommended := [ "ground-settlement" ];
                 optional := [ "vertical-displacement"; "anchor-force" ] |}
              [ {| sensor_type := "horizontal-displacement";
                   position := {| pos_x := 1.5%float; pos_y := 0%float; pos_z := 0%float |};
                   sensor_id := 0 |};
                {| sensor_type := "ground-settlement";
                   position := {| pos_x := 4%float; pos_y := 0%float; pos_z := 3%float |};
                   sensor_id := 1 |};
                {| sensor_type := "ground-settlement";
                   position := {| pos_x := 0%float; pos_y := 0%float; pos_z := 6%float |};
                   sensor_id := 2 |};
                {| sensor_type := "ground-settlement";
                   position := {| pos_x := 0%float; pos_y := 0%float;
                                  pos_z := (-6)%float |};
                   sensor_id := 3 |} ]
              initial_results eq_refl)
    as (Hq & r & H1 & H2 & H3 & _).
  exists r. split; [exact H1|]. split.
  - etransitivity; [exact H2|]. vm_compute. reflexivity.
  - etransitivity; [exact H3|]. vm_compute. reflexivity.
Defined.

(** C7 as stated fails in binary64, with a sensor present: one sensor,
    and two perimeters that are neighbouring doubles just below 128, give
    the same rounded density, so a strictly larger perimeter does not give
    a strictly smaller density. *)
Lemma density_not_strictly_decreasing :
  ~ density_strictly_decreasing (num := float).
Proof.
  intros H.
  pose (w2 := PrimFloat.next_down (PrimFloat.next_down 32%float)).
  pose (w1 := PrimFloat.next_down (PrimFloat.next_down w2)).
  specialize (H (pit "soil" 1 32%float w1 10%float) (pit "soil" 1 32%float w2 10%float)
                [(sensor_at "horizontal-displacement" 16 0 0 0)%float]
                [(sensor_at "horizontal-displacement" 16 0 0 0)%float]
                initial_results eq_refl eq_refl).
  vm_compute in H. specialize (H eq_refl). discriminate.
Qed.

(** The densities of that counterexample, and the case without sensors,
    where the density is 0 for the perimeter 100 and for the perimeter
    120. *)
Example binary64_rounding_absorbs_perimeter_change :
  let w2 := PrimFloat.next_down (PrimFloat.next_down 32%float) in
  let w1 := PrimFloat.next_down (PrimFloat.next_down w2) in
  let c1 := (pit "soil" 1 32%float w1 10%float) in
  let c2 := (pit "soil" 1 32%float w2 10%float) in
  let s := [ (sensor_at "horizontal-displacement" 16 0 0 0)%float ] in
  (perimeter c1 <? perimeter c2)%js = true
  /\ q_density (checkSensorQuantity c2 s initial_results)
     = q_density (checkSensorQuantity c1 s initial_results)
  /\ q_density (checkSensorQuantity (pit "soil" 1 30 20 10)%float [] initial_results)
     = 0%float
  /\ q_density (checkSensorQuantity (pit "soil" 1 40 20 10)%float [] initial_results)
     = 0%float.
Proof. vm_compute. repeat split. Qed.

(** A soil pit of level 3 with 35 sensors, 30 by 20 and then 40 by 20:
    the density falls from 0.35 to 35 / 120, and the quantity, adequate
    for the first pit, is not adequate for the second. *)
Lemma density_monotone_in_perimeter_witness :
  let c1 := (pit "soil" 3 30 20 10)%float in
  let c2 := (pit "soil" 3 40 20 10)%float in
  let s := repeat (sensor_at "horizontal-displacement" 15 0 0 0)%float 35 in
  (q_density (checkSensorQuantity c2 s initial_results)
   <=? q_density (checkSensorQuantity c1 s initial_results))%js = true
  /\ q_density (checkSensorQuantity c1 s initial_results) = 0x1.6666666666666p-2%float
  /\ q_adequate (checkSensorQuantity c1 s initial_results) = true
  /\ q_adequate (checkSensorQuantity c2 s initial_results) = false.
Proof.
  cbv zeta.
  match goal with
  | |- (q_density (checkSensorQuantity ?c2 ?s ?r) <=? q_density (checkSensorQuantity ?c1 _ _))%js
       = true /\ _ =>
      pose proof (density_monotone_in_perimeter c1 c2 s s r r eq_refl eq_refl
                    eq_refl eq_refl) as (_ & _ & H & _)
  end.
  split; [exact H|]. vm_compute. repeat split.
Defined.

(** In binary64 the comparison [outside < total * 0.3] decides
    10 * outside < 3 * total for every pit of up to 300 sensors: the
    rounding of 0.3 and of the product never crosses an integer. *)
Lemma binary64_thirty_percent :
  forallb (fun total =>
             forallb (fun outside =>
                        Bool.eqb (of_nat (num := float) outside
                                  <? of_nat total * lit 0.3)%js
                                 (10 * outside <? 3 * total))
                     (seq 0 (S total)))
          (seq 0 301) = true.
Proof. vm_compute. reflexivity. Qed.

(** ** Witnesses of the further properties *)

(** A rock pit of level 3 requires horizontal displacement only. *)
Lemma valid_iff_every_required_category_present_witness :
  exists r,
    validateLayout (num := float) (pit "rock" 3 30 20 10)%float
      [(sensor_at "horizontal-displacement" 15 0 0 0)%float] = Return r
    /\ isValid r = true.
Proof.
  eexists. split; [reflexivity|].
  apply (proj2 (valid_iff_every_required_category_present (num := float)
                  (pit "rock" 3 30 20 10)%float
                  {| required := [ "horizontal-displacement" ];
                     recommended := [ "ground-settlement" ];
                     optional := [ "vertical-displacement"; "anchor-force" ] |}
                  [(sensor_at "horizontal-displacement" 15 0 0 0)%float] _ eq_refl eq_refl)).
  intros category [<- | []]. apply Nat.ltb_lt. reflexivity.
Defined.

Lemma errors_name_the_missing_categories_witness :
  exists r,
    validateLayout (num := float) (pit "rock" 1 30 20 10)%float
      [(sensor_at "horizontal-displacement" 15 0 0 0)%float] = Return r
    /\ In (missing_required "anchor-force") (errors r)
    /\ ~ In (missing_required "horizontal-displacement") (errors r)
    /\ ~ In (missing_required "water-level") (errors r).
Proof.
  eexists. split; [reflexivity|].
  destruct (errors_name_the_missing_categories (num := float)
              (pit "rock" 1 30 20 10)%float
              {| required := [ "horizontal-displacement"; "vertical-displacement";
                               "anchor-force"; "ground-settlement" ];
                 recommended := [ "water-level" ];
                 optional := [] |}
              [(sensor_at "horizontal-displacement" 15 0 0 0)%float] _ eq_refl eq_refl)
    as (H & _).
  split; [|split].
  - apply H; [cbn; tauto|]. split; [cbn; tauto|reflexivity].
  - intros F. apply H in F; [|cbn; tauto]. destruct F as [_ F]. discriminate F.
  - intros F. apply H in F; [|cbn; tauto]. destruct F as [F _]. cbn in F.
    repeat (destruct F as [F|F]; [discriminate F|]). exact F.
Defined.

Lemma more_sensors_never_add_errors_witness :
  exists r r',
    validateLayout (num := float) (pit "rock" 3 30 20 10)%float
      [(sensor_at "horizontal-displacement" 15 0 0 0)%float] = Return r
    /\ validateLayout (num := float) (pit "rock" 3 30 20 10)%float
         [(sensor_at "horizontal-displacement" 15 0 0 0)%float;
          (sensor_at "ground-settlement" 40 0 0 1)%float] = Return r'
    /\ isValid r' = true
    /\ List.length (suggestions r') < List.length (suggestions r).
Proof.
  eexists. eexists. split; [reflexivity|]. split; [reflexivity|].
  split; [|vm_compute; repeat constructor].
  apply (more_sensors_never_add_errors (num := float)
           (pit "rock" 3 30 20 10)%float
           {| required := [ "horizontal-displacement" ];
              recommended := [ "ground-settlement" ];
              optional := [ "vertical-displacement"; "anchor-force" ] |}
           [(sensor_at "horizontal-displacement" 15 0 0 0)%float]
           [(sensor_at "ground-settlement" 40 0 0 1)%float] _ _ eq_refl eq_refl eq_refl).
  vm_compute. reflexivity.
Defined.

Lemma presence_depends_on_types_only_witness :
  exists r1 r2,
    validateLayout (num := float) (pit "rock" 2 30 20 10)%float
      [(sensor_at "horizontal-displacement" 15 0 0 0)%float;
       (sensor_at "ground-settlement" 40 0 0 1)%float] = Return r1
    /\ validateLayout (num := float) (pit "rock" 2 30 20 10)%float
         [(sensor_at "ground-settlement" 0 0 25 0)%float;
          (sensor_at "horizontal-displacement" (-15) 1 3 1)%float] = Return r2
    /\ errors r1 = errors r2 /\ suggestions r1 = suggestions r2
    /\ warnings r1 <> warnings r2.
Proof.
  eexists. eexists. split; [reflexivity|]. split; [reflexivity|].
  destruct (presence_depends_on_types_only (num := float)
              (pit "rock" 2 30 20 10)%float
              {| required := [ "horizontal-displacement"; "ground-settlement" ];
                 recommended := [ "vertical-displacement"; "anchor-force"; "water-level" ];
                 optional := [] |}
              [(sensor_at "horizontal-displacement" 15 0 0 0)%float;
               (sensor_at "ground-settlement" 40 0 0 1)%float]
              [(sensor_at "ground-settlement" 0 0 25 0)%float;
               (sensor_at "horizontal-displacement" (-15) 1 3 1)%float]
              _ _ eq_refl (perm_swap _ _ _) eq_refl eq_refl)
    as (H1 & H2 & _).
  split; [exact H1|]. split; [exact H2|].
  vm_compute. intros F. apply (f_equal (@List.length _)) in F. discriminate F.
Defined.

(** A rock pit of level 2 requires horizontal displacement and ground
    settlement; one of level 3 horizontal displacement only. *)
Lemma laxer_level_keeps_validity_witness :
  exists r1 r2,
    validateLayout (num := float) (pit "rock" 2 30 20 10)%float
      [(sensor_at "horizontal-displacement" 15 0 0 0)%float;
       (sensor_at "ground-settlement" 40 0 0 1)%float] = Return r1
    /\ validateLayout (num := float) (pit "rock" 3 60 40 4)%float
         [(sensor_at "horizontal-displacement" 15 0 0 0)%float;
          (sensor_at "ground-settlement" 40 0 0 1)%float] = Return r2
    /\ isValid r1 = true /\ isValid r2 = true.
Proof.
  eexists. eexists. split; [reflexivity|]. split; [reflexivity|].
  split; [vm_compute; reflexivity|].
  apply (laxer_level_keeps_validity (num := float)
           (pit "rock" 2 30 20 10)%float (pit "rock" 3 60 40 4)%float
           {| required := [ "horizontal-displacement"; "ground-settlement" ];
              recommended := [ "vertical-displacement"; "anchor-force"; "water-level" ];
              optional := [] |}
           {| required := [ "horizontal-displacement" ];
              recommended := [ "ground-settlement" ];
              optional := [ "vertical-displacement"; "anchor-force" ] |}
           [(sensor_at "horizontal-displacement" 15 0 0 0)%float;
            (sensor_at "ground-settlement" 40 0 0 1)%float]
           _ _ eq_refl ltac:(cbn; lia) eq_refl eq_refl eq_refl eq_refl).
  vm_compute. reflexivity.
Defined.

Lemma too_few_wall_sensors_implies_sides_warning_witness :
  exists n rest,
    1 <= n <= 4
    /\ warnings (fst (checkWallDisplacementLayout (num := float)
                        [(sensor_at "horizontal-displacement" 15 0 0 0)%float]
                        30%float 20%float initial_results
                        {| wallDisplacement := None; deepHorizontal := None;
                           groundSettlement := None |}))
       = [] ++ too_few_wall_sensors :: sides_warning n :: rest.
Proof.
  apply (too_few_wall_sensors_implies_sides_warning (num := float)
           [(sensor_at "horizontal-displacement" 15 0 0 0)%float]
           30%float 20%float initial_results).
  vm_compute. lia.
Defined.

Lemma store_ids_are_positions_witness :
  well_numbered (num := float)
    (removeSensor 0
       {| st_config := None;
          st_sensors := [(sensor_at "water-level" 0 0 0 0)%float;
                         (sensor_at "anchor-force" 1 0 1 1)%float] |})
  /\ map sensor_id
       (st_sensors
          (removeSensor (num := float) 0
             {| st_config := None;
                st_sensors := [(sensor_at "water-level" 0 0 0 0)%float;
                               (sensor_at "anchor-force" 1 0 1 1)%float] |}))
     = [0].
Proof.
  split; [|reflexivity].
  apply (store_ids_are_positions (num := float)
           {| st_config := None;
              st_sensors := [(sensor_at "water-level" 0 0 0 0)%float;
                             (sensor_at "anchor-force" 1 0 1 1)%float] |}).
  reflexivity.
Defined.

Lemma place_then_remove_last_witness :
  exists st',
    placeSensor (num := float) "water-level"
      {| pos_x := 3%float; pos_y := (-2)%float; pos_z := 4%float |}
      {| st_config := Some (pit "soil" 1 30 20 10)%float;
         st_sensors := [(sensor_at "anchor-force" 1 0 1 0)%float] |}
    = Return (true, st')
    /\ List.length (st_sensors st') = 2
    /\ removeSensor 1 st'
       = {| st_config := Some (pit "soil" 1 30 20 10)%float;
            st_sensors := [(sensor_at "anchor-force" 1 0 1 0)%float] |}.
Proof.
  eexists. split; [vm_compute; reflexivity|]. split; [reflexivity|].
  apply (place_then_remove_last (num := float) "water-level"
           {| pos_x := 3%float; pos_y := (-2)%float; pos_z := 4%float |}
           {| st_config := Some (pit "soil" 1 30 20 10)%float;
              st_sensors := [(sensor_at "anchor-force" 1 0 1 0)%float] |}).
  - reflexivity.
  - vm_compute. reflexivity.
Defined.

Lemma placements_stay_within_reach_witness :
  within_reach (num := float) (pit "soil" 1 30 20 10)%float
    [(sensor_at "water-level" 3 (-2) 4 0)%float]
  /\ placeSensor (num := float) "water-level"
       {| pos_x := 61%float; pos_y := 0%float; pos_z := 0%float |}
       {| st_config := Some (pit "soil" 1 30 20 10)%float; st_sensors := [] |}
     = Return (false,
               {| st_config := Some (pit "soil" 1 30 20 10)%float; st_sensors := [] |}).
Proof.
  split; [|vm_compute; reflexivity].
  apply (proj1 (placements_stay_within_reach (num := float)
                  (pit "soil" 1 30 20 10)%float
                  {| st_config := Some (pit "soil" 1 30 20 10)%float; st_sensors := [] |}
                  eq_refl (fun s (F : In s []) => match F with end))
          "water-level" {| pos_x := 3%float; pos_y := (-2)%float; pos_z := 4%float |}
          true
          {| st_config := Some (pit "soil" 1 30 20 10)%float;
             st_sensors := [(sensor_at "water-level" 3 (-2) 4 0)%float] |}).
  vm_compute. reflexivity.
Defined.

(** A valid layout with warnings shows the success block alone. *)
Lemma validation_panel_of_a_report_witness :
  validateSensorLayout (num := float) (pit "rock" 3 30 20 10)%float
    {| st_config := Some (pit "rock" 3 30 20 10)%float;
       st_sensors := [(sensor_at "horizontal-displacement" 15 0 0 0)%float] |}
  = Return [Success]
  /\ exists r,
       validateLayout (num := float) (pit "rock" 3 30 20 10)%float
         [(sensor_at "horizontal-displacement" 15 0 0 0)%float] = Return r
       /\ List.length (warnings r) = 8.
Proof.
  split; [|eexists; split; [reflexivity|vm_compute; reflexivity]].
  etransitivity;
    [exact (proj1 (validation_panel_of_a_report (num := float)
                     (pit "rock" 3 30 20 10)%float
                     {| st_config := Some (pit "rock" 3 30 20 10)%float;
                        st_sensors :=
                          [(sensor_at "horizontal-displacement" 15 0 0 0)%float] |}
                     _ eq_refl))|].
  vm_compute. reflexivity.
Defined.

(** The same plan at another depth and with another id. *)
Lemma validateLayout_reads_the_plan_only_witness :
  validateLayout (num := float) (pit "soil" 1 30 20 10)%float
    [(sensor_at "horizontal-displacement" 15 0 10 0)%float]
  = validateLayout (num := float) (pit "soil" 1 30 20 10)%float
      [(sensor_at "horizontal-displacement" 15 (-7) 10 5)%float].
Proof.
  apply (validateLayout_reads_the_plan_only (num := float)). reflexivity.
Defined.


(** ** Witnesses of the layout and range checks, in binary64 *)

(** A 30 by 20 pit with six sensors: one on the east edge whose z of 1e-9
    rounds away in the distance, which is the double 15 and so not beyond
    half of the larger dimension; one at distance 20, outside; four at the
    centre. *)
Lemma range_coverage_checker_witness :
  let config := (pit "soil" 1 30 20 10)%float in
  let sensors :=
    [ (sensor_at "water-level" 15 0 0x1.12e0be826d695p-30 0)%float;
      (sensor_at "ground-settlement" 20 0 0 1)%float;
      (sensor_at "water-level" 0 0 0 2)%float;
      (sensor_at "water-level" 0 0 0 3)%float;
      (sensor_at "water-level" 0 0 0 4)%float;
      (sensor_at "water-level" 0 0 0 5)%float ] in
  let coverage := snd (checkMonitoringRange config sensors initial_results) in
  r_total coverage = 6
  /\ r_outside coverage = 1
  /\ r_maxDistance coverage = 20%float
  /\ r_recommendedMaxDistance coverage = 45%float
  /\ warnings (fst (checkMonitoringRange config sensors initial_results))
     = [peripheral_coverage].
Proof.
  cbv zeta.
  match goal with
  | |- r_total (snd (checkMonitoringRange ?c ?s ?r)) = _ /\ _ =>
      pose proof (proj1 range_coverage_checker float float_JSNumber c s r) as H
  end.
  cbv zeta in H. destruct H as (H1 & H2 & H3 & H4 & H5 & _).
  rewrite H1, H2, H3, H4, H5. vm_compute. repeat split.
Defined.

(** A 30 by 20 pit with four wall sensors on the east edge, one of them
    at the north-east corner, and a water-level sensor that the check
    ignores: the west, north and south sides lack sensors, and so do the
    three corners other than the north-east one (the sensor at z = -5 is
    at distance 5 from the south-east corner, not within 5). *)
Lemma wall_displacement_layout_warnings_witness :
  let sensors :=
    [ (sensor_at "horizontal-displacement" 15 0 (-5) 0)%float;
      (sensor_at "vertical-displacement" 15 0 0 1)%float;
      (sensor_at "horizontal-displacement" 15 0 5 2)%float;
      (sensor_at "horizontal-displacement" 15 0 10 3)%float;
      (sensor_at "water-level" (-15) 0 (-10) 4)%float ] in
  warnings (fst (checkWallDisplacementLayout sensors 30%float 20%float initial_results
                   {| wallDisplacement := None; deepHorizontal := None;
                      groundSettlement := None |}))
  = [ too_few_wall_sensors; sides_warning 3; corners_warning 3 ].
Proof.
  cbv zeta.
  match goal with
  | |- warnings (fst (checkWallDisplacementLayout ?s ?l ?w ?r ?lr)) = _ =>
      pose proof (wall_displacement_layout_warnings (num := float) s l w r lr) as H
  end.
  cbv zeta in H. destruct H as (H & _).
  rewrite H. vm_compute. reflexivity.
Defined.

(** The sensor at the north-east corner of the 30 by 20 pit passes the
    east test and the north test; it is listed and counted east, and
    neither listed nor counted north.  A sensor on the north edge away
    from the corners is counted north. *)
Lemma side_classification_priority_witness :
  let corner := (sensor_at "horizontal-displacement" 15 0 10 0)%float in
  let edge := (sensor_at "horizontal-displacement" 0 0 10 1)%float in
  let d := analyzeSensorDistribution [corner; edge] 30%float 20%float in
  (Math_abs (pos_x (position corner) - 30%float / lit 2) <? lit 2)%js = true
  /\ (Math_abs (pos_z (position corner) - 20%float / lit 2) <? lit 2)%js = true
  /\ assign_sides [corner; edge] 30%float 20%float
     = [ {| side_name := "east"; side_sensors := [corner] |};
         {| side_name := "west"; side_sensors := [] |};
         {| side_name := "north"; side_sensors := [edge] |};
         {| side_name := "south"; side_sensors := [] |} ]
  /\ east d = 1 /\ west d = 0 /\ north d = 1 /\ south d = 0.
Proof.
  cbv zeta.
  match goal with
  | |- _ /\ _ /\ assign_sides ?s ?l ?w = _ /\ _ =>
      pose proof (side_classification_priority (num := float) s l w) as H
  end.
  cbv zeta in H. destruct H as (Ha & He & Hw & Hn & Hs & _).
  rewrite Ha, He, Hw, Hn, Hs. vm_compute. repeat split.
Defined.

(** Two sensors of a 30 by 20 pit, at the distances 15 and 29, within the
    limit 60 of the placement check. *)
Lemma reported_distances_within_placement_limit_witness :
  let config := (pit "soil" 1 30 20 10)%float in
  let sensors :=
    [ (sensor_at "water-level" 15 0 0 0)%float;
      (sensor_at "ground-settlement" 20 0 21 1)%float ] in
  within_reach config sensors
  /\ r_maxDistance (snd (checkMonitoringRange config sensors initial_results))
     = 29%float
  /\ (r_maxDistance (snd (checkMonitoringRange config sensors initial_results))
      <=? 60%float)%js = true.
Proof.
  cbv zeta.
  match goal with
  | |- within_reach ?c ?s /\ _ =>
      assert (W : within_reach c s)
        by (intros x [<- | [<- | []]]; vm_compute; reflexivity);
      pose proof (reported_distances_within_placement_limit c s initial_results W) as H
  end.
  split; [exact W|]. split; [vm_compute; reflexivity|].
  apply H.
  - intros x [<- | [<- | []]]; vm_compute; reflexivity.
  - vm_compute. reflexivity.
Defined.

(** A soil pit of level 3, 30 by 20: 35 sensors are adequate, and they
    stay so when 5 more are placed. *)
Lemma adequate_grows_with_sensors_witness :
  let config := (pit "soil" 3 30 20 10)%float in
  let sensors := repeat (sensor_at "horizontal-displacement" 15 0 0 0)%float 35 in
  let extra := repeat (sensor_at "water-level" 0 0 0 0)%float 5 in
  q_adequate (checkSensorQuantity config sensors initial_results) = true
  /\ q_adequate (checkSensorQuantity config (sensors ++ extra) initial_results) = true.
Proof.
  cbv zeta.
  match goal with
  | |- q_adequate (checkSensorQuantity ?c ?s ?r) = true
       /\ q_adequate (checkSensorQuantity _ (_ ++ ?e) _) = true =>
      pose proof (adequate_grows_with_sensors c s e r eq_refl eq_refl) as (_ & H & _)
  end.
  split; [vm_compute; reflexivity|]. apply H. vm_compute. reflexivity.
Defined.

(** A sensor at the north-east corner of the 30 by 20 pit, and one at
    its south-west corner found through the west and south tests. *)
Lemma sensor_near_two_edges_covers_their_corner_witness :
  hasCornerSensor (num := float)
    [sensor_at "horizontal-displacement" 0 0 0 0;
     sensor_at "horizontal-displacement" (-14) 0 (-11.5) 0]%float
    (-15, -10)%float = true
  /\ missingCorner (identifyCriticalPositions (num := float)
       [sensor_at "horizontal-displacement" 0 0 0 0;
        sensor_at "horizontal-displacement" (-14) 0 (-11.5) 0]%float 30%float 20%float)
     <= 3.
Proof.
  pose proof (sensor_near_two_edges_covers_their_corner 30%float 20%float
                [sensor_at "horizontal-displacement" 0 0 0 0;
                 sensor_at "horizontal-displacement" (-14) 0 (-11.5) 0]%float
                (sensor_at "horizontal-displacement" (-14) 0 (-11.5) 0)%float
                (or_intror (or_introl eq_refl))
                (or_intror eq_refl) (or_intror eq_refl)) as W.
  split; [exact (proj1 (proj2 (proj2 (proj2 W))))|exact (proj2 (proj2 (proj2 (proj2 W))))].
Defined.

(** Three sensors cannot cover the four corners of the 30 by 20 pit. *)
Lemma four_corners_need_four_sensors_witness :
  0 < missingCorner (identifyCriticalPositions (num := float)
        [sensor_at "horizontal-displacement" 15 0 10 0;
         sensor_at "horizontal-displacement" (-15) 0 10 0;
         sensor_at "horizontal-displacement" 12 0 (-8) 0]%float 30%float 20%float).
Proof.
  apply (four_corners_need_four_sensors 30%float 20%float
           [sensor_at "horizontal-displacement" 15 0 10 0;
            sensor_at "horizontal-displacement" (-15) 0 10 0;
            sensor_at "horizontal-displacement" 12 0 (-8) 0]%float eq_refl eq_refl).
  cbn [List.length]. lia.
Defined.

(** A corner sensor and a centre sensor in the 30 by 20 pit. *)
Lemma corner_and_middle_do_not_overlap_witness :
  corners (analyzeSensorDistribution (num := float)
             [sensor_at "horizontal-displacement" 15 0 10 0;
              sensor_at "horizontal-displacement" 0 0 0 0]%float 30%float 20%float)
  + middle (analyzeSensorDistribution (num := float)
              [sensor_at "horizontal-displacement" 15 0 10 0;
               sensor_at "horizontal-displacement" 0 0 0 0]%float 30%float 20%float)
  <= 2.
Proof.
  exact (proj2 (proj2 (proj2
           (corner_and_middle_do_not_overlap 30%float 20%float
              [sensor_at "horizontal-displacement" 15 0 10 0;
               sensor_at "horizontal-displacement" 0 0 0 0]%float eq_refl eq_refl)))).
Defined.
